(** * Federation, message and room handlers of the homeserver

    A shallow embedding of the Python handlers

    - [handlers/federation.py] ([FederationHandler]),
    - [handlers/message.py]    ([MessageHandler]),
    - [handlers/room.py]       ([RoomHandler]),
    - [api/federation.py]      ([FederationAPI]),

    together with the properties the design document states about them.

    The handlers are dynamically typed and talk to collaborators that the
    homeserver object [hs] hands out (datastore, auth engine, event builder).
    Python values are embedded as [pyval], exceptions as [exn], and a handler
    is a program [prog A] whose nodes are the collaborator calls it awaits.
    [run] executes a program against an arbitrary implementation of the
    collaborators and returns the result, the final world and the list of
    collaborator calls that were made, in order. *)

From Stdlib Require Import ZArith String Ascii DecimalString.
From stdpp Require Import base option list strings gmap.

Local Open Scope string_scope.
Local Open Scope Z_scope.

(** ** Python values *)

Set Warnings "-register-all".

(** The JSON-shaped values the handlers pass around.  A dict keeps its
    insertion order and is keyed by hashable values. *)
Inductive pyval : Type :=
| PNone
| PBool (b : bool)
| PInt (n : Z)
| PStr (s : string)
| PList (l : list pyval)
| PDict (d : list (pyval * pyval)).

Inductive exn_class : Type :=
| AttributeError | KeyError | TypeError | ValueError | RuntimeError.

(** An exception instance: its class and [str(e)]. *)
Inductive exn : Type := Exn (cls : exn_class) (msg : string).

Definition exn_str (e : exn) : string := let 'Exn _ m := e in m.

(** The outcome of evaluating an expression or awaiting a call. *)
Inductive res (A : Type) : Type :=
| Ret (a : A)
| Raise (e : exn).
Arguments Ret {A} a.
Arguments Raise {A} e.

Definition type_name (v : pyval) : string :=
  match v with
  | PNone => "NoneType" | PBool _ => "bool" | PInt _ => "int"
  | PStr _ => "str" | PList _ => "list" | PDict _ => "dict"
  end.

(** [bool(v)] *)
Definition py_truthy (v : pyval) : bool :=
  match v with
  | PNone => false
  | PBool b => b
  | PInt n => negb (n =? 0)
  | PStr s => negb (String.eqb s "")
  | PList l => match l with [] => false | _ => true end
  | PDict d => match d with [] => false | _ => true end
  end.

(** Lists and dicts are unhashable. *)
Definition hashable (v : pyval) : bool :=
  match v with PList _ | PDict _ => false | _ => true end.

(** Equality of hashable scalars, as used for dict keys: [True == 1],
    [False == 0], strings by content. *)
Definition key_eqb (a b : pyval) : bool :=
  match a, b with
  | PNone, PNone => true
  | PStr s, PStr t => String.eqb s t
  | PBool x, PBool y => Bool.eqb x y
  | PInt x, PInt y => x =? y
  | PBool x, PInt y | PInt y, PBool x => (if x then 1 else 0) =? y
  | _, _ => false
  end.

Fixpoint dict_lookup (k : pyval) (d : list (pyval * pyval)) : option pyval :=
  match d with
  | [] => None
  | (k', v) :: d' => if key_eqb k' k then Some v else dict_lookup k d'
  end.

(** [d[k] = v] for a hashable [k]: overwrite in place, else append. *)
Fixpoint dict_set (k v : pyval) (d : list (pyval * pyval)) : list (pyval * pyval) :=
  match d with
  | [] => [(k, v)]
  | (k', v') :: d' =>
      if key_eqb k' k then (k', v) :: d' else (k', v') :: dict_set k v d'
  end.

(** [d.update(other)] *)
Definition dict_update (d other : list (pyval * pyval)) : list (pyval * pyval) :=
  fold_left (fun acc kv => dict_set kv.1 kv.2 acc) other d.

Definition unhashable (v : pyval) : exn :=
  Exn TypeError ("unhashable type: '" +:+ type_name v +:+ "'").

(** [obj.get(key, default)] *)
Definition py_get (obj : pyval) (key : string) (dflt : pyval) : res pyval :=
  match obj with
  | PDict d => Ret (default dflt (dict_lookup (PStr key) d))
  | _ => Raise (Exn AttributeError
                  ("'" +:+ type_name obj +:+ "' object has no attribute 'get'"))
  end.

(** [key in obj] for a string [key]: dict membership, substring of a string,
    element of a list; other values are not iterable. *)
Definition py_contains (key : string) (obj : pyval) : res bool :=
  match obj with
  | PDict d => Ret (bool_decide (is_Some (dict_lookup (PStr key) d)))
  | PStr s => Ret (bool_decide (is_Some (String.index 0 key s)))
  | PList l => Ret (existsb (fun x => key_eqb x (PStr key)) l)
  | _ => Raise (Exn TypeError
                  ("argument of type '" +:+ type_name obj +:+ "' is not iterable"))
  end.

(** [obj[key]] for a string [key]. *)
Definition py_getitem (obj : pyval) (key : string) : res pyval :=
  match obj with
  | PDict d =>
      match dict_lookup (PStr key) d with
      | Some v => Ret v
      | None => Raise (Exn KeyError ("'" +:+ key +:+ "'"))
      end
  | PList _ => Raise (Exn TypeError "list indices must be integers or slices, not str")
  | PStr _ => Raise (Exn TypeError "string indices must be integers, not 'str'")
  | _ => Raise (Exn TypeError
                  ("'" +:+ type_name obj +:+ "' object is not subscriptable"))
  end.

(** [v != s] where [s] is a [str]: only an equal string compares equal. *)
Definition py_ne_str (v : pyval) (s : string) : bool :=
  match v with
  | PStr t => negb (String.eqb t s)
  | _ => true
  end.

Definition num_of (v : pyval) : option Z :=
  match v with
  | PInt n => Some n
  | PBool b => Some (if b then 1 else 0)
  | _ => None
  end.

(** [a == b]: numbers by value ([True == 1]), strings by content, lists
    elementwise, dicts key by key whatever the insertion order. *)
Fixpoint py_eq (a b : pyval) : bool :=
  match a, b with
  | PList la, PList lb =>
      (fix go (la lb : list pyval) : bool :=
         match la, lb with
         | [], [] => true
         | x :: xs, y :: ys => py_eq x y && go xs ys
         | _, _ => false
         end) la lb
  | PDict da, PDict db =>
      (length da =? length db)%nat &&
      (fix go (da : list (pyval * pyval)) : bool :=
         match da with
         | [] => true
         | (k, v) :: rest =>
             match dict_lookup k db with
             | Some v' => py_eq v v' && go rest
             | None => false
             end
         end) da
  | PList _, _ | PDict _, _ => false
  | _, _ => key_eqb a b
  end.

(** [a < b]: numbers by value, strings and lists lexicographically; any
    other pairing is a [TypeError]. *)
Fixpoint py_lt (a b : pyval) : res bool :=
  match a, b with
  | PList la, PList lb =>
      (fix go (la lb : list pyval) : res bool :=
         match la, lb with
         | [], [] => Ret false
         | [], _ :: _ => Ret true
         | _ :: _, [] => Ret false
         | x :: xs, y :: ys => if py_eq x y then go xs ys else py_lt x y
         end) la lb
  | PStr s, PStr t => Ret (String.ltb s t)
  | _, _ =>
      match num_of a, num_of b with
      | Some x, Some y => Ret (x <? y)
      | _, _ => Raise (Exn TypeError
                         ("'<' not supported between instances of '" +:+
                          type_name a +:+ "' and '" +:+ type_name b +:+ "'"))
      end
  end.

Fixpoint chars (s : string) : list pyval :=
  match s with
  | EmptyString => []
  | String c s' => PStr (String c EmptyString) :: chars s'
  end.

(** The items a [for] loop over [v] visits: the elements of a list, the keys
    of a dict, the characters of a string. *)
Definition py_iter (v : pyval) : res (list pyval) :=
  match v with
  | PList l => Ret l
  | PDict d => Ret (d.*1)
  | PStr s => Ret (chars s)
  | _ => Raise (Exn TypeError ("'" +:+ type_name v +:+ "' object is not iterable"))
  end.

(** [len(v)] *)
Definition py_len (v : pyval) : res Z :=
  match v with
  | PList l => Ret (Z.of_nat (length l))
  | PDict d => Ret (Z.of_nat (length d))
  | PStr s => Ret (Z.of_nat (String.length s))
  | _ => Raise (Exn TypeError ("object of type '" +:+ type_name v +:+ "' has no len()"))
  end.

(** [d[k] = v] on a dict under construction; an unhashable key raises. *)
Definition py_setitem (d : list (pyval * pyval)) (k v : pyval)
  : res (list (pyval * pyval)) :=
  if hashable k then Ret (dict_set k v d) else Raise (unhashable k).

(** ** Collaborators *)

(** The awaited calls on the objects handed out by [hs]: the auth engine
    ([self.event_auth]), the datastore ([self.store]) and the event builder
    ([self.event_builder]).  None of them is implemented in the handlers'
    sources; their behaviour is a parameter of [run]. *)
Inductive call : Type :=
| check_auth_rules_for_event (event : pyval)
| get_event_by_id (event_id : pyval)
| store_event (event : pyval)
| get_room_membership (user_id room_id : string)
| get_event_by_txn_id (sender_id room_id txn_id : string)
| store_txn_id_mapping (sender_id room_id txn_id event_id : string)
| get_user_power_level (user_id room_id : string)
| get_room_redact_level (room_id : string)
| redact_event (target_event_id event_id : string)
| create_event (kwargs : list (string * pyval)).

(** A handler body: it finishes with a value or an exception, awaits a
    collaborator, or draws a token from [secrets.token_urlsafe]. *)
Inductive prog (A : Type) : Type :=
| Done (r : res A)
| Call (c : call) (k : res pyval -> prog A)
| Token (nbytes : Z) (k : string -> prog A).
Arguments Done {A} r.
Arguments Call {A} c k.
Arguments Token {A} nbytes k.

Fixpoint bind {A B} (p : prog A) (f : A -> prog B) : prog B :=
  match p with
  | Done (Ret a) => f a
  | Done (Raise e) => Done (Raise e)
  | Call c k => Call c (fun r => bind (k r) f)
  | Token n k => Token n (fun s => bind (k s) f)
  end.

#[global] Instance prog_ret : MRet prog := fun A a => Done (Ret a).
#[global] Instance prog_bind : MBind prog := fun A B f p => bind p f.

(** [raise e] *)
Definition raise {A} (e : exn) : prog A := Done (Raise e).
(** Evaluate an expression that may raise. *)
Definition eval {A} (r : res A) : prog A := Done r.
(** [await collaborator.method(...)] *)
Definition await (c : call) : prog pyval := Call c Done.
(** [secrets.token_urlsafe(nbytes)] *)
Definition secrets_token_urlsafe (nbytes : Z) : prog string :=
  Token nbytes (fun s => Done (Ret s)).

(** [try: p  except Exception as e: h e].  An [exn] is an exception of
    class [Exception], so the handler takes every [exn]; what is raised at an
    await and is no [Exception] ([asyncio.CancelledError] and the like) is not
    caught and never reaches a [prog]: see [crun]. *)
Fixpoint try_except {A} (p : prog A) (h : exn -> prog A) : prog A :=
  match p with
  | Done (Ret a) => Done (Ret a)
  | Done (Raise e) => h e
  | Call c k => Call c (fun r => try_except (k r) h)
  | Token n k => Token n (fun s => try_except (k s) h)
  end.

(** An implementation of the collaborators over some world. *)
Record homeserver (World : Type) : Type := Homeserver {
  perform : call -> World -> res pyval * World;
  token_urlsafe : Z -> World -> string * World
}.
Arguments perform {World} _ _ _.
Arguments token_urlsafe {World} _ _ _.

(** What one execution leaves behind. *)
Record outcome (A World : Type) : Type := Outcome {
  result : res A;
  world : World;
  calls : list call
}.
Arguments Outcome {A World} _ _ _.
Arguments result {A World} _.
Arguments world {A World} _.
Arguments calls {A World} _.

Fixpoint run {A World} (hs : homeserver World) (p : prog A) (w : World)
  : outcome A World :=
  match p with
  | Done r => Outcome r w []
  | Call c k =>
      let '(x, w1) := perform hs c w in
      let o := run hs (k x) w1 in
      Outcome (result o) (world o) (c :: calls o)
  | Token n k =>
      let '(s, w1) := token_urlsafe hs n w in
      run hs (k s) w1
  end.

(** An execution that carries on where [o] stopped. *)
Definition then_outcome {A B World} (o : outcome A World) (o' : outcome B World)
  : outcome B World :=
  Outcome (result o') (world o') (calls o ++ calls o').

(** The events handed to [store.store_event] during an execution. *)
Definition stored (cs : list call) : list pyval :=
  omap (fun c => match c with store_event e => Some e | _ => None end) cs.

(** The events the auth engine was asked about. *)
Definition auth_checked (cs : list call) : list pyval :=
  omap (fun c => match c with check_auth_rules_for_event e => Some e | _ => None end) cs.

(** ** [handlers/federation.py] *)

Module FederationHandler.

Definition required_fields : list string :=
  ["event_id"; "type"; "room_id"; "sender"; "origin_server_ts"].

(** The loop over [required_fields]: the first field not in the event. *)
Fixpoint first_missing (fields : list string) (event : pyval)
  : res (option string) :=
  match fields with
  | [] => Ret None
  | field :: rest =>
      match py_contains field event with
      | Ret true => first_missing rest event
      | Ret false => Ret (Some field)
      | Raise e => Raise e
      end
  end.

Definition _validate_event (event : pyval) : prog bool :=
  try_except
    (missing ← eval (first_missing required_fields event);
     match missing with
     | Some _ => mret false
     | None =>
         auth_result ← await (check_auth_rules_for_event event);
         if negb (py_truthy auth_result) then
           (* the warning's f-string reads event['event_id'] *)
           _ ← eval (py_getitem event "event_id");
           mret false
         else mret true
     end)
    (fun _ => mret false).

(** [secrets.token_urlsafe(32)]: the local part only. *)
Definition _generate_event_id : prog string :=
  secrets_token_urlsafe 32.

Definition handle_incoming_event (origin : string) (event : pyval) : prog bool :=
  (* logger.debug(f"... {event.get('event_id')} ...") precedes the try *)
  _ ← eval (py_get event "event_id" PNone);
  try_except
    (declared ← eval (py_get event "origin" PNone);
     if py_ne_str declared origin then
       _ ← eval (py_get event "origin" PNone);
       mret false
     else
       valid ← _validate_event event;
       if negb valid then mret false
       else
         event_id ← eval (py_getitem event "event_id");
         existing_event ← await (get_event_by_id event_id);
         if py_truthy existing_event then
           _ ← eval (py_getitem event "event_id");
           mret true
         else
           _ ← await (store_event event);
           _ ← eval (py_getitem event "event_id");
           mret true)
    (fun _ => mret false).

End FederationHandler.

(** ** [handlers/message.py] *)

(** [bool(s)] for a [str] and for an [Optional[str]]. *)
Definition str_truthy (s : string) : bool := negb (String.eqb s "").

Definition opt_str_truthy (s : option string) : bool :=
  match s with
  | Some t => str_truthy t
  | None => false
  end.

Definition opt_str_val (s : option string) : pyval :=
  match s with
  | Some t => PStr t
  | None => PNone
  end.

Module MessageHandler.
Section WithSelf.
(** [self.hs.hostname] *)
Variable hostname : string.

Definition _generate_event_id : prog string :=
  event_localpart ← secrets_token_urlsafe 32;
  mret ("$" +:+ event_localpart +:+ ":" +:+ hostname).

Definition send_message (room_id sender_id message_type : string)
    (content : list (pyval * pyval)) (txn_id : option string) : prog pyval :=
  membership ← await (get_room_membership sender_id room_id);
  if py_ne_str membership "join" then
    raise (Exn ValueError
             ("User " +:+ sender_id +:+ " is not in room " +:+ room_id))
  else
    let create_and_store : prog pyval :=
      event_id ← _generate_event_id;
      event ← await (create_event
                 [("event_type", PStr "m.room.message");
                  ("room_id", PStr room_id);
                  ("sender", PStr sender_id);
                  ("content",
                    PDict (dict_update [(PStr "msgtype", PStr message_type)] content));
                  ("event_id", PStr event_id);
                  ("txn_id", opt_str_val txn_id)]);
      _ ← await (store_event event);
      _ ← (if opt_str_truthy txn_id then
             await (store_txn_id_mapping sender_id room_id
                      (default "" txn_id) event_id)
           else mret PNone);
      mret (PDict [(PStr "event_id", PStr event_id)]) in
    if opt_str_truthy txn_id then
      existing_event ← await (get_event_by_txn_id sender_id room_id
                                 (default "" txn_id));
      if py_truthy existing_event then
        existing_id ← eval (py_getitem existing_event "event_id");
        mret (PDict [(PStr "event_id", existing_id)])
      else create_and_store
    else create_and_store.

Definition redact_message (room_id sender_id target_event_id : string)
    (reason txn_id : option string) : prog pyval :=
  target_event ← await (get_event_by_id (PStr target_event_id));
  if negb (py_truthy target_event) then
    raise (Exn ValueError ("Event " +:+ target_event_id +:+ " not found"))
  else
    target_sender ← eval (py_getitem target_event "sender");
    _ ← (if py_ne_str target_sender sender_id then
           power_level ← await (get_user_power_level sender_id room_id);
           redact_level ← await (get_room_redact_level room_id);
           below ← eval (py_lt power_level redact_level);
           if below : bool then
             raise (Exn ValueError "Insufficient permissions to redact message")
           else mret ()
         else mret ());
    event_id ← _generate_event_id;
    let content :=
      if opt_str_truthy reason
      then [(PStr "reason", opt_str_val reason)] else [] in
    event ← await (create_event
               [("event_type", PStr "m.room.redaction");
                ("room_id", PStr room_id);
                ("sender", PStr sender_id);
                ("content", PDict content);
                ("redacts", PStr target_event_id);
                ("event_id", PStr event_id);
                ("txn_id", opt_str_val txn_id)]);
    _ ← await (store_event event);
    _ ← await (redact_event target_event_id event_id);
    mret (PDict [(PStr "event_id", PStr event_id)]).

End WithSelf.
End MessageHandler.

(** ** [handlers/room.py] *)

Module RoomHandler.

(** The [content] literal of [_create_power_levels_event]. *)
Definition default_power_levels (creator : string) : list (pyval * pyval) :=
  [(PStr "ban", PInt 50);
   (PStr "events", PDict
      [(PStr "m.room.name", PInt 50);
       (PStr "m.room.power_levels", PInt 100);
       (PStr "m.room.history_visibility", PInt 100);
       (PStr "m.room.canonical_alias", PInt 50);
       (PStr "m.room.avatar", PInt 50);
       (PStr "m.room.tombstone", PInt 100);
       (PStr "m.room.server_acl", PInt 100);
       (PStr "m.room.encryption", PInt 100)]);
   (PStr "events_default", PInt 0);
   (PStr "invite", PInt 50);
   (PStr "kick", PInt 50);
   (PStr "redact", PInt 50);
   (PStr "state_default", PInt 50);
   (PStr "users", PDict [(PStr creator, PInt 100)]);
   (PStr "users_default", PInt 0);
   (PStr "notifications", PDict [(PStr "room", PInt 50)])].

(** [content] after [if override_content: content.update(override_content)]. *)
Definition power_levels_content (creator : string)
    (override_content : option (list (pyval * pyval))) : list (pyval * pyval) :=
  match override_content with
  | Some (kv :: rest) => dict_update (default_power_levels creator) (kv :: rest)
  | Some [] | None => default_power_levels creator
  end.

Definition _create_power_levels_event (room_id creator : string)
    (override_content : option (list (pyval * pyval))) : prog pyval :=
  await (create_event
           [("event_type", PStr "m.room.power_levels");
            ("room_id", PStr room_id);
            ("sender", PStr creator);
            ("content", PDict (power_levels_content creator override_content));
            ("state_key", PStr "")]).

End RoomHandler.

(** ** [api/federation.py] *)

Module FederationAPI.

(** [self.federation_handler.handle_incoming_edu]: [FederationHandler]
    defines no such method, so the attribute lookup raises. *)
Definition handle_incoming_edu (origin : string) (edu : pyval) : prog pyval :=
  raise (Exn AttributeError
           "'FederationHandler' object has no attribute 'handle_incoming_edu'").

(** The loop over [pdus], threading [pdu_results]. *)
Fixpoint process_pdus (origin : string) (pdus : list pyval)
    (pdu_results : list (pyval * pyval)) : prog (list (pyval * pyval)) :=
  match pdus with
  | [] => mret pdu_results
  | pdu :: rest =>
      pdu_results' ←
        try_except
          (result ← FederationHandler.handle_incoming_event origin pdu;
           key ← eval (py_get pdu "event_id" (PStr ""));
           eval (py_setitem pdu_results key (PBool result)))
          (fun e =>
             (* logger.warning(f"... {pdu.get('event_id')}: {e}") *)
             _ ← eval (py_get pdu "event_id" PNone);
             key ← eval (py_get pdu "event_id" (PStr ""));
             eval (py_setitem pdu_results key
                     (PDict [(PStr "error", PStr (exn_str e))])));
      process_pdus origin rest pdu_results'
  end.

(** The loop over [edus]. *)
Fixpoint process_edus (origin : string) (edus : list pyval) : prog unit :=
  match edus with
  | [] => mret ()
  | edu :: rest =>
      _ ← try_except
            (_ ← handle_incoming_edu origin edu; mret ())
            (fun e =>
               (* logger.warning(f"... {edu.get('edu_type')}: {e}") *)
               _ ← eval (py_get edu "edu_type" PNone);
               mret ());
      process_edus origin rest
  end.

(** The method returns a pair of a JSON body and an HTTP status. *)
Definition handle_send_transaction (origin transaction_id : string)
    (request_data : pyval) : prog (pyval * Z) :=
  try_except
    (if negb (str_truthy origin) then
       mret (PDict [(PStr "errcode", PStr "M_FORBIDDEN");
                    (PStr "error", PStr "Missing origin server")], 403)
     else
       pdus ← eval (py_get request_data "pdus" (PList []));
       edus ← eval (py_get request_data "edus" (PList []));
       pdu_items ← eval (py_iter pdus);
       pdu_results ← process_pdus origin pdu_items [];
       edu_items ← eval (py_iter edus);
       _ ← process_edus origin edu_items;
       (* logger.info(f"... {len(pdus)} PDUs, {len(edus)} EDUs") *)
       _ ← eval (py_len pdus);
       _ ← eval (py_len edus);
       mret (PDict [(PStr "pdus", PDict pdu_results)], 200))
    (fun _ =>
       mret (PDict [(PStr "errcode", PStr "M_UNKNOWN");
                    (PStr "error", PStr "Internal server error")], 500)).

End FederationAPI.

(** ** An in-memory homeserver *)

(** Modelled from the spec: the datastore, the auth engine and the event
    builder behind [hs] are not implemented in the sources.  The store below
    follows the design document's EventStore ([Persist] keyed by event id,
    [Get] by event id); the auth engine is a pure function handed in by the
    caller; the event builder assembles the event dict from its keyword
    arguments.  It serves to run the handlers on concrete inputs. *)
Module InMemory.

Record db : Type := Db {
  events : gmap string pyval;
  txn_ids : gmap (string * string * string) string;
  memberships : gmap (string * string) string;
  power_levels : gmap (string * string) Z;
  redact_levels : gmap string Z;
  redacted : gmap string string;
  tokens : list string
}.

Definition empty_db : db :=
  Db ∅ ∅ ∅ ∅ ∅ ∅ [].

Definition build_event (kwargs : list (string * pyval)) : pyval :=
  PDict ((fun kv : string * pyval =>
            (PStr (if String.eqb kv.1 "event_type" then "type" else kv.1), kv.2))
         <$> kwargs).

Definition persist (event : pyval) (w : db) : db :=
  match py_get event "event_id" PNone with
  | Ret (PStr id) =>
      Db (<[id := event]> (events w)) (txn_ids w) (memberships w)
         (power_levels w) (redact_levels w) (redacted w) (tokens w)
  | _ => w
  end.

Definition mem_perform (auth : pyval -> res pyval) (c : call) (w : db)
  : res pyval * db :=
  match c with
  | check_auth_rules_for_event event => (auth event, w)
  | get_event_by_id (PStr id) => (Ret (default PNone (events w !! id)), w)
  | get_event_by_id _ => (Ret PNone, w)
  | store_event event => (Ret (PBool true), persist event w)
  | get_room_membership user room =>
      (Ret (default PNone (PStr <$> memberships w !! (user, room))), w)
  | get_event_by_txn_id sender room txn =>
      (Ret (default PNone
              (id ← txn_ids w !! (sender, room, txn); events w !! id)), w)
  | store_txn_id_mapping sender room txn id =>
      (Ret PNone,
       Db (events w) (<[(sender, room, txn) := id]> (txn_ids w)) (memberships w)
          (power_levels w) (redact_levels w) (redacted w) (tokens w))
  | get_user_power_level user room =>
      (Ret (PInt (default 0 (power_levels w !! (user, room)))), w)
  | get_room_redact_level room =>
      (Ret (PInt (default 50 (redact_levels w !! room))), w)
  | redact_event target id =>
      (Ret PNone,
       Db (events w) (txn_ids w) (memberships w) (power_levels w)
          (redact_levels w) (<[target := id]> (redacted w)) (tokens w))
  | create_event kwargs => (Ret (build_event kwargs), w)
  end.

Definition mem_token (n : Z) (w : db) : string * db :=
  match tokens w with
  | t :: rest =>
      (t, Db (events w) (txn_ids w) (memberships w) (power_levels w)
             (redact_levels w) (redacted w) rest)
  | [] => ("token", w)
  end.

Definition mem_hs (auth : pyval -> res pyval) : homeserver db :=
  Homeserver db (mem_perform auth) mem_token.

(** An auth engine that admits everything, and one that admits nothing. *)
Definition allow_all (event : pyval) : res pyval := Ret (PBool true).
Definition deny_all (event : pyval) : res pyval := Ret (PBool false).

End InMemory.

(** ** State resolution *)

(** Modelled from the spec: the sources contain no state resolver (events are
    stored as they arrive); the definitions of this module follow section 4.3
    of the design document, step by step. *)
Module StateResolver.

(** A slot is a pair (type, state_key); a resolved state maps each slot to
    the id of the event that occupies it. *)
Abbreviation slot := (string * string)%type.
Abbreviation ResolvedState := (gmap (string * string) string).

(** The header fields of an event that resolution reads (section 3). *)
Record Event : Type := {
  event_id : string;
  sender : string;
  type : string;
  state_key : option string;
  auth_events : list string;
  depth : Z
}.

Section Resolve.
(** [EventStore.Get] *)
Variable store : gmap string Event.
(** [AuthRuleEngine.Authorize], a pure function of the event and a state. *)
Variable Authorize : Event -> ResolvedState -> bool.
(** The sender's power level as of the event's own auth chain. *)
Variable sender_power : Event -> Z.

(** Step 1-2: the slots on which all input sets agree pass through. *)
Definition unconflicted (sets : list ResolvedState) : ResolvedState :=
  match sets with
  | [] => ∅
  | first :: others =>
      filter (fun kv : slot * string =>
                forallb (fun s : ResolvedState =>
                           bool_decide (s !! kv.1 = Some kv.2)) others = true)
             first
  end.

(** The events that occupy, in some input set, a slot on which the sets
    disagree. *)
Definition conflicting (sets : list ResolvedState) : gset string :=
  let agreed := unconflicted sets in
  ⋃ ((fun s : ResolvedState =>
        map_img (filter (fun kv : slot * string => agreed !! kv.1 = None) s))
     <$> sets).

Definition auth_events_of (id : string) : gset string :=
  match store !! id with
  | Some e => list_to_set (auth_events e)
  | None => ∅
  end.

(** The auth events reachable from [ids] in at most [n] steps. *)
Fixpoint reachable (n : nat) (ids : gset string) : gset string :=
  match n with
  | O => ∅
  | S n' =>
      let next := set_bind auth_events_of ids in
      next ∪ reachable n' next
  end.

Definition auth_chain (id : string) : gset string :=
  reachable (size store) {[id]}.

(** Step 3: reachable from some conflicting event, not from all. *)
Definition auth_difference (conflicts : gset string) : gset string :=
  let chains := auth_chain <$> elements conflicts in
  filter (fun a => forallb (fun c : gset string => bool_decide (a ∈ c)) chains = false)
         (⋃ chains).

(** Step 4 and 6: [a] is placed before [b] among independent events: higher
    sender power first, then the lexicographically smaller event id; two
    events without a state key go by depth, then by event id. *)
Definition precedes (a b : Event) : bool :=
  match state_key a, state_key b with
  | None, None =>
      (depth a <? depth b) ||
      ((depth a =? depth b) && String.leb (event_id a) (event_id b))
  | _, _ =>
      (sender_power b <? sender_power a) ||
      ((sender_power a =? sender_power b) && String.leb (event_id a) (event_id b))
  end.

(** An event is ready once none of its auth events is still waiting. *)
Definition ready (waiting : list Event) (e : Event) : bool :=
  forallb (fun a => negb (existsb (fun w => String.eqb (event_id w) a) waiting))
          (auth_events e).

Definition best (candidates : list Event) : option Event :=
  foldr (fun e acc =>
           match acc with
           | Some b => if precedes e b then Some e else Some b
           | None => Some e
           end) None candidates.

Fixpoint ordered (n : nat) (waiting : list Event) : list Event :=
  match n with
  | O => []
  | S n' =>
      let candidates :=
        match List.filter (ready waiting) waiting with
        | [] => waiting
        | rs => rs
        end in
      match best candidates with
      | Some e =>
          e :: ordered n'
                 (List.filter (fun w => negb (String.eqb (event_id w) (event_id e)))
                              waiting)
      | None => []
      end
  end.

(** Step 5-6: replay one event against the state accumulated so far; an
    event without a state key occupies no slot. *)
Definition replay (state : ResolvedState) (e : Event) : ResolvedState :=
  match state_key e with
  | Some k =>
      if Authorize e state then <[(type e, k) := event_id e]> state else state
  | None => state
  end.

Definition resolve_conflicts (agreed : ResolvedState) (conflicts : gset string)
  : ResolvedState :=
  let ids := conflicts ∪ auth_difference conflicts in
  let evs := omap (fun id => store !! id) (elements ids) in
  foldl replay agreed (ordered (length evs) evs).

Definition Resolve (sets : list ResolvedState) : ResolvedState :=
  resolve_conflicts (unconflicted sets) (conflicting sets).

End Resolve.
End StateResolver.

(** ** Vocabulary of the properties *)

(** What an awaited answer amounts to in a condition: a raised exception or
    a falsy value is a "no". *)
Definition accepted (x : res pyval) : bool :=
  match x with
  | Ret v => py_truthy v
  | Raise _ => false
  end.

(** The auth engine turns [event] down in world [w]: it answers with a
    falsy value or raises. *)
Definition auth_rejects {World} (hs : homeserver World) (w : World) (event : pyval) : Prop :=
  accepted (perform hs (check_auth_rules_for_event event) w).1 = false.

(** The datastore holds a record under the event's id in world [w]. *)
Definition already_stored {World} (hs : homeserver World) (w : World) (event : pyval) : Prop :=
  exists id, py_getitem event "event_id" = Ret id /\
    accepted (perform hs (get_event_by_id id) w).1 = true.

(** The redactions handed to [store.redact_event] during an execution. *)
Definition redactions (cs : list call) : list (string * string) :=
  omap (fun c => match c with redact_event t r => Some (t, r) | _ => None end) cs.

(** The datastore has an event on record for the transaction in world [w]. *)
Definition txn_recorded {World} (hs : homeserver World) (w : World)
    (sender_id room_id txn_id : string) : Prop :=
  accepted (perform hs (get_event_by_txn_id sender_id room_id txn_id) w).1 = true.

(** The two shapes of a transaction response: an error code with its HTTP
    status, or the per-PDU result map with status 200. *)
Definition typed_response (r : pyval * Z) : Prop :=
  (exists errcode error, r.1 = PDict [(PStr "errcode", PStr errcode); (PStr "error", PStr error)]
     /\ (r.2 = 403 \/ r.2 = 500)) \/
  (exists pdu_results, r.1 = PDict [(PStr "pdus", PDict pdu_results)] /\ r.2 = 200).

(** ** Sample data *)

Module Sample.
Import InMemory.

Definition message_event : pyval :=
  PDict [(PStr "event_id", PStr "$e1:remote.org");
         (PStr "type", PStr "m.room.message");
         (PStr "room_id", PStr "!room:remote.org");
         (PStr "sender", PStr "@bob:remote.org");
         (PStr "origin_server_ts", PInt 1700000000000);
         (PStr "origin", PStr "remote.org");
         (PStr "content", PDict [(PStr "body", PStr "hello")])].

Definition message_fields : list (pyval * pyval) :=
  match message_event with PDict d => d | _ => [] end.

(** An event without a sender. *)
Definition no_sender_fields : list (pyval * pyval) :=
  [(PStr "event_id", PStr "$e2:remote.org");
   (PStr "type", PStr "m.room.message");
   (PStr "room_id", PStr "!room:remote.org");
   (PStr "origin_server_ts", PInt 1700000000001);
   (PStr "origin", PStr "remote.org")].

(** A transaction whose only PDU is a bare string. *)
Definition malformed_transaction : pyval :=
  PDict [(PStr "pdus", PList [PStr "not-an-event"])].

(** A database that already holds [message_event], sent by a joined user
    under transaction "txn1". *)
Definition db_with_message : db :=
  Db {["$e1:remote.org" := message_event]}
     {[("@bob:remote.org", "!room:remote.org", "txn1") := "$e1:remote.org"]}
     {[("@bob:remote.org", "!room:remote.org") := "join";
       ("@carol:remote.org", "!room:remote.org") := "join"]}
     {[("@carol:remote.org", "!room:remote.org") := 100]}
     {["!room:remote.org" := 50]}
     ∅
     ["tokenA"; "tokenB"].

(** The same database after the sender has left the room. *)
Definition db_after_leave : db :=
  Db (events db_with_message) (txn_ids db_with_message)
     {[("@bob:remote.org", "!room:remote.org") := "leave"]}
     (power_levels db_with_message) (redact_levels db_with_message)
     (redacted db_with_message) (tokens db_with_message).

End Sample.

(** A room in which two servers set the topic at the same time. *)
Module Fork.
Import StateResolver.

Definition create : Event :=
  Build_Event "$create" "@alice:a.org" "m.room.create" (Some "") [] 1.
Definition levels : Event :=
  Build_Event "$levels" "@alice:a.org" "m.room.power_levels" (Some "") ["$create"] 2.
Definition topic_a : Event :=
  Build_Event "$topicA" "@alice:a.org" "m.room.topic" (Some "") ["$create"; "$levels"] 3.
Definition topic_b : Event :=
  Build_Event "$topicB" "@bob:b.org" "m.room.topic" (Some "") ["$create"; "$levels"] 3.

Definition store : gmap string Event :=
  {["$create" := create; "$levels" := levels;
    "$topicA" := topic_a; "$topicB" := topic_b]}.

(** The creator is at 100, everybody else at 0. *)
Definition sender_power (e : Event) : Z :=
  if String.eqb (sender e) "@alice:a.org" then 100 else 0.

(** State events need level 50. *)
Definition Authorize (e : Event) (state : ResolvedState) : bool :=
  50 <=? sender_power e.

Definition state_a : ResolvedState :=
  {[("m.room.create", "") := "$create"; ("m.room.power_levels", "") := "$levels";
    ("m.room.topic", "") := "$topicA"]}.
Definition state_b : ResolvedState :=
  {[("m.room.create", "") := "$create"; ("m.room.power_levels", "") := "$levels";
    ("m.room.topic", "") := "$topicB"]}.

End Fork.

(** ** More of [handlers/message.py] *)

(** A well-formed dict: hashable keys, no key twice. *)
Fixpoint dict_ok (d : list (pyval * pyval)) : bool :=
  match d with
  | [] => true
  | (k, _) :: d' =>
      hashable k && negb (bool_decide (is_Some (dict_lookup k d'))) && dict_ok d'
  end.

Module MessageSending.
Section WithSelf.
(** [self.hs.hostname] *)
Variable hostname : string.

(** [send_message] as [edit_message] calls it: the message type is whatever
    [new_content.get("msgtype", "m.text")] gave, not necessarily a [str]. *)
Definition send_message_as (room_id sender_id : string) (message_type : pyval)
    (content : list (pyval * pyval)) (txn_id : option string) : prog pyval :=
  membership ← await (get_room_membership sender_id room_id);
  if py_ne_str membership "join" then
    raise (Exn ValueError
             ("User " +:+ sender_id +:+ " is not in room " +:+ room_id))
  else
    let create_and_store : prog pyval :=
      event_id ← MessageHandler._generate_event_id hostname;
      event ← await (create_event
                 [("event_type", PStr "m.room.message");
                  ("room_id", PStr room_id);
                  ("sender", PStr sender_id);
                  ("content",
                    PDict (dict_update [(PStr "msgtype", message_type)] content));
                  ("event_id", PStr event_id);
                  ("txn_id", opt_str_val txn_id)]);
      _ ← await (store_event event);
      _ ← (if opt_str_truthy txn_id then
             await (store_txn_id_mapping sender_id room_id
                      (default "" txn_id) event_id)
           else mret PNone);
      mret (PDict [(PStr "event_id", PStr event_id)]) in
    if opt_str_truthy txn_id then
      existing_event ← await (get_event_by_txn_id sender_id room_id
                                 (default "" txn_id));
      if py_truthy existing_event then
        existing_id ← eval (py_getitem existing_event "event_id");
        mret (PDict [(PStr "event_id", existing_id)])
      else create_and_store
    else create_and_store.

Definition send_text_message (room_id sender_id body : string)
    (txn_id : option string) : prog pyval :=
  MessageHandler.send_message hostname room_id sender_id "m.text"
    [(PStr "body", PStr body)] txn_id.

Definition send_image_message (room_id sender_id body url : string)
    (info : pyval) (txn_id : option string) : prog pyval :=
  MessageHandler.send_message hostname room_id sender_id "m.image"
    [(PStr "body", PStr body); (PStr "url", PStr url); (PStr "info", info)] txn_id.

Definition send_file_message (room_id sender_id body url : string)
    (info : pyval) (txn_id : option string) : prog pyval :=
  MessageHandler.send_message hostname room_id sender_id "m.file"
    [(PStr "body", PStr body); (PStr "url", PStr url); (PStr "info", info);
     (PStr "filename", PStr body)] txn_id.

(** The [content] dict literal of [edit_message]; [**new_content] comes
    last and overwrites what it names. *)
Definition edit_content (original_event_id : string)
    (new_content : list (pyval * pyval)) : list (pyval * pyval) :=
  dict_update
    [(PStr "m.new_content", PDict new_content);
     (PStr "m.relates_to",
       PDict [(PStr "rel_type", PStr "m.replace");
              (PStr "event_id", PStr original_event_id)])]
    new_content.

Definition edit_message (room_id sender_id original_event_id : string)
    (new_content : list (pyval * pyval)) (txn_id : option string) : prog pyval :=
  original_event ← await (get_event_by_id (PStr original_event_id));
  if negb (py_truthy original_event) then
    raise (Exn ValueError ("Event " +:+ original_event_id +:+ " not found"))
  else
    original_sender ← eval (py_getitem original_event "sender");
    if py_ne_str original_sender sender_id then
      raise (Exn ValueError "Cannot edit message from another user")
    else
      send_message_as room_id sender_id
        (default (PStr "m.text") (dict_lookup (PStr "msgtype") new_content))
        (edit_content original_event_id new_content) txn_id.

Definition react_to_message (room_id sender_id target_event_id reaction : string)
    (txn_id : option string) : prog pyval :=
  target_event ← await (get_event_by_id (PStr target_event_id));
  if negb (py_truthy target_event) then
    raise (Exn ValueError ("Event " +:+ target_event_id +:+ " not found"))
  else
    event_id ← MessageHandler._generate_event_id hostname;
    event ← await (create_event
               [("event_type", PStr "m.reaction");
                ("room_id", PStr room_id);
                ("sender", PStr sender_id);
                ("content",
                  PDict [(PStr "m.relates_to",
                           PDict [(PStr "rel_type", PStr "m.annotation");
                                  (PStr "event_id", PStr target_event_id);
                                  (PStr "key", PStr reaction)])]);
                ("event_id", PStr event_id);
                ("txn_id", opt_str_val txn_id)]);
    _ ← await (store_event event);
    mret (PDict [(PStr "event_id", PStr event_id)]).

End WithSelf.
End MessageSending.

(** ** More of [handlers/room.py] *)

Module RoomMembership.
Section WithSelf.
(** [self.hs.hostname] *)
Variable hostname : string.

Definition _generate_room_id : prog string :=
  room_localpart ← secrets_token_urlsafe 18;
  mret ("!" +:+ room_localpart +:+ ":" +:+ hostname).

Definition _create_room_creation_event (room_id creator : string)
    (config : list (pyval * pyval)) : prog pyval :=
  room_version ← eval (py_getitem (PDict config) "room_version");
  let content := [(PStr "creator", PStr creator); (PStr "room_version", room_version)] in
  content ← (if py_truthy (default PNone (dict_lookup (PStr "predecessor") config)) then
               predecessor ← eval (py_getitem (PDict config) "predecessor");
               mret (dict_set (PStr "predecessor") predecessor content)
             else mret content);
  await (create_event
           [("event_type", PStr "m.room.create");
            ("room_id", PStr room_id);
            ("sender", PStr creator);
            ("content", PDict content);
            ("state_key", PStr "")]).

(** The [content] of a member event: the optional entries are set only for
    truthy arguments. *)
Definition member_content (membership : string)
    (display_name avatar_url : option string) : list (pyval * pyval) :=
  let content := [(PStr "membership", PStr membership)] in
  let content :=
    if opt_str_truthy display_name
    then dict_set (PStr "displayname") (opt_str_val display_name) content
    else content in
  if opt_str_truthy avatar_url
  then dict_set (PStr "avatar_url") (opt_str_val avatar_url) content
  else content.

Definition _create_member_event (room_id sender target membership : string)
    (display_name avatar_url : option string) : prog pyval :=
  await (create_event
           [("event_type", PStr "m.room.member");
            ("room_id", PStr room_id);
            ("sender", PStr sender);
            ("content", PDict (member_content membership display_name avatar_url));
            ("state_key", PStr target)]).

(** [create_room] passes [room_config["name"]] on as it found it, so the
    name (and the topic below) is any value here. *)
Definition _create_name_event (room_id sender : string) (name : pyval) : prog pyval :=
  await (create_event
           [("event_type", PStr "m.room.name");
            ("room_id", PStr room_id);
            ("sender", PStr sender);
            ("content", PDict [(PStr "name", name)]);
            ("state_key", PStr "")]).

Definition _create_topic_event (room_id sender : string) (topic : pyval) : prog pyval :=
  await (create_event
           [("event_type", PStr "m.room.topic");
            ("room_id", PStr room_id);
            ("sender", PStr sender);
            ("content", PDict [(PStr "topic", topic)]);
            ("state_key", PStr "")]).

Definition leave_room (user_id room_id : string) (reason : option string)
    : prog pyval :=
  current_membership ← await (get_room_membership user_id room_id);
  if py_ne_str current_membership "join" then
    raise (Exn ValueError
             ("User " +:+ user_id +:+ " is not in room " +:+ room_id))
  else
    let content := [(PStr "membership", PStr "leave")] in
    let content :=
      if opt_str_truthy reason
      then dict_set (PStr "reason") (opt_str_val reason) content
      else content in
    leave_event ← await (create_event
                     [("event_type", PStr "m.room.member");
                      ("room_id", PStr room_id);
                      ("sender", PStr user_id);
                      ("content", PDict content);
                      ("state_key", PStr user_id)]);
    _ ← await (store_event leave_event);
    mret (PDict [(PStr "room_id", PStr room_id)]).

Definition invite_user (inviter_id invitee_id room_id : string) : prog pyval :=
  inviter_membership ← await (get_room_membership inviter_id room_id);
  if py_ne_str inviter_membership "join" then
    raise (Exn ValueError
             ("User " +:+ inviter_id +:+ " cannot invite to room " +:+ room_id))
  else
    invitee_membership ← await (get_room_membership invitee_id room_id);
    if negb (py_ne_str invitee_membership "join") then
      raise (Exn ValueError
               ("User " +:+ invitee_id +:+ " is already in room " +:+ room_id))
    else
      invite_event ← _create_member_event room_id inviter_id invitee_id "invite"
                       None None;
      _ ← await (store_event invite_event);
      mret (PDict [(PStr "room_id", PStr room_id)]).

End WithSelf.
End RoomMembership.

(** ** More of [handlers/federation.py] *)

(** [obj[key] = value] for a string [key]: only a dict takes it. *)
Definition py_setitem_str (obj : pyval) (key : string) (value : pyval) : res pyval :=
  match obj with
  | PDict d => Ret (PDict (dict_set (PStr key) value d))
  | PList _ => Raise (Exn TypeError "list indices must be integers or slices, not str")
  | _ => Raise (Exn TypeError
                  ("'" +:+ type_name obj +:+ "' object does not support item assignment"))
  end.

Module FederationState.
Section WithSelf.
(** [self.hs.hostname] and [self.hs.signing_key_id] *)
Variables hostname signing_key_id : string.

(** The method assigns [event["signatures"]] in place; the embedding hands
    the assigned event back. *)
Definition _sign_event (event : pyval) : res pyval :=
  py_setitem_str event "signatures"
    (PDict [(PStr hostname,
              PDict [(PStr ("ed25519:" +:+ signing_key_id),
                       PStr "signature_placeholder")])]).

Fixpoint _store_room_state (room_id : string) (state_events : list pyval)
    : prog unit :=
  match state_events with
  | [] => mret ()
  | event :: rest =>
      valid ← FederationHandler._validate_event event;
      _ ← (if valid : bool then await (store_event event)
           else
             (* logger.warning(f"... {event.get('event_id')}") *)
             eval (py_get event "event_id" PNone));
      _store_room_state room_id rest
  end.

End WithSelf.
End FederationState.

(** ** The other collaborators *)

(** The awaited calls the remaining handler methods make: the federation
    client ([self.federation_client]), the clock ([self.clock]) and further
    datastore queries. *)
Inductive more_call : Type :=
| client_send_event (destination : string) (event : pyval)
| client_get_event (destination event_id : string)
| client_get_room_state (destination room_id : string)
| client_make_join (via_server room_id user_id : string)
| client_send_join (server room_id : string) (join_event : pyval)
| client_send_invite (server room_id : string) (invite_event : pyval)
| client_backfill (destination room_id : string) (limit : Z)
| clock_time_msec
| store_get_room_by_id (room_id : string)
| store_create_room (room_config : pyval)
| store_get_room_state_events (room_id : string)
| store_get_room_members (room_id : string)
| store_get_room_messages (room_id : string) (from_token to_token : option string)
                          (direction : string) (limit : Z)
| store_get_event_context (room_id event_id : string) (limit : Z).

Inductive xcall : Type :=
| known (c : call)
| other (c : more_call).

(** Handler bodies over the full set of collaborators. *)
Inductive xprog (A : Type) : Type :=
| XDone (r : res A)
| XCall (c : xcall) (k : res pyval -> xprog A)
| XToken (nbytes : Z) (k : string -> xprog A).
Arguments XDone {A} r.
Arguments XCall {A} c k.
Arguments XToken {A} nbytes k.

Fixpoint xbind {A B} (p : xprog A) (f : A -> xprog B) : xprog B :=
  match p with
  | XDone (Ret a) => f a
  | XDone (Raise e) => XDone (Raise e)
  | XCall c k => XCall c (fun r => xbind (k r) f)
  | XToken n k => XToken n (fun s => xbind (k s) f)
  end.

#[global] Instance xprog_ret : MRet xprog := fun A a => XDone (Ret a).
#[global] Instance xprog_bind : MBind xprog := fun A B f p => xbind p f.

Definition xraise {A} (e : exn) : xprog A := XDone (Raise e).
Definition xeval {A} (r : res A) : xprog A := XDone r.
Definition xawait (c : more_call) : xprog pyval := XCall (other c) XDone.

(** [try: p  except Exception as e: h e], for the exceptions of class
    [Exception] as in [try_except]; an await that is left by anything else
    ends the execution in [crun], whatever [try] it stands in. *)
Fixpoint xtry_except {A} (p : xprog A) (h : exn -> xprog A) : xprog A :=
  match p with
  | XDone (Ret a) => XDone (Ret a)
  | XDone (Raise e) => h e
  | XCall c k => XCall c (fun r => xtry_except (k r) h)
  | XToken n k => XToken n (fun s => xtry_except (k s) h)
  end.

(** A body written over the first collaborators, run among all of them. *)
Fixpoint widen {A} (p : prog A) : xprog A :=
  match p with
  | Done r => XDone r
  | Call c k => XCall (known c) (fun r => widen (k r))
  | Token n k => XToken n (fun s => widen (k s))
  end.

Record xhomeserver (World : Type) : Type := XHomeserver {
  xperform : xcall -> World -> res pyval * World;
  xtoken_urlsafe : Z -> World -> string * World
}.
Arguments xperform {World} _ _ _.
Arguments xtoken_urlsafe {World} _ _ _.

(** The part of a homeserver that the first collaborators make up. *)
Definition narrow {World} (hs : xhomeserver World) : homeserver World :=
  Homeserver World (fun c => xperform hs (known c)) (xtoken_urlsafe hs).

Record xoutcome (A World : Type) : Type := XOutcome {
  xresult : res A;
  xworld : World;
  xcalls : list xcall
}.
Arguments XOutcome {A World} _ _ _.
Arguments xresult {A World} _.
Arguments xworld {A World} _.
Arguments xcalls {A World} _.

Fixpoint xrun {A World} (hs : xhomeserver World) (p : xprog A) (w : World)
  : xoutcome A World :=
  match p with
  | XDone r => XOutcome r w []
  | XCall c k =>
      let '(x, w1) := xperform hs c w in
      let o := xrun hs (k x) w1 in
      XOutcome (xresult o) (xworld o) (c :: xcalls o)
  | XToken n k =>
      let '(s, w1) := xtoken_urlsafe hs n w in
      xrun hs (k s) w1
  end.

Definition xthen {A B World} (o : xoutcome A World) (o' : xoutcome B World)
  : xoutcome B World :=
  XOutcome (xresult o') (xworld o') (xcalls o ++ xcalls o').

(** The calls among [cs] that went to the first collaborators. *)
Definition known_calls (cs : list xcall) : list call :=
  omap (fun c => match c with known c' => Some c' | other _ => None end) cs.

(** The events handed to [store.store_event]. *)
Definition xstored (cs : list xcall) : list pyval := stored (known_calls cs).

(** ** Strings *)

(** [s.split(sep)] for a one-character separator: the pieces between the
    separators, at least one. *)
Fixpoint split_on (sep : ascii) (s : string) : list string :=
  match s with
  | EmptyString => [EmptyString]
  | String c s' =>
      if Ascii.eqb c sep then EmptyString :: split_on sep s'
      else
        match split_on sep s' with
        | piece :: pieces => String c piece :: pieces
        | [] => [String c EmptyString]
        end
  end.

(** [s[1:]] *)
Definition str_tail (s : string) : string :=
  match s with
  | EmptyString => EmptyString
  | String _ s' => s'
  end.

(** [s.endswith(suffix)] *)
Definition str_endswith (s suffix : string) : bool :=
  (String.length suffix <=? String.length s)%nat &&
  String.eqb
    (String.substring (String.length s - String.length suffix)
                      (String.length suffix) s)
    suffix.


(** ** The federation client side of [handlers/federation.py] *)

Module FederationClient.
Section WithSelf.
(** [self.hs.hostname] and [self.hs.signing_key_id] *)
Variables hostname signing_key_id : string.

Definition send_event_to_server (destination : string) (event : pyval)
    : xprog bool :=
  (* logger.info(f"... {event.get('event_id')} ...") precedes the try *)
  _ ← xeval (py_get event "event_id" PNone);
  xtry_except
    (_ ← xawait (client_send_event destination event);
     mret true)
    (fun _ => mret false).

Definition get_event_from_server (destination event_id : string) : xprog pyval :=
  xtry_except
    (event ← xawait (client_get_event destination event_id);
     valid ← widen (FederationHandler._validate_event event);
     if valid : bool then mret event else mret PNone)
    (fun _ => mret PNone).

(** The loop of [get_room_state_from_server], threading [validated_events]. *)
Fixpoint validate_all (events validated_events : list pyval) : xprog (list pyval) :=
  match events with
  | [] => mret validated_events
  | event :: rest =>
      valid ← widen (FederationHandler._validate_event event);
      if valid : bool then validate_all rest (validated_events ++ [event])
      else
        (* logger.warning(f"... {event.get('event_id')}") *)
        _ ← xeval (py_get event "event_id" PNone);
        validate_all rest validated_events
  end.

(** [None] on failure, else the list of validated events. *)
Definition get_room_state_from_server (destination room_id : string)
    : xprog (option (list pyval)) :=
  xtry_except
    (state_events ← xawait (client_get_room_state destination room_id);
     events ← xeval (py_iter state_events);
     validated_events ← validate_all events [];
     mret (Some validated_events))
    (fun _ => mret None).

(** The loop of [backfill_events], threading [stored_events]. *)
Fixpoint store_valid (events stored_events : list pyval) : xprog (list pyval) :=
  match events with
  | [] => mret stored_events
  | event :: rest =>
      valid ← widen (FederationHandler._validate_event event);
      if valid : bool then
        _ ← widen (await (store_event event));
        store_valid rest (stored_events ++ [event])
      else
        (* logger.warning(f"... {event.get('event_id')}") *)
        _ ← xeval (py_get event "event_id" PNone);
        store_valid rest stored_events
  end.

Definition backfill_events (destination room_id : string) (limit : Z)
    : xprog (list pyval) :=
  xtry_except
    (events ← xawait (client_backfill destination room_id limit);
     items ← xeval (py_iter events);
     store_valid items [])
    (fun _ => mret []).

Definition _create_join_event (room_id user_id via_server : string) : xprog pyval :=
  join_template ← xawait (client_make_join via_server room_id user_id);
  join_event ← xeval (py_getitem join_template "event");
  join_event ← xeval (py_setitem_str join_event "content"
                        (PDict [(PStr "membership", PStr "join")]));
  join_event ← xeval (py_setitem_str join_event "origin" (PStr hostname));
  now ← xawait clock_time_msec;
  join_event ← xeval (py_setitem_str join_event "origin_server_ts" now);
  xeval (FederationState._sign_event hostname signing_key_id join_event).

(** One round of the loop of [join_room_via_federation]: [Some] is the
    value returned from inside the loop, [None] moves on to the next
    server. *)
Definition join_via (room_id user_id server : string) : xprog (option pyval) :=
  xtry_except
    (room_info ← xawait (client_get_room_state server room_id);
     if py_truthy room_info then
       join_event ← _create_join_event room_id user_id server;
       join_result ← xawait (client_send_join server room_id join_event);
       if py_truthy join_result then
         state ← xeval (py_getitem join_result "state");
         state_events ← xeval (py_iter state);
         _ ← widen (FederationState._store_room_state room_id state_events);
         _ ← widen (await (store_event join_event));
         mret (Some (PDict [(PStr "room_id", PStr room_id);
                            (PStr "server", PStr server)]))
       else mret None
     else mret None)
    (fun _ => mret None).

Fixpoint join_room_via_federation (room_id user_id : string)
    (remote_servers : list string) : xprog pyval :=
  match remote_servers with
  | [] => xraise (Exn RuntimeError
                    ("Failed to join room " +:+ room_id +:+ " via any server"))
  | server :: rest =>
      joined ← join_via room_id user_id server;
      match joined with
      | Some r => mret r
      | None => join_room_via_federation room_id user_id rest
      end
  end.

Definition _create_invite_event (room_id inviter_id invitee_id : string)
    : xprog pyval :=
  now ← xawait clock_time_msec;
  localpart ← widen FederationHandler._generate_event_id;
  xeval (FederationState._sign_event hostname signing_key_id
           (PDict [(PStr "type", PStr "m.room.member");
                   (PStr "room_id", PStr room_id);
                   (PStr "sender", PStr inviter_id);
                   (PStr "state_key", PStr invitee_id);
                   (PStr "content", PDict [(PStr "membership", PStr "invite")]);
                   (PStr "origin", PStr hostname);
                   (PStr "origin_server_ts", now);
                   (PStr "event_id",
                     PStr ("$" +:+ localpart +:+ ":" +:+ hostname))])).

(** [invitee_id.split(":")[1]] raises [IndexError] for an id without a
    colon, before anything is awaited; that outcome is [None] here. *)
Definition invite_user_to_room (room_id inviter_id invitee_id : string)
    : option (xprog pyval) :=
  invitee_server ← split_on ":" invitee_id !! 1%nat;
  Some
    (invite_event ← _create_invite_event room_id inviter_id invitee_id;
     xtry_except
       (invite_result ← xawait (client_send_invite invitee_server room_id invite_event);
        if py_truthy invite_result then
          _ ← widen (await (store_event invite_event));
          event_id ← xeval (py_getitem invite_event "event_id");
          mret (PDict [(PStr "event_id", event_id)])
        else xraise (Exn RuntimeError "Failed to send invitation"))
       (fun e => xraise e)).

End WithSelf.
End FederationClient.

(** ** The room directory side of [handlers/room.py] *)

(** [membership not in allowed] for a list of [str] literals *)
Definition not_in_strs (membership : pyval) (allowed : list string) : bool :=
  forallb (py_ne_str membership) allowed.

Module RoomDirectory.
Section WithSelf.
Variable hostname : string.

Definition join_room (user_id room_id : string)
    (remote_room_hosts : option (list string)) : xprog pyval :=
  room ← xawait (store_get_room_by_id room_id);
  if negb (py_truthy room) &&
     negb (match remote_room_hosts with Some (_ :: _) => true | _ => false end)
  then xraise (Exn ValueError ("Room " +:+ room_id +:+ " not found"))
  else
    current_membership ← widen (await (get_room_membership user_id room_id));
    if negb (py_ne_str current_membership "join") then
      mret (PDict [(PStr "room_id", PStr room_id)])
    else
      join_event ← widen (RoomMembership._create_member_event
                            room_id user_id user_id "join" None None);
      _ ← widen (await (store_event join_event));
      mret (PDict [(PStr "room_id", PStr room_id)]).

Definition get_room_state (room_id : string) (user_id : option string)
    : xprog pyval :=
  _ ← (if opt_str_truthy user_id then
         membership ← widen (await (get_room_membership (default "" user_id) room_id));
         if not_in_strs membership ["join"; "invite"] then
           xraise (Exn ValueError
                     ("User " +:+ default "" user_id +:+ " cannot view room " +:+
                      room_id +:+ " state"))
         else mret ()
       else mret ());
  xawait (store_get_room_state_events room_id).

Definition get_room_members (room_id : string) (user_id : option string)
    : xprog pyval :=
  _ ← (if opt_str_truthy user_id then
         membership ← widen (await (get_room_membership (default "" user_id) room_id));
         if not_in_strs membership ["join"; "invite"] then
           xraise (Exn ValueError
                     ("User " +:+ default "" user_id +:+ " cannot view room " +:+
                      room_id +:+ " members"))
         else mret ()
       else mret ());
  xawait (store_get_room_members room_id).

End WithSelf.
End RoomDirectory.

(** ** Room creation in [handlers/room.py] *)

Definition dec (n : nat) : string := NilZero.string_of_uint (Nat.to_uint n).

(** One element of the sequence handed to [dict.update]: an iterable of
    two items, the first of them hashable. *)
Definition pair_of (i : nat) (v : pyval) : res (pyval * pyval) :=
  match py_iter v with
  | Raise _ =>
      Raise (Exn TypeError
               ("cannot convert dictionary update sequence element #" +:+ dec i +:+
                " to a sequence"))
  | Ret [k; x] => if hashable k then Ret (k, x) else Raise (unhashable k)
  | Ret items =>
      Raise (Exn ValueError
               ("dictionary update sequence element #" +:+ dec i +:+ " has length " +:+
                dec (length items) +:+ "; 2 is required"))
  end.

Fixpoint pairs_from (i : nat) (items : list pyval) : res (list (pyval * pyval)) :=
  match items with
  | [] => Ret []
  | v :: rest =>
      match pair_of i v with
      | Ret kv =>
          match pairs_from (S i) rest with
          | Ret kvs => Ret (kv :: kvs)
          | Raise e => Raise e
          end
      | Raise e => Raise e
      end
  end.

(** What [if override_content: content.update(override_content)] makes of
    an arbitrary value: nothing for a falsy one, the entries of a dict, the
    pairs of a sequence of pairs; anything else raises inside [update]. *)
Definition update_arg (v : pyval) : res (option (list (pyval * pyval))) :=
  if negb (py_truthy v) then Ret None
  else
    match v with
    | PDict d => Ret (Some d)
    | _ =>
        match py_iter v with
        | Ret items =>
            match pairs_from 0 items with
            | Ret kvs => Ret (Some kvs)
            | Raise e => Raise e
            end
        | Raise e => Raise e
        end
    end.

Module RoomCreation.
Section WithSelf.
(** [self.hs.hostname] *)
Variable hostname : string.

(** The [room_config] dict of [create_room]. *)
Definition room_config_of (room_id creator_user_id : string) (creation_ts : pyval)
    (config : list (pyval * pyval)) : list (pyval * pyval) :=
  let get key dflt := default dflt (dict_lookup (PStr key) config) in
  [(PStr "room_id", PStr room_id);
   (PStr "creator", PStr creator_user_id);
   (PStr "creation_ts", creation_ts);
   (PStr "room_version", get "room_version" (PStr "9"));
   (PStr "preset", get "preset" (PStr "private_chat"));
   (PStr "name", get "name" PNone);
   (PStr "topic", get "topic" PNone);
   (PStr "avatar_url", get "avatar_url" PNone);
   (PStr "is_public", PBool (negb (py_ne_str (get "visibility" PNone) "public")));
   (PStr "guest_access", get "guest_access" (PStr "forbidden"));
   (PStr "history_visibility", get "history_visibility" (PStr "shared"));
   (PStr "join_rules", get "join_rules" (PStr "invite"))].

Definition create_room (creator_user_id : string)
    (config : option (list (pyval * pyval))) : xprog pyval :=
  let config := default [] config in
  room_id ← widen (RoomMembership._generate_room_id hostname);
  creation_ts ← xawait clock_time_msec;
  let room_config := room_config_of room_id creator_user_id creation_ts config in
  creation_event ← widen (RoomMembership._create_room_creation_event
                            room_id creator_user_id room_config);
  join_event ← widen (RoomMembership._create_member_event
                        room_id creator_user_id creator_user_id "join" None None);
  override_content ← xeval (update_arg
                              (default PNone
                                 (dict_lookup (PStr "power_level_content_override") config)));
  power_levels_event ← widen (RoomHandler._create_power_levels_event
                                room_id creator_user_id override_content);
  _ ← xawait (store_create_room (PDict room_config));
  _ ← widen (await (store_event creation_event));
  _ ← widen (await (store_event join_event));
  _ ← widen (await (store_event power_levels_event));
  let name := default PNone (dict_lookup (PStr "name") room_config) in
  _ ← (if py_truthy name then
         name_event ← widen (RoomMembership._create_name_event
                               room_id creator_user_id name);
         widen (await (store_event name_event))
       else mret PNone);
  let topic := default PNone (dict_lookup (PStr "topic") room_config) in
  _ ← (if py_truthy topic then
         topic_event ← widen (RoomMembership._create_topic_event
                                room_id creator_user_id topic);
         widen (await (store_event topic_event))
       else mret PNone);
  preset ← xeval (py_getitem (PDict room_config) "preset");
  mret (PDict [(PStr "room_id", PStr room_id);
               (PStr "room_alias",
                 default PNone (dict_lookup (PStr "room_alias_name") config));
               (PStr "preset", preset)]).

End WithSelf.
End RoomCreation.

(** A keyword argument of a call. *)
Fixpoint kwarg (key : string) (kwargs : list (string * pyval)) : option pyval :=
  match kwargs with
  | [] => None
  | (k, v) :: rest => if String.eqb k key then Some v else kwarg key rest
  end.

(** The event types of the events that were built, in order. *)
Definition created_types (cs : list xcall) : list pyval :=
  omap (fun c => match c with
                 | known (create_event kwargs) => kwarg "event_type" kwargs
                 | _ => None
                 end) cs.

(** The contents of the events that were built, in order. *)
Definition created_contents (cs : list xcall) : list pyval :=
  omap (fun c => match c with
                 | known (create_event kwargs) => kwarg "content" kwargs
                 | _ => None
                 end) cs.

(** The room records handed to [store.create_room]. *)
Definition registered_rooms (cs : list xcall) : list pyval :=
  omap (fun c => match c with
                 | other (store_create_room room_config) => Some room_config
                 | _ => None
                 end) cs.

(** ** The history side of [handlers/message.py] *)

Module MessageHistory.

Definition get_room_messages (room_id user_id : string)
    (from_token to_token : option string) (direction : string) (limit : Z)
    : xprog pyval :=
  membership ← widen (await (get_room_membership user_id room_id));
  if not_in_strs membership ["join"; "invite"; "leave"] then
    xraise (Exn ValueError
              ("User " +:+ user_id +:+ " cannot view room " +:+ room_id +:+ " messages"))
  else
    messages ← xawait (store_get_room_messages room_id from_token to_token
                         direction limit);
    chunk ← xeval (py_getitem messages "events");
    start ← xeval (py_getitem messages "start");
    end_ ← xeval (py_getitem messages "end");
    prev_batch ← xeval (py_get messages "prev_batch" PNone);
    next_batch ← xeval (py_get messages "next_batch" PNone);
    mret (PDict [(PStr "chunk", chunk); (PStr "start", start); (PStr "end", end_);
                 (PStr "prev_batch", prev_batch); (PStr "next_batch", next_batch)]).

Definition get_event_context (room_id event_id user_id : string) (limit : Z)
    : xprog pyval :=
  membership ← widen (await (get_room_membership user_id room_id));
  if not_in_strs membership ["join"; "invite"; "leave"] then
    xraise (Exn ValueError
              ("User " +:+ user_id +:+ " cannot view room " +:+ room_id))
  else
    context ← xawait (store_get_event_context room_id event_id limit);
    event ← xeval (py_getitem context "event");
    events_before ← xeval (py_getitem context "events_before");
    events_after ← xeval (py_getitem context "events_after");
    start ← xeval (py_getitem context "start");
    end_ ← xeval (py_getitem context "end");
    state ← xeval (py_getitem context "state");
    mret (PDict [(PStr "event", event); (PStr "events_before", events_before);
                 (PStr "events_after", events_after); (PStr "start", start);
                 (PStr "end", end_); (PStr "state", state)]).

End MessageHistory.

(** ** The query endpoints of [api/federation.py] *)

Module FederationQueries.
Section WithSelf.
(** [self.server_name] *)
Variable server_name : string.

Definition forbidden (error : string) : pyval * Z :=
  (PDict [(PStr "errcode", PStr "M_FORBIDDEN"); (PStr "error", PStr error)], 403).
Definition not_found (error : string) : pyval * Z :=
  (PDict [(PStr "errcode", PStr "M_NOT_FOUND"); (PStr "error", PStr error)], 404).
Definition unknown_error : pyval * Z :=
  (PDict [(PStr "errcode", PStr "M_UNKNOWN");
          (PStr "error", PStr "Internal server error")], 500).

(** The [profile] dict of [handle_query_profile]. *)
Definition profile_of (user_id : string) : list (pyval * pyval) :=
  [(PStr "displayname", PStr (str_tail (default "" (head (split_on ":" user_id)))));
   (PStr "avatar_url", PNone)].

(** Nothing in the body of [handle_query_profile] awaits or can raise on
    strings, so the method is a function of its arguments. *)
Definition handle_query_profile (origin user_id : string) (field : option string)
    : pyval * Z :=
  if negb (str_truthy origin) then forbidden "Missing origin server"
  else if negb (str_endswith user_id (":" +:+ server_name)) then
    not_found "User not found on this server"
  else
    let profile := profile_of user_id in
    if opt_str_truthy field then
      match dict_lookup (PStr (default "" field)) profile with
      | Some v => (PDict [(PStr (default "" field), v)], 200)
      | None => not_found ("Field " +:+ default "" field +:+ " not found")
      end
    else (PDict profile, 200).

(** [self.federation_handler.make_join_event] and [make_leave_event]:
    [FederationHandler] defines neither, so the attribute lookup raises. *)
Definition absent_method (name : string) : prog pyval :=
  raise (Exn AttributeError
           ("'FederationHandler' object has no attribute '" +:+ name +:+ "'")).

Definition handle_make_join (origin room_id user_id : string) : prog (pyval * Z) :=
  try_except
    (if negb (str_truthy origin) then mret (forbidden "Missing origin server")
     else if negb (str_endswith user_id (":" +:+ origin)) then
       mret (forbidden "User does not belong to origin server")
     else
       join_event ← absent_method "make_join_event";
       if negb (py_truthy join_event) then mret (forbidden "Cannot join room")
       else mret (PDict [(PStr "event", join_event);
                         (PStr "room_version", PStr "9")], 200))
    (fun _ => mret unknown_error).

Definition handle_make_leave (origin room_id user_id : string) : prog (pyval * Z) :=
  try_except
    (if negb (str_truthy origin) then mret (forbidden "Missing origin server")
     else if negb (str_endswith user_id (":" +:+ origin)) then
       mret (forbidden "User does not belong to origin server")
     else
       leave_event ← absent_method "make_leave_event";
       if negb (py_truthy leave_event) then mret (forbidden "Cannot leave room")
       else mret (PDict [(PStr "event", leave_event);
                         (PStr "room_version", PStr "9")], 200))
    (fun _ => mret unknown_error).

(** [min(a, b)]: [b] when [b < a], otherwise [a]. *)
Definition py_min (a b : pyval) : res pyval :=
  match py_lt b a with
  | Ret true => Ret b
  | Ret false => Ret a
  | Raise e => Raise e
  end.

(** [x or []] *)
Definition or_empty (x : pyval) : pyval := if py_truthy x then x else PList [].

(** The endpoints below go through methods of [self.federation_handler]
    that [FederationHandler] does not define either. *)
Definition handle_get_event (origin event_id : string) : prog (pyval * Z) :=
  try_except
    (if negb (str_truthy origin) then mret (forbidden "Missing origin server")
     else
       event ← absent_method "get_event_for_federation";
       if negb (py_truthy event) then mret (not_found "Event not found")
       else mret (PDict [(PStr "pdus", PList [event])], 200))
    (fun _ => mret unknown_error).

Definition handle_get_state (origin room_id : string) (event_id : option string)
    : prog (pyval * Z) :=
  try_except
    (if negb (str_truthy origin) then mret (forbidden "Missing origin server")
     else
       state_events ← absent_method "get_room_state_for_federation";
       match state_events with
       | PNone => mret (not_found "Room not found or access denied")
       | _ => mret (PDict [(PStr "pdus", state_events);
                           (PStr "auth_chain", PList [])], 200)
       end)
    (fun _ => mret unknown_error).

Definition handle_get_state_ids (origin room_id : string) (event_id : option string)
    : prog (pyval * Z) :=
  try_except
    (if negb (str_truthy origin) then mret (forbidden "Missing origin server")
     else
       state_ids ← absent_method "get_room_state_ids_for_federation";
       match state_ids with
       | PNone => mret (not_found "Room not found or access denied")
       | _ => mret (PDict [(PStr "pdu_ids", state_ids);
                           (PStr "auth_chain_ids", PList [])], 200)
       end)
    (fun _ => mret unknown_error).

Definition handle_send_join (origin room_id event_id : string) (request_data : pyval)
    : prog (pyval * Z) :=
  try_except
    (if negb (str_truthy origin) then mret (forbidden "Missing origin server")
     else
       result ← absent_method "handle_join_event";
       if negb (py_truthy result) then mret (forbidden "Join rejected")
       else
         state_events ← absent_method "get_room_state_for_federation";
         mret (PDict [(PStr "state", or_empty state_events);
                      (PStr "auth_chain", PList []);
                      (PStr "origin", PStr server_name);
                      (PStr "event", result)], 200))
    (fun _ => mret unknown_error).

Definition handle_send_leave (origin room_id event_id : string) (request_data : pyval)
    : prog (pyval * Z) :=
  try_except
    (if negb (str_truthy origin) then mret (forbidden "Missing origin server")
     else
       result ← absent_method "handle_leave_event";
       if negb (py_truthy result) then mret (forbidden "Leave rejected")
       else mret (PDict [], 200))
    (fun _ => mret unknown_error).

Definition handle_invite (origin room_id event_id : string) (request_data : pyval)
    : prog (pyval * Z) :=
  try_except
    (if negb (str_truthy origin) then mret (forbidden "Missing origin server")
     else
       result ← absent_method "handle_invite_event";
       if negb (py_truthy result) then mret (forbidden "Invite rejected")
       else mret (PDict [(PStr "event", result)], 200))
    (fun _ => mret unknown_error).

Definition handle_get_missing_events (origin room_id : string) (request_data : pyval)
    : prog (pyval * Z) :=
  try_except
    (if negb (str_truthy origin) then mret (forbidden "Missing origin server")
     else
       earliest_events ← eval (py_get request_data "earliest_events" (PList []));
       latest_events ← eval (py_get request_data "latest_events" (PList []));
       requested ← eval (py_get request_data "limit" (PInt 10));
       limit ← eval (py_min requested (PInt 20));
       missing_events ← absent_method "get_missing_events";
       mret (PDict [(PStr "events", or_empty missing_events)], 200))
    (fun _ => mret unknown_error).

Definition handle_backfill (origin room_id : string) (v : list string) (limit : Z)
    : prog (pyval * Z) :=
  try_except
    (if negb (str_truthy origin) then mret (forbidden "Missing origin server")
     else
       let limit := Z.min limit 100 in
       events ← absent_method "get_backfill_events";
       mret (PDict [(PStr "pdus", or_empty events)], 200))
    (fun _ => mret unknown_error).

End WithSelf.
End FederationQueries.

(** ** Awaits that do not come back *)

(** An [exn] stands for an exception of class [Exception]: that is what
    the handlers raise themselves and what [except Exception] catches.  An
    awaited call can also be left by an exception that is no [Exception]:
    [asyncio.CancelledError] when the task is cancelled while it waits,
    [KeyboardInterrupt], [SystemExit].  The handlers have no [finally] and no
    handler but [except Exception], so such an exception passes through every
    [try] and ends the execution at the await.  A collaborator that may do so
    answers [None]. *)
Record chomeserver (World : Type) : Type := CHomeserver {
  cperform : xcall -> World -> option (res pyval) * World;
  ctoken_urlsafe : Z -> World -> string * World
}.
Arguments cperform {World} _ _ _.
Arguments ctoken_urlsafe {World} _ _ _.

(** [cresult] is [None] when the execution was left at an await. *)
Record coutcome (A World : Type) : Type := COutcome {
  cresult : option (res A);
  cworld : World;
  ccalls : list xcall
}.
Arguments COutcome {A World} _ _ _.
Arguments cresult {A World} _.
Arguments cworld {A World} _.
Arguments ccalls {A World} _.

Fixpoint crun {A World} (hs : chomeserver World) (p : xprog A) (w : World)
  : coutcome A World :=
  match p with
  | XDone r => COutcome (Some r) w []
  | XCall c k =>
      match cperform hs c w with
      | (Some x, w1) =>
          let o := crun hs (k x) w1 in
          COutcome (cresult o) (cworld o) (c :: ccalls o)
      | (None, w1) => COutcome None w1 [c]
      end
  | XToken n k =>
      let '(s, w1) := ctoken_urlsafe hs n w in
      crun hs (k s) w1
  end.

(** A homeserver whose awaits all come back. *)
Definition uninterrupted {World} (hs : xhomeserver World) : chomeserver World :=
  CHomeserver World (fun c w => (Some (xperform hs c w).1, (xperform hs c w).2))
              (xtoken_urlsafe hs).

(** The homeserver on which the awaits that would not come back raise [e]
    instead.  Up to the first such await it is run as [hs] is. *)
Definition settled {World} (e : exn) (hs : chomeserver World) : xhomeserver World :=
  XHomeserver World
    (fun c w => (default (Raise e) (cperform hs c w).1, (cperform hs c w).2))
    (ctoken_urlsafe hs).

(** The execution was left at its last call, an await that did not come
    back. *)
Definition left_at_await {A World} (hs : chomeserver World) (o : coutcome A World)
  : Prop :=
  cresult o = None /\
  exists c w, last (ccalls o) = Some c /\ (cperform hs c w).1 = None.

(** The await came back with a "yes". *)
Definition came_back_accepted (x : option (res pyval)) : bool :=
  match x with
  | Some r => accepted r
  | None => false
  end.

(** ** The in-memory homeserver with the other collaborators *)

(** Modelled from the spec: as [InMemory], with the federation client, the
    clock and the further datastore queries answered by a table that the
    caller hands in. *)
Module InMemoryX.
Import InMemory.

Definition xmem_perform (auth : pyval -> res pyval) (others : more_call -> res pyval)
    (c : xcall) (w : db) : res pyval * db :=
  match c with
  | known c' => mem_perform auth c' w
  | other c' => (others c', w)
  end.

Definition xmem_hs (auth : pyval -> res pyval) (others : more_call -> res pyval)
    : xhomeserver db :=
  XHomeserver db (xmem_perform auth others) mem_token.

(** A remote side that cannot be reached. *)
Definition unreachable (c : more_call) : res pyval :=
  Raise (Exn RuntimeError "connection refused").

(** A clock that ticks and a remote side that takes every invitation. *)
Definition friendly (c : more_call) : res pyval :=
  match c with
  | clock_time_msec => Ret (PInt 1700000000123)
  | client_send_invite _ _ invite_event => Ret invite_event
  | _ => Ret PNone
  end.

(** The in-memory homeserver with an auth engine and a remote side that
    may not come back. *)
Definition cmem_hs (auth : pyval -> option (res pyval))
    (others : more_call -> option (res pyval)) : chomeserver db :=
  CHomeserver db
    (fun c w =>
       match c with
       | known (check_auth_rules_for_event event) => (auth event, w)
       | known c' => (Some (mem_perform allow_all c' w).1, (mem_perform allow_all c' w).2)
       | other c' => (others c', w)
       end)
    mem_token.

(** A remote side that sends one event, whatever it is asked for. *)
Definition sends (event : pyval) (c : more_call) : option (res pyval) :=
  match c with
  | client_backfill _ _ _ | client_get_room_state _ _ => Some (Ret (PList [event]))
  | _ => Some (Ret event)
  end.

(** The task is cancelled while it waits. *)
Definition cancelled {A} (x : A) : option (res pyval) := None.

End InMemoryX.

(** ** Vocabulary of the further properties *)

(** A join event as [_create_join_event] leaves it: membership ["join"],
    this server as origin, this server's placeholder signature. *)
Definition signed_join_event (hostname signing_key_id : string) (event : pyval) : Prop :=
  py_getitem event "content" = Ret (PDict [(PStr "membership", PStr "join")]) /\
  py_getitem event "origin" = Ret (PStr hostname) /\
  py_getitem event "signatures" =
    Ret (PDict [(PStr hostname,
                  PDict [(PStr ("ed25519:" +:+ signing_key_id),
                           PStr "signature_placeholder")])]).

(** The answer of [join_room_via_federation] for a server. *)
Definition joined_via (room_id server : string) : pyval :=
  PDict [(PStr "room_id", PStr room_id); (PStr "server", PStr server)].

(** The keyword arguments of the events that were built, in order. *)
Definition created (cs : list call) : list (list (string * pyval)) :=
  omap (fun c => match c with create_event kwargs => Some kwargs | _ => None end) cs.

(** The world in which the call that follows [cs] is made, when the calls
    [cs] were made from [w] on and no token was drawn in between. *)
Definition world_after {World} (hs : homeserver World) (w : World) (cs : list call)
  : World :=
  foldl (fun w c => (perform hs c w).2) w cs.

(** Every [store_event] among the calls [cs], made from [w] on, comes
    right after the auth check of the same event, and the auth engine accepted
    the event in the world where it was asked. *)
Definition stores_follow_checks {World} (hs : homeserver World) (w : World) (cs : list call)
  : Prop :=
  forall j event, cs !! j = Some (store_event event) ->
    exists i, j = S i /\
      cs !! i = Some (check_auth_rules_for_event event) /\
      accepted (perform hs (check_auth_rules_for_event event)
                  (world_after hs w (take i cs))).1 = true.

(** The transaction is a new one in world [w]: there is no transaction id,
    or the datastore answers the lookup with a falsy value. *)
Definition txn_is_new {World} (hs : homeserver World) (w : World)
    (sender_id room_id : string) (txn_id : option string) : Prop :=
  opt_str_truthy txn_id = true ->
  exists x, (perform hs (get_event_by_txn_id sender_id room_id (default "" txn_id)) w).1
              = Ret x /\ py_truthy x = false.

(** [c in s] for a character. *)
Fixpoint has_char (c : ascii) (s : string) : bool :=
  match s with
  | EmptyString => false
  | String c' s' => Ascii.eqb c' c || has_char c s'
  end.

(** No call to the federation client. *)
Definition is_local (c : xcall) : Prop :=
  match c with
  | other (client_send_event _ _) | other (client_get_event _ _)
  | other (client_get_room_state _ _) | other (client_make_join _ _ _)
  | other (client_send_join _ _ _) | other (client_send_invite _ _ _)
  | other (client_backfill _ _ _) => False
  | _ => True
  end.

(** ** The value model on a few inputs *)

Example truthy_values :
  map py_truthy [PNone; PBool true; PInt 0; PInt 7; PStr ""; PStr "x"; PList []; PDict []]
  = [false; true; false; true; false; true; false; false].
Proof. reflexivity. Qed.

Example contains_values :
  py_contains "type" (PDict [(PStr "type", PNone)]) = Ret true /\
  py_contains "type" (PStr "prototype") = Ret true /\
  py_contains "type" (PList [PStr "typ"; PInt 1]) = Ret false /\
  py_contains "type" (PInt 3) = Raise (Exn TypeError "argument of type 'int' is not iterable").
Proof. split_and!; reflexivity. Qed.

Example ordering_values :
  py_lt (PInt 0) (PInt 50) = Ret true /\
  py_lt (PBool true) (PInt 1) = Ret false /\
  py_lt (PStr "a") (PStr "b") = Ret true /\
  py_lt (PList [PInt 1]) (PList [PInt 1; PInt 0]) = Ret true /\
  py_lt PNone (PInt 50) =
    Raise (Exn TypeError "'<' not supported between instances of 'NoneType' and 'int'").
Proof. split_and!; reflexivity. Qed.

Example update_values :
  dict_update [(PStr "msgtype", PStr "m.text")]
              [(PStr "body", PStr "hi"); (PStr "msgtype", PStr "m.notice")]
  = [(PStr "msgtype", PStr "m.notice"); (PStr "body", PStr "hi")].
Proof. reflexivity. Qed.

(** ** Executing programs *)

Section Run.
Context {World : Type} (hs : homeserver World).

Lemma run_bind {A B} (p : prog A) (f : A -> prog B) (w : World) :
  run hs (bind p f) w =
  match result (run hs p w) with
  | Ret a => then_outcome (run hs p w) (run hs (f a) (world (run hs p w)))
  | Raise e => Outcome (Raise e) (world (run hs p w)) (calls (run hs p w))
  end.
Proof.
  revert w. induction p as [[a|e]|c k IH|n k IH]; intros w; simpl.
  - unfold then_outcome. simpl. by destruct (run hs (f a) w).
  - done.
  - destruct (perform hs c w) as [x w1]. simpl. rewrite IH.
    by destruct (result (run hs (k x) w1)).
  - destruct (token_urlsafe hs n w) as [s w1]. apply IH.
Qed.

Lemma run_try_except {A} (p : prog A) (h : exn -> prog A) (w : World) :
  run hs (try_except p h) w =
  match result (run hs p w) with
  | Ret a => run hs p w
  | Raise e => then_outcome (run hs p w) (run hs (h e) (world (run hs p w)))
  end.
Proof.
  revert w. induction p as [[a|e]|c k IH|n k IH]; intros w; simpl.
  - done.
  - unfold then_outcome. simpl. by destruct (run hs (h e) w).
  - destruct (perform hs c w) as [x w1]. simpl. rewrite IH.
    by destruct (result (run hs (k x) w1)) eqn:E; rewrite ?E.
  - destruct (token_urlsafe hs n w) as [s w1]. apply IH.
Qed.

(** A [try] whose handler returns a constant lets no [exn] out. *)
Lemma try_except_returns {A} (p : prog A) (a0 : A) (w : World) :
  exists a, result (run hs (try_except p (fun _ => mret a0)) w) = Ret a.
Proof.
  rewrite run_try_except.
  destruct (result (run hs p w)) as [a|e] eqn:E; simpl; eauto.
Qed.

End Run.

(** ** Properties of the federation handler *)

Section FederationProperties.
Context {World : Type} (hs : homeserver World).
Import FederationHandler.

Lemma py_ne_str_lookup (d : list (pyval * pyval)) (key origin : string) :
  dict_lookup (PStr key) d ≠ Some (PStr origin) ->
  py_ne_str (default PNone (dict_lookup (PStr key) d)) origin = true.
Proof.
  intros Hne. destruct (dict_lookup (PStr key) d) as [[]|]; simpl; try done.
  destruct (String.eqb_spec s origin); [by subst|done].
Qed.

Lemma first_missing_dict (d : list (pyval * pyval)) (fields : list string) (field : string) :
  field ∈ fields -> dict_lookup (PStr field) d = None ->
  exists f, first_missing fields (PDict d) = Ret (Some f).
Proof.
  intros Hin Hnone. induction fields as [|f fs IH]; [by apply elem_of_nil in Hin|].
  simpl. destruct (dict_lookup (PStr f) d) as [v|] eqn:E; simpl.
  - apply IH. apply elem_of_cons in Hin as [->|]; [congruence|done].
  - eauto.
Qed.

Lemma validate_returns (event : pyval) (w : World) :
  exists b, result (run hs (_validate_event event) w) = Ret b.
Proof. apply try_except_returns. Qed.

(** What [_validate_event] does, in one equation: nothing is awaited unless
    every required field is there, and then only the auth engine. *)
Lemma run_validate_event (event : pyval) (w : World) :
  run hs (_validate_event event) w =
  match first_missing required_fields event with
  | Ret None =>
      let xw := perform hs (check_auth_rules_for_event event) w in
      Outcome (Ret (accepted xw.1)) xw.2 [check_auth_rules_for_event event]
  | _ => Outcome (Ret false) w []
  end.
Proof.
  unfold _validate_event.
  destruct (first_missing required_fields event) as [[f|]|e]; try done.
  simpl. destruct (perform hs _ w) as [[v|e] w1]; simpl; [|done].
  destruct (py_truthy v); simpl; [done|].
  by destruct (py_getitem event "event_id").
Qed.

(** What [handle_incoming_event] does with a dict, in one equation. *)
Lemma run_handle_incoming_event (origin : string) (d : list (pyval * pyval)) (w : World) :
  run hs (handle_incoming_event origin (PDict d)) w =
  if py_ne_str (default PNone (dict_lookup (PStr "origin") d)) origin
  then Outcome (Ret false) w []
  else
    let v := run hs (_validate_event (PDict d)) w in
    match result v, dict_lookup (PStr "event_id") d with
    | Ret true, Some id =>
        let g := perform hs (get_event_by_id id) (world v) in
        if accepted g.1
        then Outcome (Ret true) g.2 (calls v ++ [get_event_by_id id])
        else
          match g.1 with
          | Raise _ => Outcome (Ret false) g.2 (calls v ++ [get_event_by_id id])
          | Ret _ =>
              let s := perform hs (store_event (PDict d)) g.2 in
              Outcome (Ret (match s.1 with Ret _ => true | Raise _ => false end)) s.2
                      (calls v ++ [get_event_by_id id; store_event (PDict d)])
          end
    | _, _ => Outcome (Ret false) (world v) (calls v)
    end.
Proof.
  unfold handle_incoming_event. simpl py_get. unfold mbind, prog_bind, mret, prog_ret, eval.
  cbn [bind try_except].
  destruct (py_ne_str _ origin); [done|].
  rewrite run_try_except, run_bind.
  destruct (validate_returns (PDict d) w) as [b Hb].
  destruct (run hs (_validate_event (PDict d)) w) as [rv wv cv].
  simpl in Hb. subst rv. unfold then_outcome.
  destruct b; simpl; rewrite ?app_nil_r; [|done].
  destruct (dict_lookup (PStr "event_id") d) as [id|]; simpl;
    rewrite ?app_nil_r; [|done].
  destruct (perform hs (get_event_by_id id) wv) as [[x|e] wg]; simpl;
    rewrite ?app_nil_r; [|done].
  destruct (py_truthy x); simpl; rewrite ?app_nil_r; [done|].
  destruct (perform hs (store_event (PDict d)) wg) as [[y|e] ws]; simpl;
    by rewrite ?app_nil_r.
Qed.

(** C9: an event whose declared origin is not the server it came from is
    turned down at once: the handler returns [False], the world is untouched
    and no collaborator is called, so [store_event] is never reached. *)
Theorem origin_mismatch_rejected (origin : string) (d : list (pyval * pyval)) (w : World) :
  dict_lookup (PStr "origin") d ≠ Some (PStr origin) ->
  run hs (handle_incoming_event origin (PDict d)) w = Outcome (Ret false) w [].
Proof.
  intros Hne. rewrite run_handle_incoming_event.
  by rewrite py_ne_str_lookup.
Qed.

(** C5: an event that lacks one of the required fields fails validation and
    is rejected: [_validate_event] and [handle_incoming_event] both return
    [False] without calling any collaborator, so nothing is stored. *)
Theorem missing_field_rejected (origin field : string) (d : list (pyval * pyval)) (w : World) :
  field ∈ required_fields -> dict_lookup (PStr field) d = None ->
  run hs (_validate_event (PDict d)) w = Outcome (Ret false) w [] /\
  run hs (handle_incoming_event origin (PDict d)) w = Outcome (Ret false) w [].
Proof.
  intros Hin Hnone.
  destruct (first_missing_dict d _ _ Hin Hnone) as [f Hf].
  assert (Hv : run hs (_validate_event (PDict d)) w = Outcome (Ret false) w []).
  { by rewrite run_validate_event, Hf. }
  split; [done|].
  rewrite run_handle_incoming_event, Hv. simpl.
  by destruct (py_ne_str _ origin).
Qed.

(** C4: when the auth engine turns the event down (a falsy answer or an
    exception), [handle_incoming_event] returns [False] and [store_event] is
    not among the calls it made. *)
Theorem auth_failure_not_persisted (origin : string) (d : list (pyval * pyval)) (w : World) :
  auth_rejects hs w (PDict d) ->
  result (run hs (handle_incoming_event origin (PDict d)) w) = Ret false /\
  stored (calls (run hs (handle_incoming_event origin (PDict d)) w)) = [].
Proof.
  unfold auth_rejects. intros Hrej.
  rewrite run_handle_incoming_event.
  destruct (py_ne_str _ origin); [done|].
  rewrite run_validate_event.
  destruct (first_missing required_fields (PDict d)) as [[f|]|e]; simpl; try done.
  by rewrite Hrej.
Qed.

(** C2 (as the code has it): re-delivery of an event whose id is already on
    record goes through validation again.  When the declared origin matches,
    the required fields are present and the auth engine, asked once more,
    admits the event, the handler returns [True] after the auth check and the
    lookup, and [store_event] is not called. *)
Theorem readmission_after_validation (origin : string) (d : list (pyval * pyval)) (w : World) :
  dict_lookup (PStr "origin") d = Some (PStr origin) ->
  first_missing required_fields (PDict d) = Ret None ->
  accepted (perform hs (check_auth_rules_for_event (PDict d)) w).1 = true ->
  already_stored hs (perform hs (check_auth_rules_for_event (PDict d)) w).2 (PDict d) ->
  result (run hs (handle_incoming_event origin (PDict d)) w) = Ret true /\
  auth_checked (calls (run hs (handle_incoming_event origin (PDict d)) w)) = [PDict d] /\
  stored (calls (run hs (handle_incoming_event origin (PDict d)) w)) = [].
Proof.
  intros Horigin Hfields Hauth (id & Hid & Hstored).
  rewrite run_handle_incoming_event, Horigin. simpl.
  rewrite String.eqb_refl. simpl.
  rewrite run_validate_event, Hfields. simpl. rewrite Hauth.
  simpl in Hid. destruct (dict_lookup (PStr "event_id") d) as [id'|]; [|done].
  injection Hid as ->. by rewrite Hstored.
Qed.

(** An event that is not a dict has no [get]: the debug line in front of
    the [try] raises and the exception leaves the handler. *)
Lemma handle_incoming_event_raises (origin : string) (event : pyval) (w : World) :
  (forall d, event ≠ PDict d) ->
  run hs (handle_incoming_event origin event) w =
  Outcome (Raise (Exn AttributeError
                    ("'" +:+ type_name event +:+ "' object has no attribute 'get'"))) w [].
Proof. intros Hnd. destruct event; try done. by destruct (Hnd d). Qed.

End FederationProperties.

(** ** Properties of the federation API *)

Section FederationAPIProperties.
Context {World : Type} (hs : homeserver World).
Import FederationAPI.

Lemma bind_ret_inv {A B} (p : prog A) (f : A -> prog B) (w : World) (b : B) :
  result (run hs (x ← p; f x) w) = Ret b ->
  exists a, result (run hs p w) = Ret a /\
    result (run hs (f a) (world (run hs p w))) = Ret b.
Proof.
  unfold mbind, prog_bind. rewrite run_bind.
  destruct (result (run hs p w)) as [a|e]; [|done].
  intros H. by exists a.
Qed.

Lemma try_except_post {A} (P : A -> Prop) (p : prog A) (a0 : A) (w : World) :
  (forall a, result (run hs p w) = Ret a -> P a) -> P a0 ->
  exists a, result (run hs (try_except p (fun _ => mret a0)) w) = Ret a /\ P a.
Proof.
  intros Hp H0. rewrite run_try_except.
  destruct (result (run hs p w)) as [a|e] eqn:E; simpl; eauto.
Qed.

(** When every await comes back or raises an [Exception], the transaction
    endpoint answers with an error-code body and status 403 or 500, or with
    the per-PDU result map and status 200, whatever the request body is. *)
Lemma send_transaction_typed (origin transaction_id : string) (request_data : pyval)
    (w : World) :
  exists r,
    result (run hs (handle_send_transaction origin transaction_id request_data) w) = Ret r /\
    typed_response r.
Proof.
  unfold handle_send_transaction.
  apply try_except_post.
  - intros r Hr. destruct (negb (str_truthy origin)).
    + injection Hr as <-. left. eauto.
    + do 8 (apply bind_ret_inv in Hr as (? & _ & Hr)).
      injection Hr as <-. right. eauto.
  - left. eauto.
Qed.

End FederationAPIProperties.

(** ** Properties of the message handler *)

Section MessageProperties.
Context {World : Type} (hs : homeserver World).
Import MessageHandler.

(** C1 (as the code has it): an event id is built from a random token and
    the server name, and from nothing else.  [MessageHandler] returns
    [$<token>:<hostname>] for the token that [secrets.token_urlsafe(32)]
    hands out, [FederationHandler] returns the token itself as the local part;
    neither reads the event, awaits a collaborator or hashes anything. *)
Theorem event_id_from_token (hostname : string) (w : World) :
  run hs (_generate_event_id hostname) w =
    Outcome (Ret ("$" +:+ (token_urlsafe hs 32 w).1 +:+ ":" +:+ hostname))
            (token_urlsafe hs 32 w).2 [] /\
  run hs FederationHandler._generate_event_id w =
    Outcome (Ret (token_urlsafe hs 32 w).1) (token_urlsafe hs 32 w).2 [].
Proof.
  unfold _generate_event_id, FederationHandler._generate_event_id. simpl.
  by destruct (token_urlsafe hs 32 w).
Qed.

(** C10 (as the code has it): for a sender who is joined to the room and a
    non-empty transaction id under which the datastore has an event on
    record, [send_message] returns that event's id after the membership and
    the transaction lookups; it creates and stores nothing. *)
Theorem send_message_replays_txn (hostname room_id sender_id message_type txn_id : string)
    (content : list (pyval * pyval)) (existing id : pyval) (w : World) :
  str_truthy txn_id = true ->
  (perform hs (get_room_membership sender_id room_id) w).1 = Ret (PStr "join") ->
  (perform hs (get_event_by_txn_id sender_id room_id txn_id)
     (perform hs (get_room_membership sender_id room_id) w).2).1 = Ret existing ->
  py_truthy existing = true ->
  py_getitem existing "event_id" = Ret id ->
  run hs (send_message hostname room_id sender_id message_type content (Some txn_id)) w =
  Outcome (Ret (PDict [(PStr "event_id", id)]))
          (perform hs (get_event_by_txn_id sender_id room_id txn_id)
             (perform hs (get_room_membership sender_id room_id) w).2).2
          [get_room_membership sender_id room_id;
           get_event_by_txn_id sender_id room_id txn_id].
Proof.
  intros Htxn Hjoin Hrec Htruthy Hid.
  unfold send_message. simpl.
  destruct (perform hs (get_room_membership sender_id room_id) w) as [m w1].
  simpl in *. subst m. simpl. rewrite Htxn. simpl.
  destruct (perform hs (get_event_by_txn_id sender_id room_id txn_id) w1) as [x w2].
  simpl in *. subst x. simpl. rewrite Htruthy, Hid. done.
Qed.

(** Symbolic execution of a handler body: case on the next awaited answer,
    token draw or test that the goal is stuck on. *)
Ltac exec_step :=
  simpl in *;
  match goal with
  | |- context [perform ?hs ?c ?w] =>
      let E := fresh "E" in destruct (perform hs c w) as [[?|?] ?] eqn:E
  | |- context [token_urlsafe ?hs ?n ?w] =>
      let E := fresh "E" in destruct (token_urlsafe hs n w) as [? ?] eqn:E
  | |- context [py_truthy ?v] =>
      let E := fresh "E" in destruct (py_truthy v) eqn:E
  | |- context [py_getitem ?v ?k] =>
      let E := fresh "E" in destruct (py_getitem v k) as [?|?] eqn:E
  | |- context [py_ne_str ?v ?s] =>
      let E := fresh "E" in destruct (py_ne_str v s) eqn:E
  | |- context [py_lt ?a ?b] =>
      let E := fresh "E" in destruct (py_lt a b) as [[]|?] eqn:E
  end.

Section RedactMessage.
Variables (hostname room_id sender_id target_event_id : string).
Variables (reason txn_id : option string) (w : World).

Let o := run hs (redact_message hostname room_id sender_id target_event_id reason txn_id) w.
Let t := perform hs (get_event_by_id (PStr target_event_id)) w.
Let p := perform hs (get_user_power_level sender_id room_id) t.2.
Let l := perform hs (get_room_redact_level room_id) p.2.

Lemma redact_target_missing :
  accepted t.1 = false ->
  (exists e, result o = Raise e) /\ stored (calls o) = [] /\ redactions (calls o) = [].
Proof.
  subst o t. unfold redact_message. intros Hmiss.
  exec_step; simpl in Hmiss; [rewrite Hmiss|]; simpl; eauto.
Qed.

Lemma redact_insufficient_power (tev ts pl rl : pyval) :
  t.1 = Ret tev -> py_truthy tev = true ->
  py_getitem tev "sender" = Ret ts -> py_ne_str ts sender_id = true ->
  p.1 = Ret pl -> l.1 = Ret rl -> py_lt pl rl = Ret true ->
  result o = Raise (Exn ValueError "Insufficient permissions to redact message") /\
  stored (calls o) = [] /\ redactions (calls o) = [].
Proof.
  subst o l p t. unfold redact_message. simpl.
  destruct (perform hs (get_event_by_id (PStr target_event_id)) w) as [x w1].
  simpl. intros -> Htruthy Hs Hne. rewrite Htruthy. simpl. rewrite Hs. simpl. rewrite Hne.
  simpl.
  destruct (perform hs (get_user_power_level sender_id room_id) w1) as [x w2].
  simpl. intros ->. simpl.
  destruct (perform hs (get_room_redact_level room_id) w2) as [x w3].
  simpl. intros -> Hlt. simpl. by rewrite Hlt.
Qed.

Lemma redact_success_shape (r : pyval) :
  result o = Ret r ->
  exists eid kwargs ev,
    r = PDict [(PStr "event_id", PStr eid)] /\
    ("event_type", PStr "m.room.redaction") ∈ kwargs /\
    ("redacts", PStr target_event_id) ∈ kwargs /\
    ("event_id", PStr eid) ∈ kwargs /\
    (exists w', (perform hs (create_event kwargs) w').1 = Ret ev) /\
    stored (calls o) = [ev] /\
    redactions (calls o) = [(target_event_id, eid)].
Proof.
  subst o. unfold redact_message.
  repeat exec_step; try done.
  all: intros [= <-].
  all: match goal with
       | H : perform hs (create_event ?kw) ?w' = (Ret ?ev, _) |- _ =>
           eexists; exists kw, ev; split; [reflexivity|];
           split_and!; [set_solver.. | by exists w'; rewrite H | done | done]
       end.
Qed.

Lemma redact_allowed_succeeds (tev ts : pyval) :
  (forall c w', exists v, (perform hs c w').1 = Ret v) ->
  t.1 = Ret tev -> py_truthy tev = true -> py_getitem tev "sender" = Ret ts ->
  (py_ne_str ts sender_id = false \/
   exists pl rl, p.1 = Ret pl /\ l.1 = Ret rl /\ py_lt pl rl = Ret false) ->
  exists r, result o = Ret r.
Proof.
  subst o l p t. unfold redact_message. intros Hanswer.
  assert (Hno : forall c w' e w'', perform hs c w' = (Raise e, w'') -> False).
  { intros c w' e w'' E. destruct (Hanswer c w') as [v Hv]. by rewrite E in Hv. }
  simpl.
  destruct (perform hs (get_event_by_id (PStr target_event_id)) w) as [x w1].
  simpl. intros -> Htruthy Hs. rewrite Htruthy. simpl. rewrite Hs. simpl.
  intros [Hown|(pl & rl & Hp & Hl & Hlt)].
  - rewrite Hown. repeat exec_step; by eauto || (exfalso; eauto).
  - destruct (py_ne_str ts sender_id); simpl.
    + destruct (perform hs (get_user_power_level sender_id room_id) w1) as [x w2].
      simpl in *. subst x. simpl.
      destruct (perform hs (get_room_redact_level room_id) w2) as [x w3].
      simpl in *. subst x. simpl. rewrite Hlt.
      repeat exec_step; by eauto || (exfalso; eauto).
    + repeat exec_step; by eauto || (exfalso; eauto).
Qed.

End RedactMessage.

(** C8 (as the code has it): [redact_message] first looks the target event
    up and fails, storing nothing, when it is not found.  For a target that
    exists, a sender who is not the target's sender and whose power level is
    below the room's redact level is refused with an error and nothing is
    stored or redacted.  Every call that succeeds has stored exactly one
    event, the event builder's answer for an [m.room.redaction] that redacts
    the target, and has marked the target as redacted by it; and the call
    succeeds for an existing target when the sender owns it or is not below
    the redact level, as long as the collaborators answer. *)
Theorem redaction_gate (hostname room_id sender_id target_event_id : string)
    (reason txn_id : option string) (w : World) :
  let o := run hs (redact_message hostname room_id sender_id target_event_id reason txn_id) w in
  let t := perform hs (get_event_by_id (PStr target_event_id)) w in
  let p := perform hs (get_user_power_level sender_id room_id) t.2 in
  let l := perform hs (get_room_redact_level room_id) p.2 in
  (accepted t.1 = false ->
     (exists e, result o = Raise e) /\ stored (calls o) = [] /\ redactions (calls o) = []) /\
  (forall tev ts pl rl,
     t.1 = Ret tev -> py_truthy tev = true ->
     py_getitem tev "sender" = Ret ts -> py_ne_str ts sender_id = true ->
     p.1 = Ret pl -> l.1 = Ret rl -> py_lt pl rl = Ret true ->
     result o = Raise (Exn ValueError "Insufficient permissions to redact message") /\
     stored (calls o) = [] /\ redactions (calls o) = []) /\
  (forall r, result o = Ret r ->
     exists eid kwargs ev,
       r = PDict [(PStr "event_id", PStr eid)] /\
       ("event_type", PStr "m.room.redaction") ∈ kwargs /\
       ("redacts", PStr target_event_id) ∈ kwargs /\
       ("event_id", PStr eid) ∈ kwargs /\
       (exists w', (perform hs (create_event kwargs) w').1 = Ret ev) /\
       stored (calls o) = [ev] /\
       redactions (calls o) = [(target_event_id, eid)]) /\
  (forall tev ts,
     (forall c w', exists v, (perform hs c w').1 = Ret v) ->
     t.1 = Ret tev -> py_truthy tev = true -> py_getitem tev "sender" = Ret ts ->
     (py_ne_str ts sender_id = false \/
      exists pl rl, p.1 = Ret pl /\ l.1 = Ret rl /\ py_lt pl rl = Ret false) ->
     exists r, result o = Ret r).
Proof.
  intros o t p l. split_and!.
  - apply redact_target_missing.
  - apply redact_insufficient_power.
  - apply redact_success_shape.
  - apply redact_allowed_succeeds.
Qed.

End MessageProperties.

(** ** Properties of the room handler *)

Section RoomProperties.
Context {World : Type} (hs : homeserver World).
Import RoomHandler.

(** C3 (as the code has it): without an override (none given, or an empty
    one) the power-levels event is built from the hardcoded content: ban,
    kick, redact, invite and state_default at 50, events_default and
    users_default at 0, and the creator alone in [users], at 100. *)
Theorem default_power_levels_event (room_id creator : string) (w : World) :
  calls (run hs (_create_power_levels_event room_id creator None) w) =
    [create_event [("event_type", PStr "m.room.power_levels");
                   ("room_id", PStr room_id);
                   ("sender", PStr creator);
                   ("content", PDict (default_power_levels creator));
                   ("state_key", PStr "")]] /\
  power_levels_content creator (Some []) = default_power_levels creator /\
  dict_lookup (PStr "ban") (default_power_levels creator) = Some (PInt 50) /\
  dict_lookup (PStr "kick") (default_power_levels creator) = Some (PInt 50) /\
  dict_lookup (PStr "redact") (default_power_levels creator) = Some (PInt 50) /\
  dict_lookup (PStr "invite") (default_power_levels creator) = Some (PInt 50) /\
  dict_lookup (PStr "state_default") (default_power_levels creator) = Some (PInt 50) /\
  dict_lookup (PStr "events_default") (default_power_levels creator) = Some (PInt 0) /\
  dict_lookup (PStr "users_default") (default_power_levels creator) = Some (PInt 0) /\
  dict_lookup (PStr "users") (default_power_levels creator) =
    Some (PDict [(PStr creator, PInt 100)]).
Proof.
  split_and!; try reflexivity.
  unfold _create_power_levels_event. simpl.
  by destruct (perform hs _ w).
Qed.

End RoomProperties.

(** ** The handlers at work on the in-memory homeserver *)

Section Examples.
Import InMemory Sample.

(** C1, counterexample: the same message (same room, sender, type and
    content) sent twice gets two different event ids, one per token drawn. *)
Lemma event_id_not_content_addressed :
  let send := MessageHandler.send_message "example.org" "!room:remote.org"
                "@bob:remote.org" "m.text" [(PStr "body", PStr "hi")] None in
  let first := run (mem_hs allow_all) send db_with_message in
  let second := run (mem_hs allow_all) send (world first) in
  result first = Ret (PDict [(PStr "event_id", PStr "$tokenA:example.org")]) /\
  result second = Ret (PDict [(PStr "event_id", PStr "$tokenB:example.org")]) /\
  result first ≠ result second.
Proof. vm_compute. split_and!; congruence. Qed.

(** C2, counterexample: the event is on record, yet re-delivering it asks
    the auth engine again, and when the engine now says no the handler
    returns [False]. *)
Lemma readmission_reruns_auth :
  let o := run (mem_hs deny_all)
             (FederationHandler.handle_incoming_event "remote.org" message_event)
             db_with_message in
  already_stored (mem_hs deny_all) db_with_message message_event /\
  result o = Ret false /\
  auth_checked (calls o) = [message_event].
Proof.
  split_and!; [|reflexivity..].
  exists (PStr "$e1:remote.org"). split; reflexivity.
Qed.

(** C2, witness. *)
Lemma readmission_after_validation_witness :
  let o := run (mem_hs allow_all)
             (FederationHandler.handle_incoming_event "remote.org" message_event)
             db_with_message in
  result o = Ret true /\ auth_checked (calls o) = [message_event] /\ stored (calls o) = [].
Proof.
  apply (readmission_after_validation (mem_hs allow_all) "remote.org"
           message_fields db_with_message); try reflexivity.
  exists (PStr "$e1:remote.org"). split; reflexivity.
Defined.

(** C3, counterexample: the power-levels event created without an override
    carries [invite] at 50, which is not 0. *)
Lemma default_invite_level_is_50 :
  exists event content,
    result (run (mem_hs allow_all)
              (RoomHandler._create_power_levels_event "!room:example.org"
                 "@alice:example.org" None)
              empty_db) = Ret event /\
    py_getitem event "content" = Ret content /\
    py_getitem content "invite" = Ret (PInt 50) /\
    py_eq (PInt 50) (PInt 0) = false.
Proof. do 2 eexists. split_and!; reflexivity. Qed.

(** C4, witness. *)
Lemma auth_failure_not_persisted_witness :
  result (run (mem_hs deny_all)
            (FederationHandler.handle_incoming_event "remote.org" message_event)
            empty_db) = Ret false /\
  stored (calls (run (mem_hs deny_all)
            (FederationHandler.handle_incoming_event "remote.org" message_event)
            empty_db)) = [].
Proof.
  apply (auth_failure_not_persisted (mem_hs deny_all) "remote.org" message_fields empty_db).
  reflexivity.
Defined.

(** C5, witness. *)
Lemma missing_field_rejected_witness :
  run (mem_hs allow_all) (FederationHandler._validate_event (PDict no_sender_fields))
      empty_db = Outcome (Ret false) empty_db [] /\
  run (mem_hs allow_all)
      (FederationHandler.handle_incoming_event "remote.org" (PDict no_sender_fields))
      empty_db = Outcome (Ret false) empty_db [].
Proof.
  apply (missing_field_rejected (mem_hs allow_all) "remote.org" "sender"
           no_sender_fields empty_db).
  - vm_compute. set_solver.
  - reflexivity.
Defined.

(** C6, the failing input: a transaction whose PDU is a bare string.
    [handle_incoming_event], whose docstring promises [False] for what it
    cannot handle, raises [AttributeError] on it: the debug line that reads
    [event.get('event_id')] stands in front of the [try].  The transaction
    endpoint, which hands the PDU on unchecked, answers with the 500 error
    body. *)
Lemma non_dict_event_raises :
  result (run (mem_hs allow_all)
            (FederationHandler.handle_incoming_event "remote.org" (PStr "not-an-event"))
            empty_db) =
    Raise (Exn AttributeError "'str' object has no attribute 'get'") /\
  result (run (mem_hs allow_all)
            (FederationAPI.handle_send_transaction "remote.org" "txn42" malformed_transaction)
            empty_db) =
    Ret (PDict [(PStr "errcode", PStr "M_UNKNOWN");
                (PStr "error", PStr "Internal server error")], 500).
Proof. split; reflexivity. Qed.

(** C8, counterexample: the sender has power 100 in a room whose redact
    level is 50, so she is not below it; the target is unknown, the call
    fails and neither a redaction event nor a redaction mark is written. *)
Lemma redaction_of_unknown_target_fails :
  perform (mem_hs allow_all)
    (get_user_power_level "@carol:remote.org" "!room:remote.org") db_with_message
    = (Ret (PInt 100), db_with_message) /\
  perform (mem_hs allow_all)
    (get_room_redact_level "!room:remote.org") db_with_message
    = (Ret (PInt 50), db_with_message) /\
  py_lt (PInt 100) (PInt 50) = Ret false /\
  run (mem_hs allow_all)
      (MessageHandler.redact_message "example.org" "!room:remote.org"
         "@carol:remote.org" "$missing:remote.org" None None)
      db_with_message =
    Outcome (Raise (Exn ValueError "Event $missing:remote.org not found"))
            db_with_message [get_event_by_id (PStr "$missing:remote.org")].
Proof. split_and!; reflexivity. Qed.

(** C9, witness. *)
Lemma origin_mismatch_rejected_witness :
  run (mem_hs allow_all)
      (FederationHandler.handle_incoming_event "elsewhere.org" message_event)
      db_with_message = Outcome (Ret false) db_with_message [].
Proof.
  apply (origin_mismatch_rejected (mem_hs allow_all) "elsewhere.org"
           message_fields db_with_message).
  vm_compute. congruence.
Defined.

(** C10, counterexample: the transaction is on record, but the sender has
    left the room since: [send_message] raises instead of returning the
    recorded event id. *)
Lemma txn_replay_needs_membership :
  txn_recorded (mem_hs allow_all) db_after_leave
    "@bob:remote.org" "!room:remote.org" "txn1" /\
  run (mem_hs allow_all)
      (MessageHandler.send_message "example.org" "!room:remote.org" "@bob:remote.org"
         "m.text" [(PStr "body", PStr "hello")] (Some "txn1"))
      db_after_leave =
    Outcome (Raise (Exn ValueError
                      "User @bob:remote.org is not in room !room:remote.org"))
            db_after_leave
            [get_room_membership "@bob:remote.org" "!room:remote.org"].
Proof. split; reflexivity. Qed.

(** C10, witness. *)
Lemma send_message_replays_txn_witness :
  run (mem_hs allow_all)
      (MessageHandler.send_message "example.org" "!room:remote.org" "@bob:remote.org"
         "m.text" [(PStr "body", PStr "hello")] (Some "txn1"))
      db_with_message =
    Outcome (Ret (PDict [(PStr "event_id", PStr "$e1:remote.org")]))
            db_with_message
            [get_room_membership "@bob:remote.org" "!room:remote.org";
             get_event_by_txn_id "@bob:remote.org" "!room:remote.org" "txn1"].
Proof.
  apply (send_message_replays_txn (mem_hs allow_all) "example.org" "!room:remote.org"
           "@bob:remote.org" "m.text" "txn1" [(PStr "body", PStr "hello")]
           message_event (PStr "$e1:remote.org") db_with_message); reflexivity.
Defined.

(** A redaction that goes through: the sender redacts her own message. *)
Lemma own_message_redacted :
  let o := run (mem_hs allow_all)
             (MessageHandler.redact_message "example.org" "!room:remote.org"
                "@bob:remote.org" "$e1:remote.org" (Some "spam") None)
             db_with_message in
  result o = Ret (PDict [(PStr "event_id", PStr "$tokenA:example.org")]) /\
  redactions (calls o) = [("$e1:remote.org", "$tokenA:example.org")] /\
  redacted (world o) !! "$e1:remote.org" = Some "$tokenA:example.org" /\
  is_Some (events (world o) !! "$tokenA:example.org").
Proof. vm_compute. split_and!; eauto. Qed.

(** A redaction that is refused: a user at the default level 0 goes after
    somebody else's message in a room whose redact level is 50. *)
Lemma foreign_message_not_redacted :
  run (mem_hs allow_all)
      (MessageHandler.redact_message "example.org" "!room:remote.org"
         "@dave:remote.org" "$e1:remote.org" None None)
      db_with_message =
    Outcome (Raise (Exn ValueError "Insufficient permissions to redact message"))
            db_with_message
            [get_event_by_id (PStr "$e1:remote.org");
             get_user_power_level "@dave:remote.org" "!room:remote.org";
             get_room_redact_level "!room:remote.org"].
Proof. reflexivity. Qed.

(** Delivering the same event twice to an engine that admits it: [True]
    both times, one [store_event], one record. *)
Lemma redelivery_keeps_one_record :
  let deliver := FederationHandler.handle_incoming_event "remote.org" message_event in
  let first := run (mem_hs allow_all) deliver empty_db in
  let second := run (mem_hs allow_all) deliver (world first) in
  result first = Ret true /\ stored (calls first) = [message_event] /\
  result second = Ret true /\ stored (calls second) = [] /\
  world second = world first /\ size (events (world second)) = 1%nat.
Proof. vm_compute. split_and!; reflexivity. Qed.

(** A transaction with one good PDU and no EDUs. *)
Lemma transaction_accepted :
  result (run (mem_hs allow_all)
            (FederationAPI.handle_send_transaction "remote.org" "txn43"
               (PDict [(PStr "pdus", PList [message_event])]))
            empty_db) =
    Ret (PDict [(PStr "pdus", PDict [(PStr "$e1:remote.org", PBool true)])], 200).
Proof. reflexivity. Qed.

(** A transaction without an origin. *)
Lemma transaction_without_origin :
  result (run (mem_hs allow_all)
            (FederationAPI.handle_send_transaction "" "txn44"
               (PDict [(PStr "pdus", PList [message_event])]))
            empty_db) =
    Ret (PDict [(PStr "errcode", PStr "M_FORBIDDEN");
                (PStr "error", PStr "Missing origin server")], 403).
Proof. reflexivity. Qed.

End Examples.

(** ** Properties of state resolution *)

Section ResolveProperties.
Import StateResolver.
Variable store : gmap string Event.
Variable Authorize : Event -> ResolvedState -> bool.
Variable sender_power : Event -> Z.

(** A slot passes through exactly when every input set fills it with the
    same event. *)
Lemma unconflicted_lookup (sets : list ResolvedState) (k : slot) (e : string) :
  unconflicted sets !! k = Some e <-> sets ≠ [] /\ forall s, s ∈ sets -> s !! k = Some e.
Proof.
  destruct sets as [|first others]; simpl.
  - rewrite lookup_empty. split; [done|by intros [? _]].
  - rewrite map_lookup_filter_Some. simpl. rewrite forallb_forall. split.
    + intros [Hfirst Hothers]. split; [done|].
      intros s [->|Hin]%elem_of_cons; [done|].
      apply list_elem_of_In, Hothers in Hin. by apply bool_decide_eq_true in Hin.
    + intros [_ Hall]. split; [apply Hall; left|].
      intros s Hin. apply bool_decide_eq_true, Hall. right. by apply list_elem_of_In.
Qed.

Lemma unconflicted_permutation (sets1 sets2 : list ResolvedState) :
  sets1 ≡ₚ sets2 -> unconflicted sets1 = unconflicted sets2.
Proof.
  intros Hperm. apply map_eq. intros k. apply option_eq. intros e.
  rewrite !unconflicted_lookup. split; intros [Hne Hall]; split.
  - intros ->. by apply Permutation_nil_r in Hperm.
  - intros s Hin. apply Hall. by rewrite Hperm.
  - intros ->. by apply Permutation_nil_l in Hperm.
  - intros s Hin. apply Hall. by rewrite <- Hperm.
Qed.

Lemma conflicting_permutation (sets1 sets2 : list ResolvedState) :
  sets1 ≡ₚ sets2 -> conflicting sets1 = conflicting sets2.
Proof.
  intros Hperm. unfold conflicting.
  rewrite (unconflicted_permutation _ _ Hperm).
  apply leibniz_equiv. by rewrite Hperm.
Qed.

(** C7: resolution does not depend on the order in which the input state
    sets arrive: permuting them leaves the resolved state the same. *)
Theorem resolve_permutation_invariant (sets1 sets2 : list ResolvedState) :
  sets1 ≡ₚ sets2 ->
  Resolve store Authorize sender_power sets1 = Resolve store Authorize sender_power sets2.
Proof.
  intros Hperm. unfold Resolve.
  by rewrite (unconflicted_permutation _ _ Hperm), (conflicting_permutation _ _ Hperm).
Qed.

End ResolveProperties.

Section ForkExamples.
Import StateResolver Fork.

(** The fork resolves to the topic of the sender who may set it, and the
    slots the two sides agree on pass through. *)
Lemma fork_resolved :
  Resolve store Authorize sender_power [state_a; state_b] = state_a.
Proof. vm_compute. reflexivity. Qed.

(** C7, witness. *)
Lemma resolve_permutation_invariant_witness :
  Resolve store Authorize sender_power [state_a; state_b] =
  Resolve store Authorize sender_power [state_b; state_a].
Proof.
  apply (resolve_permutation_invariant store Authorize sender_power
           [state_a; state_b] [state_b; state_a]).
  apply perm_swap.
Defined.

End ForkExamples.

(** ** Dicts *)

Lemma key_eqb_sym (a b : pyval) : key_eqb a b = key_eqb b a.
Proof.
  destruct a as [|[]| | | |], b as [|[]| | | |]; cbn -[Z.eqb]; try done;
    try apply String.eqb_sym; try apply Z.eqb_sym.
Qed.

(** Keys that compare equal are interchangeable. *)
Lemma key_eqb_congr (a b c : pyval) :
  key_eqb a b = true -> key_eqb a c = key_eqb b c.
Proof.
  destruct a as [|x|x|x|x|x], b as [|y|y|y|y|y]; cbn -[Z.eqb]; try done; intros H;
    try (apply String.eqb_eq in H; subst; done);
    try (apply Bool.eqb_prop in H; subst; done);
    try apply Z.eqb_eq in H;
    destruct c as [|z|z|z|z|z]; cbn -[Z.eqb]; try done;
    repeat match goal with b : bool |- _ => destruct b end; cbn -[Z.eqb]; subst;
    try done;
    repeat match goal with |- context [(?p =? ?q)%Z] => destruct (Z.eqb_spec p q) end;
    try done; lia.
Qed.

Lemma dict_lookup_congr (a b : pyval) (d : list (pyval * pyval)) :
  key_eqb a b = true -> dict_lookup a d = dict_lookup b d.
Proof.
  intros H. induction d as [|[k v] d IH]; simpl; [done|].
  rewrite (key_eqb_sym k a), (key_eqb_sym k b), (key_eqb_congr a b k H).
  by rewrite IH.
Qed.

Lemma dict_lookup_set_eq (k k' v : pyval) (d : list (pyval * pyval)) :
  key_eqb k k' = true -> dict_lookup k' (dict_set k v d) = Some v.
Proof.
  intros H. induction d as [|[k0 v0] d IH]; simpl.
  - by rewrite H.
  - destruct (key_eqb k0 k) eqn:E; simpl.
    + by rewrite (key_eqb_congr k0 k k' E), H.
    + rewrite (key_eqb_sym k0 k'), <- (key_eqb_congr k k' k0 H), (key_eqb_sym k k0), E.
      apply IH.
Qed.

Lemma dict_lookup_set_ne (k k' v : pyval) (d : list (pyval * pyval)) :
  key_eqb k k' = false -> dict_lookup k' (dict_set k v d) = dict_lookup k' d.
Proof.
  intros H. induction d as [|[k0 v0] d IH]; simpl.
  - by rewrite H.
  - destruct (key_eqb k0 k) eqn:E; simpl.
    + by rewrite (key_eqb_congr k0 k k' E), H.
    + by rewrite IH.
Qed.

(** [d.update(other)] reads as [other] where [other] has the key, and as
    [d] elsewhere. *)
Lemma dict_lookup_update (k : pyval) (d other : list (pyval * pyval)) :
  dict_ok other = true ->
  dict_lookup k (dict_update d other) =
  match dict_lookup k other with
  | Some v => Some v
  | None => dict_lookup k d
  end.
Proof.
  unfold dict_update. revert d.
  induction other as [|[k0 v0] other IH]; intros d Hok; simpl; [done|].
  simpl in Hok. apply andb_true_iff in Hok as [Hok Hrest].
  apply andb_true_iff in Hok as [_ Hfresh].
  apply negb_true_iff, bool_decide_eq_false in Hfresh.
  rewrite IH by done.
  destruct (key_eqb k0 k) eqn:E.
  - rewrite <- (dict_lookup_congr k0 k other E).
    destruct (dict_lookup k0 other); [by destruct Hfresh|].
    by apply dict_lookup_set_eq.
  - destruct (dict_lookup k other); [done|]. by apply dict_lookup_set_ne.
Qed.

Lemma dict_lookup_set_None (k k' v : pyval) (d : list (pyval * pyval)) :
  key_eqb k k' = false -> dict_lookup k' d = None ->
  dict_lookup k' (dict_set k v d) = None.
Proof. intros H Hd. by rewrite dict_lookup_set_ne. Qed.

Lemma dict_ok_set (k v : pyval) (d : list (pyval * pyval)) :
  hashable k = true -> dict_ok d = true -> dict_ok (dict_set k v d) = true.
Proof.
  intros Hk. induction d as [|[k0 v0] d IH]; simpl.
  - rewrite Hk. done.
  - intros Hok. apply andb_true_iff in Hok as [Hok Hrest].
    apply andb_true_iff in Hok as [Hk0 Hfresh].
    destruct (key_eqb k0 k) eqn:E; simpl.
    + by rewrite Hk0, Hfresh, Hrest.
    + rewrite Hk0, IH by done. rewrite !andb_true_r. simpl.
      apply negb_true_iff, bool_decide_eq_false in Hfresh.
      apply negb_true_iff, bool_decide_eq_false. intros [x Hx]. apply Hfresh.
      rewrite dict_lookup_set_ne in Hx; [by eexists|].
      by rewrite key_eqb_sym.
Qed.

Lemma dict_ok_hashable (d : list (pyval * pyval)) :
  dict_ok d = true -> Forall (fun kv => hashable kv.1 = true) d.
Proof.
  induction d as [|[k v] d IH]; simpl; [by constructor|].
  intros Hok. apply andb_true_iff in Hok as [Hok Hrest].
  apply andb_true_iff in Hok as [Hk _]. constructor; [done|by apply IH].
Qed.

Lemma dict_ok_update (d other : list (pyval * pyval)) :
  dict_ok d = true -> dict_ok other = true -> dict_ok (dict_update d other) = true.
Proof.
  intros Hd Hother. apply dict_ok_hashable in Hother. unfold dict_update.
  revert d Hd. induction Hother as [|[k v] other Hk _ IH]; intros d Hd; simpl; [done|].
  apply IH. by apply dict_ok_set.
Qed.

(** Symbolic execution of a handler body: case on the awaited answer, token
    draw or test that the goal is stuck on. *)
Ltac run_step :=
  simpl;
  match goal with
  | |- context [perform ?hs ?c ?w] =>
      let E := fresh "E" in destruct (perform hs c w) as [[?|?] ?] eqn:E
  | |- context [token_urlsafe ?hs ?n ?w] =>
      let E := fresh "E" in destruct (token_urlsafe hs n w) as [? ?] eqn:E
  | |- context [py_truthy ?v] =>
      let E := fresh "E" in destruct (py_truthy v) eqn:E
  | |- context [py_getitem ?v ?k] =>
      let E := fresh "E" in destruct (py_getitem v k) as [?|?] eqn:E
  | |- context [py_ne_str ?v ?s] =>
      let E := fresh "E" in destruct (py_ne_str v s) eqn:E
  | |- context [opt_str_truthy ?v] =>
      let E := fresh "E" in destruct (opt_str_truthy v) eqn:E
  end.

(** ** More properties of the message handler *)

Section MessageSendingProperties.
Context {World : Type} (hs : homeserver World).
Import MessageSending.

(** With a [str] for the message type, [send_message_as] is [send_message]. *)
Lemma send_message_as_str (hostname room_id sender_id message_type : string)
    (content : list (pyval * pyval)) (txn_id : option string) :
  send_message_as hostname room_id sender_id (PStr message_type) content txn_id =
  MessageHandler.send_message hostname room_id sender_id message_type content txn_id.
Proof. reflexivity. Qed.

(** X1: whatever transaction id a message is sent with, an event that
    [send_message] builds carries that transaction id and a content whose
    [msgtype] is the one the caller's content names, if it names one, and the
    declared message type otherwise, and whose other entries are the
    caller's; for a joined sender and a new transaction exactly one event is
    built. *)
Theorem send_message_msgtype (hostname room_id sender_id message_type : string)
    (content : list (pyval * pyval)) (txn_id : option string) (w : World) :
  dict_ok content = true ->
  let o := run hs (MessageHandler.send_message hostname room_id sender_id
                     message_type content txn_id) w in
  let m := perform hs (get_room_membership sender_id room_id) w in
  (forall kwargs, kwargs ∈ created (calls o) ->
     kwarg "txn_id" kwargs = Some (opt_str_val txn_id) /\
     exists body,
       kwarg "content" kwargs = Some (PDict body) /\
       dict_lookup (PStr "msgtype") body =
         Some (default (PStr message_type) (dict_lookup (PStr "msgtype") content)) /\
       forall k, key_eqb (PStr "msgtype") k = false ->
         dict_lookup k body = dict_lookup k content) /\
  (m.1 = Ret (PStr "join") -> txn_is_new hs m.2 sender_id room_id txn_id ->
   length (created (calls o)) = 1%nat).
Proof.
  intros Hok. unfold MessageHandler.send_message, txn_is_new. split.
  - repeat run_step; intros kwargs Hin; unfold created in Hin; simpl in Hin;
      try (by apply elem_of_nil in Hin).
    all: apply list_elem_of_singleton in Hin as ->.
    all: split; [reflexivity|]; eexists; split_and!; [reflexivity|..].
    all: try (rewrite dict_lookup_update by done; simpl;
              by destruct (dict_lookup (PStr "msgtype") content)).
    all: intros k Hk; rewrite dict_lookup_update by done; simpl; rewrite Hk;
      by destruct (dict_lookup k content).
  - simpl.
    destruct (perform hs (get_room_membership sender_id room_id) w) as [x w1].
    simpl. intros -> Hnew. simpl.
    destruct (opt_str_truthy txn_id); simpl.
    + destruct (Hnew eq_refl) as (x & Hx & Hfalsy).
      destruct (perform hs (get_event_by_txn_id _ _ _) w1) as [y w2].
      simpl in Hx. subst y. simpl. rewrite Hfalsy. simpl.
      repeat run_step; done.
    + repeat run_step; done.
Qed.

(** X2: a message of another user is not edited: [edit_message] raises
    after the lookup of the original event, before the membership of the
    sender is even looked at, and nothing is created or stored. *)
Theorem edit_message_refused (hostname room_id sender_id original_event_id : string)
    (new_content : list (pyval * pyval)) (txn_id : option string)
    (original original_sender : pyval) (w : World) :
  (perform hs (get_event_by_id (PStr original_event_id)) w).1 = Ret original ->
  py_truthy original = true ->
  py_getitem original "sender" = Ret original_sender ->
  py_ne_str original_sender sender_id = true ->
  run hs (edit_message hostname room_id sender_id original_event_id new_content txn_id) w =
  Outcome (Raise (Exn ValueError "Cannot edit message from another user"))
          (perform hs (get_event_by_id (PStr original_event_id)) w).2
          [get_event_by_id (PStr original_event_id)].
Proof.
  intros Hget Htruthy Hsender Hne. unfold edit_message. simpl.
  destruct (perform hs (get_event_by_id (PStr original_event_id)) w) as [x w1].
  simpl in Hget. subst x. simpl. by rewrite Htruthy, Hsender, Hne.
Qed.

(** The content an edit is sent with. *)
Lemma edit_content_lookup (original_event_id : string)
    (new_content : list (pyval * pyval)) (k : pyval) :
  dict_ok new_content = true ->
  dict_lookup k (edit_content original_event_id new_content) =
  match dict_lookup k new_content with
  | Some v => Some v
  | None =>
      dict_lookup k
        [(PStr "m.new_content", PDict new_content);
         (PStr "m.relates_to",
           PDict [(PStr "rel_type", PStr "m.replace");
                  (PStr "event_id", PStr original_event_id)])]
  end.
Proof. intros Hok. unfold edit_content. by rewrite dict_lookup_update. Qed.

(** X3: whatever transaction id an edit is sent with, an event that
    [edit_message] builds carries that transaction id and a content in which
    every entry of the new content stands at the top level, so a new content
    that names [m.relates_to] or [m.new_content] replaces the relation to the
    original event or the copy of the new content; when it names neither,
    [m.relates_to] is the [m.replace] relation to the original event and
    [m.new_content] is the new content.  For a joined sender who edits an own
    message in a new transaction exactly one event is built. *)
Theorem edit_message_content (hostname room_id sender_id original_event_id : string)
    (new_content : list (pyval * pyval)) (txn_id : option string) (w : World) :
  dict_ok new_content = true ->
  let o := run hs (edit_message hostname room_id sender_id original_event_id
                     new_content txn_id) w in
  let g := perform hs (get_event_by_id (PStr original_event_id)) w in
  let m := perform hs (get_room_membership sender_id room_id) g.2 in
  (forall kwargs, kwargs ∈ created (calls o) ->
     kwarg "txn_id" kwargs = Some (opt_str_val txn_id) /\
     exists body,
       kwarg "content" kwargs = Some (PDict body) /\
       (forall k v, dict_lookup k new_content = Some v -> dict_lookup k body = Some v) /\
       (dict_lookup (PStr "m.relates_to") new_content = None ->
        dict_lookup (PStr "m.relates_to") body =
          Some (PDict [(PStr "rel_type", PStr "m.replace");
                       (PStr "event_id", PStr original_event_id)])) /\
       (dict_lookup (PStr "m.new_content") new_content = None ->
        dict_lookup (PStr "m.new_content") body = Some (PDict new_content))) /\
  (forall original, g.1 = Ret original -> py_truthy original = true ->
     py_getitem original "sender" = Ret (PStr sender_id) ->
     m.1 = Ret (PStr "join") -> txn_is_new hs m.2 sender_id room_id txn_id ->
     length (created (calls o)) = 1%nat).
Proof.
  intros Hok.
  assert (Hec : dict_ok (edit_content original_event_id new_content) = true).
  { by apply dict_ok_update. }
  unfold edit_message, send_message_as, txn_is_new. split.
  - repeat run_step; intros kwargs Hin; unfold created in Hin; simpl in Hin;
      try (by apply elem_of_nil in Hin).
    all: apply list_elem_of_singleton in Hin as ->.
    all: split; [reflexivity|]; eexists; split_and!; [reflexivity|..].
    all: try (intros k v Hk;
              by rewrite dict_lookup_update, edit_content_lookup, Hk by done).
    all: intros Hnone;
      by rewrite dict_lookup_update, edit_content_lookup, Hnone by done.
  - simpl. intros original.
    destruct (perform hs (get_event_by_id (PStr original_event_id)) w) as [x w1].
    simpl. intros -> Htruthy Hsender. rewrite Htruthy. simpl. rewrite Hsender. simpl.
    rewrite String.eqb_refl. simpl.
    destruct (perform hs (get_room_membership sender_id room_id) w1) as [x w2].
    simpl. intros -> Hnew. simpl.
    destruct (opt_str_truthy txn_id); simpl.
    + destruct (Hnew eq_refl) as (x & Hx & Hfalsy).
      destruct (perform hs (get_event_by_txn_id _ _ _) w2) as [y w3].
      simpl in Hx. subst y. simpl. rewrite Hfalsy. simpl.
      repeat run_step; done.
    + repeat run_step; done.
Qed.

End MessageSendingProperties.

Lemma py_ne_str_false (v : pyval) (s : string) :
  py_ne_str v s = false -> v = PStr s.
Proof.
  destruct v; simpl; try done. intros H.
  apply negb_false_iff, String.eqb_eq in H. by subst.
Qed.

Section ReactionProperties.
Context {World : Type} (hs : homeserver World).
Import MessageSending.

(** X4: [react_to_message] checks that the target event exists and nothing
    else: it never asks for the sender's membership and never looks a
    transaction up or records one.  For an unknown target it raises right
    after the lookup.  A call that returns has built exactly one event, the
    [m.reaction] with the [m.annotation] relation to the target and the fresh
    id [$<token>:<hostname>], has stored exactly the event the builder made
    of it, and returns that id. *)
Theorem react_checks_target_only (hostname room_id sender_id target_event_id reaction : string)
    (txn_id : option string) (w : World) :
  let o := run hs (react_to_message hostname room_id sender_id target_event_id
                     reaction txn_id) w in
  let g := perform hs (get_event_by_id (PStr target_event_id)) w in
  let t := token_urlsafe hs 32 g.2 in
  let event_id := "$" +:+ t.1 +:+ ":" +:+ hostname in
  let kwargs :=
    [("event_type", PStr "m.reaction");
     ("room_id", PStr room_id);
     ("sender", PStr sender_id);
     ("content",
       PDict [(PStr "m.relates_to",
                PDict [(PStr "rel_type", PStr "m.annotation");
                       (PStr "event_id", PStr target_event_id);
                       (PStr "key", PStr reaction)])]);
     ("event_id", PStr event_id);
     ("txn_id", opt_str_val txn_id)] in
  let b := perform hs (create_event kwargs) t.2 in
  Forall (fun c => match c with
                   | get_room_membership _ _ | get_event_by_txn_id _ _ _
                   | store_txn_id_mapping _ _ _ _ => False
                   | _ => True
                   end) (calls o) /\
  (accepted g.1 = false ->
   (exists e, result o = Raise e) /\ calls o = [get_event_by_id (PStr target_event_id)]) /\
  (forall r, result o = Ret r ->
     r = PDict [(PStr "event_id", PStr event_id)] /\
     created (calls o) = [kwargs] /\
     exists event, b.1 = Ret event /\ stored (calls o) = [event]).
Proof.
  unfold react_to_message, MessageHandler._generate_event_id. split_and!.
  - repeat run_step; repeat constructor.
  - intros Hmiss. run_step; simpl in Hmiss; [rewrite Hmiss|]; simpl; eauto.
  - simpl.
    destruct (perform hs (get_event_by_id (PStr target_event_id)) w) as [[v|e] w1];
      simpl; [|done].
    destruct (py_truthy v); simpl; [|done].
    destruct (token_urlsafe hs 32 w1) as [token w2]. simpl.
    destruct (perform hs (create_event _) w2) as [[event|e] w3]; simpl; [|done].
    destruct (perform hs (store_event event) w3) as [[x|e] w4]; simpl; [|done].
    intros r [= <-]. split_and!; [done..|]. by exists event.
Qed.

End ReactionProperties.

(** ** More properties of the room handler *)

Section RoomMembershipProperties.
Context {World : Type} (hs : homeserver World).
Import RoomMembership.

(** X5: only a joined user leaves a room.  When the membership on record is
    anything but ["join"], [leave_room] raises right after the lookup.  A call
    that returns has found ["join"], has built exactly one event, the member
    event with membership ["leave"] (and the reason, if a non-empty one was
    given) whose sender and state key are the leaving user, and has stored
    exactly the event the builder made of it. *)
Theorem leave_room_gate (user_id room_id : string) (reason : option string) (w : World) :
  let o := run hs (leave_room user_id room_id reason) w in
  let m := perform hs (get_room_membership user_id room_id) w in
  let kwargs :=
    [("event_type", PStr "m.room.member");
     ("room_id", PStr room_id);
     ("sender", PStr user_id);
     ("content",
       PDict ((PStr "membership", PStr "leave") ::
              match reason with
              | Some text => if str_truthy text then [(PStr "reason", PStr text)] else []
              | None => []
              end));
     ("state_key", PStr user_id)] in
  let b := perform hs (create_event kwargs) m.2 in
  (forall v, m.1 = Ret v -> py_ne_str v "join" = true ->
     result o = Raise (Exn ValueError
                         ("User " +:+ user_id +:+ " is not in room " +:+ room_id)) /\
     calls o = [get_room_membership user_id room_id]) /\
  (forall r, result o = Ret r ->
     m.1 = Ret (PStr "join") /\
     r = PDict [(PStr "room_id", PStr room_id)] /\
     created (calls o) = [kwargs] /\
     exists event, b.1 = Ret event /\ stored (calls o) = [event]).
Proof.
  unfold leave_room. split.
  - intros v. simpl.
    destruct (perform hs (get_room_membership user_id room_id) w) as [x w1].
    simpl. intros -> Hne. simpl. by rewrite Hne.
  - intros r. simpl.
    destruct (perform hs (get_room_membership user_id room_id) w) as [[v|e] w1];
      simpl; [|done].
    destruct (py_ne_str v "join") eqn:Hne; simpl; [done|].
    apply py_ne_str_false in Hne. subst v.
    destruct reason as [[|c text]|]; simpl.
    all: destruct (perform hs (create_event _) w1) as [[event|e] w2]; simpl; [|done].
    all: destruct (perform hs (store_event event) w2) as [[x|e] w3]; simpl; [|done].
    all: intros [= <-]; split_and!; [done..|]; by exists event.
Qed.

(** X6: [invite_user] goes by membership alone.  It never asks for a power
    level.  It raises, storing nothing, when the inviter is not joined or the
    invitee already is; a call that returns has stored exactly one event, the
    member event with membership ["invite"] sent by the inviter with the
    invitee as state key. *)
Theorem invite_user_gate (inviter_id invitee_id room_id : string) (w : World) :
  let o := run hs (invite_user inviter_id invitee_id room_id) w in
  let m := perform hs (get_room_membership inviter_id room_id) w in
  let m' := perform hs (get_room_membership invitee_id room_id) m.2 in
  Forall (fun c => match c with
                   | get_user_power_level _ _ | get_room_redact_level _ => False
                   | _ => True
                   end) (calls o) /\
  (forall v, m.1 = Ret v -> py_ne_str v "join" = true ->
     (exists e, result o = Raise e) /\ stored (calls o) = []) /\
  (m.1 = Ret (PStr "join") -> m'.1 = Ret (PStr "join") ->
     result o = Raise (Exn ValueError
                         ("User " +:+ invitee_id +:+ " is already in room " +:+ room_id)) /\
     stored (calls o) = []) /\
  (forall r, result o = Ret r ->
     r = PDict [(PStr "room_id", PStr room_id)] /\
     stored (calls o) =
       match (perform hs
                (create_event
                   [("event_type", PStr "m.room.member");
                    ("room_id", PStr room_id);
                    ("sender", PStr inviter_id);
                    ("content", PDict [(PStr "membership", PStr "invite")]);
                    ("state_key", PStr invitee_id)]) m'.2).1 with
       | Ret event => [event]
       | Raise _ => []
       end).
Proof.
  unfold invite_user, _create_member_event. split_and!.
  - repeat run_step; repeat constructor.
  - intros v. simpl.
    destruct (perform hs (get_room_membership inviter_id room_id) w) as [x w1].
    simpl. intros -> Hne. simpl. rewrite Hne. simpl. eauto.
  - simpl.
    destruct (perform hs (get_room_membership inviter_id room_id) w) as [x w1].
    simpl. intros ->. simpl.
    destruct (perform hs (get_room_membership invitee_id room_id) w1) as [x w2].
    simpl. intros ->. done.
  - intros r.
    change (member_content "invite" None None)
      with [(PStr "membership", PStr "invite")].
    simpl.
    destruct (perform hs (get_room_membership inviter_id room_id) w) as [[v|e] w1];
      simpl; [|done].
    destruct (py_ne_str v "join"); simpl; [done|].
    destruct (perform hs (get_room_membership invitee_id room_id) w1) as [[v'|e] w2];
      simpl; [|done].
    destruct (py_ne_str v' "join"); simpl; [|done].
    destruct (perform hs (create_event _) w2) as [[event|e] w3]; simpl; [|done].
    destruct (perform hs (store_event event) w3) as [[x|e] w4]; simpl; [|done].
    by intros [= <-].
Qed.

End RoomMembershipProperties.

(** ** More properties of the federation handler *)


Lemma auth_checked_app (cs cs' : list call) :
  auth_checked (cs ++ cs') = (auth_checked cs ++ auth_checked cs')%list.
Proof. apply omap_app. Qed.

Lemma dict_set_idem (k v : pyval) (d : list (pyval * pyval)) :
  key_eqb k k = true -> dict_set k v (dict_set k v d) = dict_set k v d.
Proof.
  intros Hk. induction d as [|[k0 v0] d IH]; simpl.
  - by rewrite Hk.
  - destruct (key_eqb k0 k) eqn:E; simpl; rewrite E; [done|by rewrite IH].
Qed.

Section FederationStateProperties.
Context {World : Type} (hs : homeserver World).
Import FederationHandler FederationState.

(** X7: signing writes the placeholder signature of this server under
    [signatures] and leaves every other entry of the event alone; signing an
    event that is already signed changes nothing. *)
Theorem sign_event_idempotent (hostname signing_key_id : string)
    (d : list (pyval * pyval)) :
  exists d',
    _sign_event hostname signing_key_id (PDict d) = Ret (PDict d') /\
    dict_lookup (PStr "signatures") d' =
      Some (PDict [(PStr hostname,
                     PDict [(PStr ("ed25519:" +:+ signing_key_id),
                              PStr "signature_placeholder")])]) /\
    (forall k, key_eqb (PStr "signatures") k = false ->
               dict_lookup k d' = dict_lookup k d) /\
    _sign_event hostname signing_key_id (PDict d') = Ret (PDict d').
Proof.
  eexists. split_and!; [reflexivity|..].
  - by apply dict_lookup_set_eq.
  - intros k Hk. by apply dict_lookup_set_ne.
  - unfold _sign_event. simpl. by rewrite dict_set_idem.
Qed.

Lemma stores_follow_checks_nil (w : World) : stores_follow_checks hs w [].
Proof. intros j event Hj. by rewrite lookup_nil in Hj. Qed.

(** A call that is no store, in front. *)
Lemma stores_follow_checks_skip (c : call) (rest : list call) (w : World) :
  (forall event, c ≠ store_event event) ->
  stores_follow_checks hs (perform hs c w).2 rest ->
  stores_follow_checks hs w (c :: rest).
Proof.
  intros Hc IH [|j] event Hj; simpl in Hj.
  - injection Hj as ->. by destruct (Hc event).
  - destruct (IH j event Hj) as (i & -> & Hi & Ha). by exists (S i).
Qed.

(** An accepted check and the store of its event, in front. *)
Lemma stores_follow_checks_pair (event : pyval) (rest : list call) (w : World) :
  accepted (perform hs (check_auth_rules_for_event event) w).1 = true ->
  stores_follow_checks hs
    (perform hs (store_event event)
       (perform hs (check_auth_rules_for_event event) w).2).2 rest ->
  stores_follow_checks hs w
    (check_auth_rules_for_event event :: store_event event :: rest).
Proof.
  intros Ha IH [|[|j]] e Hj; simpl in Hj.
  - done.
  - injection Hj as <-. by exists 0%nat.
  - destruct (IH j e Hj) as (i & -> & Hi & Hacc). by exists (S (S i)).
Qed.

(** X8: [_store_room_state] stores a selection of the state events it is
    given, in their order, and only what the auth engine let through: every
    event it hands to [store_event] has all five required fields, the call
    right before the store is the auth check of that very event, and the auth
    engine accepted the event in the world in which it was asked.  An event
    that lacks a field or that the auth engine turns down is skipped. *)
Theorem store_room_state_selects (room_id : string) (state_events : list pyval) (w : World) :
  let o := run hs (_store_room_state room_id state_events) w in
  stored (calls o) `sublist_of` state_events /\
  Forall (fun event => first_missing required_fields event = Ret None) (stored (calls o)) /\
  (forall event, event ∈ stored (calls o) -> event ∈ auth_checked (calls o)) /\
  (forall j event, calls o !! j = Some (store_event event) ->
     exists i, j = S i /\
       calls o !! i = Some (check_auth_rules_for_event event) /\
       accepted (perform hs (check_auth_rules_for_event event)
                   (world_after hs w (take i (calls o)))).1 = true).
Proof.
  change (let o := run hs (_store_room_state room_id state_events) w in
          stored (calls o) `sublist_of` state_events /\
          Forall (fun event => first_missing required_fields event = Ret None)
                 (stored (calls o)) /\
          (forall event, event ∈ stored (calls o) -> event ∈ auth_checked (calls o)) /\
          stores_follow_checks hs w (calls o)).
  revert w. induction state_events as [|event rest IH]; intros w.
  - simpl. split_and!; [done|constructor|done|apply stores_follow_checks_nil].
  - cbn [_store_room_state]. unfold mbind, prog_bind.
    rewrite run_bind, run_validate_event.
    destruct (first_missing required_fields event) as [[f|]|e] eqn:Hf.
    + cbn [result world calls]. rewrite run_bind.
      destruct (py_get event "event_id" PNone); cbn.
      * destruct (IH w) as (H1 & H2 & H3 & H4). unfold then_outcome. cbn.
        split_and!; [by apply sublist_cons|done|done|done].
      * split_and!; [apply sublist_nil_l|constructor|done|apply stores_follow_checks_nil].
    + cbn [result world calls].
      destruct (perform hs (check_auth_rules_for_event event) w) as [x w1] eqn:Hc. cbn.
      destruct (accepted x) eqn:Hx; rewrite run_bind; cbn.
      * destruct (perform hs (store_event event) w1) as [[y|e] w2] eqn:Hs; cbn.
        -- destruct (IH w2) as (H1 & H2 & H3 & H4). unfold then_outcome. cbn.
           split_and!; [by apply sublist_skip|constructor; [exact Hf|exact H2]| |].
           ++ intros e [->|Hin]%elem_of_cons; [left|right; by apply H3].
           ++ apply stores_follow_checks_pair; rewrite Hc; [done|]. simpl. by rewrite Hs.
        -- split_and!;
             [apply sublist_skip, sublist_nil_l
             |constructor; [exact Hf|constructor]| |].
           ++ intros e' ->%list_elem_of_singleton. left.
           ++ apply stores_follow_checks_pair; rewrite Hc; [done|]. apply stores_follow_checks_nil.
      * destruct (py_get event "event_id" PNone); cbn.
        -- destruct (IH w1) as (H1 & H2 & H3 & H4). unfold then_outcome. cbn.
           split_and!; [by apply sublist_cons|done| |].
           ++ intros e' Hin. right. by apply H3.
           ++ apply stores_follow_checks_skip; [done|]. by rewrite Hc.
        -- split_and!; [apply sublist_nil_l|constructor|by intros ? ?%elem_of_nil|].
           apply stores_follow_checks_skip; [done|]. apply stores_follow_checks_nil.
    + cbn [result world calls]. rewrite run_bind.
      destruct (py_get event "event_id" PNone); cbn.
      * destruct (IH w) as (H1 & H2 & H3 & H4). unfold then_outcome. cbn.
        split_and!; [by apply sublist_cons|done|done|done].
      * split_and!; [apply sublist_nil_l|constructor|done|apply stores_follow_checks_nil].
Qed.

End FederationStateProperties.

(** ** Executing programs over all collaborators *)

Section XRun.
Context {World : Type} (hs : xhomeserver World).

Lemma xrun_bind {A B} (p : xprog A) (f : A -> xprog B) (w : World) :
  xrun hs (xbind p f) w =
  match xresult (xrun hs p w) with
  | Ret a => xthen (xrun hs p w) (xrun hs (f a) (xworld (xrun hs p w)))
  | Raise e => XOutcome (Raise e) (xworld (xrun hs p w)) (xcalls (xrun hs p w))
  end.
Proof.
  revert w. induction p as [[a|e]|c k IH|n k IH]; intros w; simpl.
  - unfold xthen. simpl. by destruct (xrun hs (f a) w).
  - done.
  - destruct (xperform hs c w) as [x w1]. simpl. rewrite IH.
    by destruct (xresult (xrun hs (k x) w1)).
  - destruct (xtoken_urlsafe hs n w) as [s w1]. apply IH.
Qed.

Lemma xrun_try_except {A} (p : xprog A) (h : exn -> xprog A) (w : World) :
  xrun hs (xtry_except p h) w =
  match xresult (xrun hs p w) with
  | Ret a => xrun hs p w
  | Raise e => xthen (xrun hs p w) (xrun hs (h e) (xworld (xrun hs p w)))
  end.
Proof.
  revert w. induction p as [[a|e]|c k IH|n k IH]; intros w; simpl.
  - done.
  - unfold xthen. simpl. by destruct (xrun hs (h e) w).
  - destruct (xperform hs c w) as [x w1]. simpl. rewrite IH.
    by destruct (xresult (xrun hs (k x) w1)) eqn:E; rewrite ?E.
  - destruct (xtoken_urlsafe hs n w) as [s w1]. apply IH.
Qed.

(** A body over the first collaborators runs among all of them as it runs
    among the first ones alone. *)
Lemma xrun_widen {A} (p : prog A) (w : World) :
  xrun hs (widen p) w =
  XOutcome (result (run (narrow hs) p w)) (world (run (narrow hs) p w))
           (known <$> calls (run (narrow hs) p w)).
Proof.
  revert w. induction p as [r|c k IH|n k IH]; intros w; simpl.
  - done.
  - destruct (xperform hs (known c) w) as [x w1]. simpl. by rewrite IH.
  - destruct (xtoken_urlsafe hs n w) as [s w1]. apply IH.
Qed.

Lemma known_calls_fmap (cs : list call) : known_calls (known <$> cs) = cs.
Proof. induction cs as [|c cs IH]; [done|]. unfold known_calls in *. simpl. by f_equal. Qed.



Lemma xrun_validate_event (event : pyval) (w : World) :
  xrun hs (widen (FederationHandler._validate_event event)) w =
  match FederationHandler.first_missing FederationHandler.required_fields event with
  | Ret None =>
      let xw := xperform hs (known (check_auth_rules_for_event event)) w in
      XOutcome (Ret (accepted xw.1)) xw.2 [known (check_auth_rules_for_event event)]
  | _ => XOutcome (Ret false) w []
  end.
Proof.
  rewrite xrun_widen, run_validate_event.
  by destruct (FederationHandler.first_missing _ event) as [[f|]|e].
Qed.

End XRun.

(** Symbolic execution over all collaborators. *)
Ltac xrun_step :=
  simpl;
  match goal with
  | |- context [xperform ?hs ?c ?w] =>
      let E := fresh "E" in destruct (xperform hs c w) as [[?|?] ?] eqn:E
  | |- context [xtoken_urlsafe ?hs ?n ?w] =>
      let E := fresh "E" in destruct (xtoken_urlsafe hs n w) as [? ?] eqn:E
  | |- context [py_truthy ?v] =>
      let E := fresh "E" in destruct (py_truthy v) eqn:E
  | |- context [py_getitem ?v ?k] =>
      let E := fresh "E" in destruct (py_getitem v k) as [?|?] eqn:E
  | |- context [py_setitem_str ?v ?k ?x] =>
      let E := fresh "E" in destruct (py_setitem_str v k x) as [?|?] eqn:E
  | |- context [py_iter ?v] =>
      let E := fresh "E" in destruct (py_iter v) as [?|?] eqn:E
  | |- context [py_ne_str ?v ?s] =>
      let E := fresh "E" in destruct (py_ne_str v s) eqn:E
  | |- context [not_in_strs ?v ?s] =>
      let E := fresh "E" in destruct (not_in_strs v s) eqn:E
  | |- context [opt_str_truthy ?v] =>
      let E := fresh "E" in destruct (opt_str_truthy v) eqn:E
  end.

(** ** Properties of the federation client side *)

Section FederationClientProperties.
Context {World : Type} (hs : xhomeserver World).
Import FederationHandler FederationClient.

(** When every await comes back or raises an [Exception],
    [get_event_from_server] returns, and what it returns is [None] or the
    event the remote server sent, and then that event has all required fields
    and was admitted by the auth engine. *)
Lemma get_event_from_server_outcome (destination event_id : string) (w : World) :
  let f := xperform hs (other (client_get_event destination event_id)) w in
  exists v,
    xresult (xrun hs (get_event_from_server destination event_id) w) = Ret v /\
    (v = PNone \/
     (f.1 = Ret v /\
      first_missing required_fields v = Ret None /\
      accepted (xperform hs (known (check_auth_rules_for_event v)) f.2).1 = true)).
Proof.
  unfold get_event_from_server. rewrite xrun_try_except. simpl.
  destruct (xperform hs (other (client_get_event destination event_id)) w)
    as [[v|e] w1]; simpl; [|eauto].
  unfold mbind, xprog_bind. rewrite xrun_bind, xrun_validate_event.
  destruct (first_missing required_fields v) as [[f|]|e] eqn:Hf; simpl; eauto.
  destruct (xperform hs (known (check_auth_rules_for_event v)) w1) as [x w2] eqn:Hx.
  simpl. destruct (accepted x) eqn:Ha; simpl; eauto.
  exists v. split; [done|]. right. by rewrite Hx.
Qed.

Lemma validate_all_selects (events validated : list pyval) (w : World) (l : list pyval) :
  xresult (xrun hs (validate_all events validated) w) = Ret l ->
  exists l', l = (validated ++ l')%list /\ l' `sublist_of` events /\
    Forall (fun event => first_missing required_fields event = Ret None) l'.
Proof.
  revert validated w. induction events as [|event rest IH]; intros validated w.
  - simpl. intros [= <-]. exists []. by rewrite app_nil_r.
  - cbn [validate_all]. unfold mbind, xprog_bind.
    rewrite xrun_bind, xrun_validate_event.
    destruct (first_missing required_fields event) as [[f|]|e] eqn:Hf.
    + cbn [xresult xworld xcalls]. rewrite xrun_bind.
      destruct (py_get event "event_id" PNone); cbn; [|done].
      intros (l' & -> & Hsub & Hall)%IH. exists l'. split_and!; [done| |done].
      by apply sublist_cons.
    + cbn [xresult xworld xcalls].
      destruct (xperform hs (known (check_auth_rules_for_event event)) w) as [x w1].
      cbn. destruct (accepted x).
      * intros (l' & -> & Hsub & Hall)%IH. exists (event :: l').
        rewrite <- app_assoc. split_and!; [done|by apply sublist_skip|by constructor].
      * destruct (py_get event "event_id" PNone); cbn; [|done].
        intros (l' & -> & Hsub & Hall)%IH. exists l'. split_and!; [done| |done].
        by apply sublist_cons.
    + cbn [xresult xworld xcalls]. rewrite xrun_bind.
      destruct (py_get event "event_id" PNone); cbn; [|done].
      intros (l' & -> & Hsub & Hall)%IH. exists l'. split_and!; [done| |done].
      by apply sublist_cons.
Qed.

(** When every await comes back or raises an [Exception],
    [get_room_state_from_server] answers [None] or a list, and the list is a
    selection, in order, of the events the remote server sent, each of them
    with all required fields. *)
Lemma get_room_state_from_server_outcome (destination room_id : string) (w : World) :
  let f := xperform hs (other (client_get_room_state destination room_id)) w in
  exists r,
    xresult (xrun hs (get_room_state_from_server destination room_id) w) = Ret r /\
    forall l, r = Some l ->
      exists state_events events,
        f.1 = Ret state_events /\ py_iter state_events = Ret events /\
        l `sublist_of` events /\
        Forall (fun event => first_missing required_fields event = Ret None) l.
Proof.
  unfold get_room_state_from_server. rewrite xrun_try_except. simpl.
  destruct (xperform hs (other (client_get_room_state destination room_id)) w)
    as [[v|e] w1]; simpl; [|by eexists].
  destruct (py_iter v) as [events|e] eqn:Hiter; simpl; [|by eexists].
  unfold mbind, xprog_bind. rewrite xrun_bind.
  destruct (xresult (xrun hs (validate_all events []) w1)) as [l|e] eqn:Hl; simpl.
  - eexists. split; [done|]. intros l' [= <-].
    apply validate_all_selects in Hl as (l' & -> & Hsub & Hall).
    by exists v, events.
  - by eexists.
Qed.



Lemma py_setitem_str_Ret (obj value result : pyval) (key : string) :
  py_setitem_str obj key value = Ret result ->
  exists d, obj = PDict d /\ result = PDict (dict_set (PStr key) value d).
Proof. destruct obj; simpl; try done. intros [= <-]. eauto. Qed.

Section JoinViaFederation.
Variables (hostname signing_key_id room_id user_id : string).

(** One server: the round lets no [exn] out, and when it ends the loop the
    join event was the last thing stored. *)
Lemma join_via_outcome (server : string) (w : World) :
  let o := xrun hs (join_via hostname signing_key_id room_id user_id server) w in
  exists r, xresult o = Ret r /\
    forall v, r = Some v ->
      v = joined_via room_id server /\
      exists event, last (xcalls o) = Some (known (store_event event)) /\
        signed_join_event hostname signing_key_id event.
Proof.
  unfold join_via. rewrite xrun_try_except.
  match goal with
  | |- context [xresult (xrun hs ?b w)] => remember (xrun hs b w) as o eqn:Ho
  end.
  assert (Hkey : forall v, xresult o = Ret (Some v) ->
            v = joined_via room_id server /\
            exists event, last (xcalls o) = Some (known (store_event event)) /\
              signed_join_event hostname signing_key_id event).
  { subst o. unfold _create_join_event, FederationState._sign_event.
    intros v. repeat xrun_step; try done.
    unfold mbind, xprog_bind. rewrite xrun_bind, xrun_widen.
    destruct (result (run (narrow hs) _ _)); simpl; [|done].
    repeat xrun_step; try done.
    intros [= <-]. split; [done|].
    eexists. split.
    { unfold xthen. simpl. by rewrite !last_cons, last_snoc. }
    repeat match goal with
           | H : py_setitem_str _ _ _ = Ret _ |- _ =>
               apply py_setitem_str_Ret in H as (? & ? & ?); simplify_eq
           end.
    split_and!; simpl.
    - rewrite !dict_lookup_set_ne by done. by rewrite dict_lookup_set_eq.
    - rewrite !dict_lookup_set_ne by done. by rewrite dict_lookup_set_eq.
    - by rewrite dict_lookup_set_eq. }
  destruct (xresult o) as [[v|]|e] eqn:Hr.
  - exists (Some v). split; [done|]. intros v' [= <-]. by apply Hkey.
  - by exists None.
  - by exists None.
Qed.

(** When every await comes back or raises an [Exception],
    [join_room_via_federation] returns with one of the given servers or raises
    the [RuntimeError] that says no server worked. *)
Lemma join_room_via_federation_outcome (remote_servers : list string) (w : World) :
  let o := xrun hs (join_room_via_federation hostname signing_key_id room_id user_id
                      remote_servers) w in
  xresult o = Raise (Exn RuntimeError
                       ("Failed to join room " +:+ room_id +:+ " via any server")) \/
  exists server event,
    server ∈ remote_servers /\
    xresult o = Ret (joined_via room_id server) /\
    last (xcalls o) = Some (known (store_event event)) /\
    signed_join_event hostname signing_key_id event.
Proof.
  revert w. induction remote_servers as [|server rest IH]; intros w; [by left|].
  cbn [join_room_via_federation]. unfold mbind, xprog_bind. rewrite xrun_bind.
  destruct (join_via_outcome server w) as (r & Hr & Hsome). rewrite Hr.
  destruct r as [v|].
  - destruct (Hsome v eq_refl) as (-> & event & Hlast & Hsigned).
    right. exists server, event. unfold xthen. simpl. rewrite app_nil_r.
    split_and!; [left|done..].
  - destruct (IH (xworld (xrun hs (join_via hostname signing_key_id room_id user_id
                                     server) w)))
      as [Hfail|(s & event & Hin & Hres & Hlast & Hsigned)]; [by left|].
    right. exists s, event. unfold xthen. cbn [xresult xworld xcalls].
    split_and!; [by right|done| |done].
    by rewrite last_app, Hlast.
Qed.

End JoinViaFederation.

(** X13: an invitation of a remote user is stored only once the remote
    server has taken it.  A call that returns has stored exactly one event,
    the signed invite for the invitee, and returns its id, [$<token>:<hostname>];
    when the remote server declines or cannot be reached the call raises and
    nothing is stored. *)
Theorem remote_invite_stored_on_acceptance (hostname signing_key_id : string)
    (room_id inviter_id invitee_id : string) (p : xprog pyval) (w : World) :
  invite_user_to_room hostname signing_key_id room_id inviter_id invitee_id = Some p ->
  (forall r, xresult (xrun hs p w) = Ret r ->
     exists token event,
       r = PDict [(PStr "event_id", PStr ("$" +:+ token +:+ ":" +:+ hostname))] /\
       xstored (xcalls (xrun hs p w)) = [event] /\
       py_getitem event "event_id" = Ret (PStr ("$" +:+ token +:+ ":" +:+ hostname)) /\
       py_getitem event "state_key" = Ret (PStr invitee_id) /\
       py_getitem event "sender" = Ret (PStr inviter_id) /\
       py_getitem event "content" = Ret (PDict [(PStr "membership", PStr "invite")])) /\
  ((forall server event w',
      accepted (xperform hs (other (client_send_invite server room_id event)) w').1 = false) ->
   (exists e, xresult (xrun hs p w) = Raise e) /\ xstored (xcalls (xrun hs p w)) = []).
Proof.
  unfold invite_user_to_room.
  destruct (split_on ":" invitee_id !! 1%nat) as [server|]; simpl; [|done].
  intros [= <-]. unfold _create_invite_event. split.
  - intros r. repeat xrun_step; try done.
    intros [= <-]. do 2 eexists. split_and!; reflexivity.
  - intros Hdecline. simpl.
    destruct (xperform hs (other clock_time_msec) w) as [[now|e] w1]; simpl; [|eauto].
    destruct (xtoken_urlsafe hs 32 w1) as [token w2]. simpl.
    match goal with
    | |- context [xperform hs (other (client_send_invite ?s ?r ?ev)) ?w'] =>
        specialize (Hdecline s ev w');
        destruct (xperform hs (other (client_send_invite s r ev)) w') as [[x|e] w3]
    end; simpl in *; [rewrite Hdecline|]; simpl; eauto.
Qed.

End FederationClientProperties.

(** ** Executions that an await may end *)

Section CRun.
Context {World : Type}.

(** On a homeserver whose awaits all come back, [crun] is [xrun]. *)
Lemma crun_uninterrupted {A} (hs : xhomeserver World) (p : xprog A) (w : World) :
  crun (uninterrupted hs) p w =
  COutcome (Some (xresult (xrun hs p w))) (xworld (xrun hs p w)) (xcalls (xrun hs p w)).
Proof.
  revert w. induction p as [r|c k IH|n k IH]; intros w; simpl.
  - done.
  - destruct (xperform hs c w) as [x w1]. simpl. by rewrite IH.
  - destruct (xtoken_urlsafe hs n w) as [s w1]. apply IH.
Qed.

(** An execution is left only at an await that does not come back. *)
Lemma crun_comes_back {A} (hs : chomeserver World) (p : xprog A) (w : World) :
  (forall c w', is_Some (cperform hs c w').1) -> is_Some (cresult (crun hs p w)).
Proof.
  intros Hback. revert w. induction p as [r|c k IH|n k IH]; intros w; simpl.
  - by eexists.
  - specialize (Hback c w). destruct (cperform hs c w) as [[x|] w1]; simpl in *.
    + apply IH.
    + by destruct Hback.
  - destruct (ctoken_urlsafe hs n w) as [s w1]. apply IH.
Qed.

(** An execution without a result was left at an await. *)
Lemma crun_left {A} (hs : chomeserver World) (p : xprog A) (w : World) :
  cresult (crun hs p w) = None -> left_at_await hs (crun hs p w).
Proof.
  revert w. induction p as [r|c k IH|n k IH]; intros w; simpl.
  - done.
  - destruct (cperform hs c w) as [[x|] w1] eqn:Hc; simpl.
    + intros Hn. destruct (IH x w1 Hn) as (_ & c' & w' & Hlast & Hnone).
      split; [done|]. exists c', w'. split; [|done].
      simpl. by rewrite last_cons, Hlast.
    + intros _. split; [done|]. exists c, w. by rewrite Hc.
  - destruct (ctoken_urlsafe hs n w) as [s w1]. apply IH.
Qed.

(** Up to the await that ends it, an execution is the one of the settled
    homeserver; an execution that is not ended is that one. *)
Lemma crun_settled {A} (e : exn) (hs : chomeserver World) (p : xprog A) (w : World) :
  ccalls (crun hs p w) `prefix_of` xcalls (xrun (settled e hs) p w) /\
  forall r, cresult (crun hs p w) = Some r ->
    xrun (settled e hs) p w = XOutcome r (cworld (crun hs p w)) (ccalls (crun hs p w)).
Proof.
  revert w. induction p as [r|c k IH|n k IH]; intros w; simpl.
  - split; [done|]. by intros r' [= <-].
  - destruct (cperform hs c w) as [[x|] w1]; simpl.
    + destruct (IH x w1) as [Hpre Hres]. split.
      * by apply prefix_cons.
      * intros r Hr. by rewrite (Hres r Hr).
    + split; [|done]. apply prefix_cons, prefix_nil.
  - destruct (ctoken_urlsafe hs n w) as [s w1]. apply IH.
Qed.

Lemma settled_Ret (e : exn) (x : option (res pyval)) (v : pyval) :
  default (Raise e) x = Ret v -> x = Some (Ret v).
Proof. destruct x as [[]|]; simpl; congruence. Qed.

Lemma settled_accepted (e : exn) (x : option (res pyval)) :
  accepted (default (Raise e) x) = came_back_accepted x.
Proof. by destruct x. Qed.


End CRun.

Section InterruptedFederationClient.
Context {World : Type} (hs : chomeserver World).
Import FederationHandler FederationClient.

(** X9: [get_event_from_server] lets no [Exception] out.  An execution
    ends early only when an await does not come back (the task is cancelled:
    [except Exception] does not catch [asyncio.CancelledError]); otherwise it
    returns [None] or the event the remote server sent, and then that event
    has all required fields and was admitted by the auth engine. *)
Theorem fetched_event_is_validated (destination event_id : string) (w : World) :
  let o := crun hs (get_event_from_server destination event_id) w in
  let f := cperform hs (other (client_get_event destination event_id)) w in
  left_at_await hs o \/
  exists v,
    cresult o = Some (Ret v) /\
    (v = PNone \/
     (f.1 = Some (Ret v) /\
      first_missing required_fields v = Ret None /\
      came_back_accepted
        (cperform hs (known (check_auth_rules_for_event v)) f.2).1 = true)).
Proof.
  cbv zeta.
  destruct (crun_settled (Exn RuntimeError "") hs
              (get_event_from_server destination event_id) w) as [_ Hres].
  destruct (cresult (crun hs _ w)) as [r|] eqn:Hr; [right|left; by apply crun_left].
  specialize (Hres r eq_refl).
  destruct (get_event_from_server_outcome (settled (Exn RuntimeError "") hs)
              destination event_id w) as (v & Hv & Hcases).
  rewrite Hres in Hv. simpl in Hv. subst r. exists v. split; [done|].
  destruct Hcases as [->|(Hf & Hfields & Hacc)]; [by left|right].
  simpl in Hf, Hacc. apply settled_Ret in Hf.
  rewrite settled_accepted in Hacc. done.
Qed.

(** X10: [get_room_state_from_server] lets no [Exception] out.  An
    execution ends early only when an await does not come back; otherwise it
    answers [None] or a list, and the list is a selection, in order, of the
    events the remote server sent, each of them with all required fields. *)
Theorem remote_state_is_validated (destination room_id : string) (w : World) :
  let o := crun hs (get_room_state_from_server destination room_id) w in
  let f := cperform hs (other (client_get_room_state destination room_id)) w in
  left_at_await hs o \/
  exists r,
    cresult o = Some (Ret r) /\
    forall l, r = Some l ->
      exists state_events events,
        f.1 = Some (Ret state_events) /\ py_iter state_events = Ret events /\
        l `sublist_of` events /\
        Forall (fun event => first_missing required_fields event = Ret None) l.
Proof.
  cbv zeta.
  destruct (crun_settled (Exn RuntimeError "") hs
              (get_room_state_from_server destination room_id) w) as [_ Hres].
  destruct (cresult (crun hs _ w)) as [r|] eqn:Hr; [right|left; by apply crun_left].
  specialize (Hres r eq_refl).
  destruct (get_room_state_from_server_outcome (settled (Exn RuntimeError "") hs)
              destination room_id w) as (v & Hv & Hsome).
  rewrite Hres in Hv. simpl in Hv. subst r. exists v. split; [done|].
  intros l Hl. destruct (Hsome l Hl) as (state_events & events & Hf & Hiter & Hsub & Hall).
  simpl in Hf. apply settled_Ret in Hf. by exists state_events, events.
Qed.


Section JoinInterrupted.
Variables (hostname signing_key_id room_id user_id : string).

(** X12: [join_room_via_federation] ends in one of three ways.  An await
    does not come back (the task is cancelled, which no [except Exception]
    in the loop catches); or it returns the room id with one of the given
    servers, and then the last thing it did was to store the join event it had
    built for that server (membership ["join"], this server as origin,
    signed); or it raises the [RuntimeError] saying that no server worked.
    No other [Exception] leaves it. *)
Theorem join_via_federation_outcome (remote_servers : list string) (w : World) :
  let o := crun hs (join_room_via_federation hostname signing_key_id room_id user_id
                      remote_servers) w in
  left_at_await hs o \/
  cresult o = Some (Raise (Exn RuntimeError
                             ("Failed to join room " +:+ room_id +:+ " via any server"))) \/
  exists server event,
    server ∈ remote_servers /\
    cresult o = Some (Ret (joined_via room_id server)) /\
    last (ccalls o) = Some (known (store_event event)) /\
    signed_join_event hostname signing_key_id event.
Proof.
  cbv zeta.
  destruct (crun_settled (Exn RuntimeError "") hs
              (join_room_via_federation hostname signing_key_id room_id user_id
                 remote_servers) w) as [_ Hres].
  destruct (cresult (crun hs _ w)) as [r|] eqn:Hr; [right|left; by apply crun_left].
  specialize (Hres r eq_refl).
  destruct (join_room_via_federation_outcome (settled (Exn RuntimeError "") hs)
              hostname signing_key_id room_id user_id remote_servers w)
    as [Hfail|(server & event & Hin & Hret & Hlast & Hsigned)].
  - left. rewrite Hres in Hfail. simpl in Hfail. by subst r.
  - right. exists server, event. rewrite Hres in Hret, Hlast. simpl in Hret, Hlast.
    by subst r.
Qed.

End JoinInterrupted.

(** X22: the transaction endpoint lets no [Exception] out, whatever the
    request body is and whatever the PDUs are.  An execution ends early only
    when an await does not come back; otherwise it returns an error-code body
    with status 403 or 500, or the per-PDU result map with status 200. *)
Theorem send_transaction_typed_or_left (origin transaction_id : string)
    (request_data : pyval) (w : World) :
  let o := crun hs (widen (FederationAPI.handle_send_transaction origin transaction_id
                             request_data)) w in
  left_at_await hs o \/ exists r, cresult o = Some (Ret r) /\ typed_response r.
Proof.
  cbv zeta.
  destruct (crun_settled (Exn RuntimeError "") hs
              (widen (FederationAPI.handle_send_transaction origin transaction_id
                        request_data)) w) as [_ Hres].
  destruct (cresult (crun hs _ w)) as [r|] eqn:Hr; [right|left; by apply crun_left].
  specialize (Hres r eq_refl). rewrite xrun_widen in Hres.
  destruct (send_transaction_typed (narrow (settled (Exn RuntimeError "") hs))
              origin transaction_id request_data w) as (r' & Hr' & Htyped).
  injection Hres as Hres _ _. rewrite Hr' in Hres. subst r. by exists r'.
Qed.

End InterruptedFederationClient.

(** ** Properties of the room directory and of the history *)

Section RoomDirectoryProperties.
Context {World : Type} (hs : xhomeserver World).
Import RoomDirectory MessageHistory.

(** X14: [join_room] is local and does nothing for a member.  It never
    calls the federation client, even when remote hosts are given.  For an
    unknown room and no remote hosts it raises after the room lookup; for a
    user whose membership is already ["join"] it returns the room id without
    creating or storing an event; and a call that returns has stored at most
    one event. *)
Theorem join_room_is_local (user_id room_id : string)
    (remote_room_hosts : option (list string)) (w : World) :
  let o := xrun hs (join_room user_id room_id remote_room_hosts) w in
  let r := xperform hs (other (store_get_room_by_id room_id)) w in
  let m := xperform hs (known (get_room_membership user_id room_id)) r.2 in
  Forall is_local (xcalls o) /\
  (forall room, r.1 = Ret room -> py_truthy room = false ->
     (remote_room_hosts = None \/ remote_room_hosts = Some []) ->
     o = XOutcome (Raise (Exn ValueError ("Room " +:+ room_id +:+ " not found")))
                  r.2 [other (store_get_room_by_id room_id)]) /\
  (forall room, r.1 = Ret room -> py_truthy room = true ->
     m.1 = Ret (PStr "join") ->
     o = XOutcome (Ret (PDict [(PStr "room_id", PStr room_id)])) m.2
                  [other (store_get_room_by_id room_id);
                   known (get_room_membership user_id room_id)]) /\
  (forall v, xresult o = Ret v ->
     v = PDict [(PStr "room_id", PStr room_id)] /\
     (length (xstored (xcalls o)) <= 1)%nat).
Proof.
  unfold join_room, RoomMembership._create_member_event. split_and!.
  - destruct remote_room_hosts as [[|? ?]|]; repeat xrun_step; repeat constructor.
  - intros room. simpl.
    destruct (xperform hs (other (store_get_room_by_id room_id)) w) as [x w1].
    simpl. intros -> Hfalsy [-> | ->]; simpl; by rewrite Hfalsy.
  - intros room. simpl.
    destruct (xperform hs (other (store_get_room_by_id room_id)) w) as [x w1].
    simpl. intros -> Htruthy. simpl. rewrite Htruthy. simpl.
    destruct (xperform hs (known (get_room_membership user_id room_id)) w1) as [x w2].
    simpl. by intros ->.
  - intros v. simpl.
    destruct (xperform hs (other (store_get_room_by_id room_id)) w) as [[room|e] w1];
      simpl; [|done].
    destruct (negb (py_truthy room) && _); simpl; [done|].
    repeat xrun_step; try done.
    all: intros [= <-]; split; [done|]; unfold xstored; simpl; lia.
Qed.

Lemma not_in_strs_join_invite (v : pyval) :
  not_in_strs v ["join"; "invite"; "leave"] = true ->
  not_in_strs v ["join"; "invite"] = true.
Proof.
  unfold not_in_strs. simpl. rewrite !andb_true_r.
  intros [-> [-> _]%andb_true_iff]%andb_true_iff. done.
Qed.

(** X15: somebody who is neither joined, invited nor a former member is
    turned away from the whole room: state, member list, message history and
    event context all raise right after the membership lookup, and the
    datastore is not asked for any of them. *)
Theorem outsider_sees_nothing (room_id user_id event_id : string)
    (from_token to_token : option string) (direction : string) (limit : Z)
    (membership : pyval) (w : World) :
  str_truthy user_id = true ->
  (xperform hs (known (get_room_membership user_id room_id)) w).1 = Ret membership ->
  not_in_strs membership ["join"; "invite"; "leave"] = true ->
  let refused {A} (o : xoutcome A World) :=
    (exists msg, xresult o = Raise (Exn ValueError msg)) /\
    xcalls o = [known (get_room_membership user_id room_id)] in
  refused (xrun hs (get_room_state room_id (Some user_id)) w) /\
  refused (xrun hs (get_room_members room_id (Some user_id)) w) /\
  refused (xrun hs (get_room_messages room_id user_id from_token to_token
                      direction limit) w) /\
  refused (xrun hs (get_event_context room_id event_id user_id limit) w).
Proof.
  intros Huser Hm Hout.
  pose proof (not_in_strs_join_invite _ Hout) as Hout'.
  unfold get_room_state, get_room_members, get_room_messages, get_event_context.
  cbn -[not_in_strs]. rewrite Huser. cbn -[not_in_strs].
  destruct (xperform hs (known (get_room_membership user_id room_id)) w) as [x w1].
  simpl in Hm. subst x. cbn -[not_in_strs]. rewrite Hout, Hout'. simpl.
  split_and!; eauto.
Qed.

(** X16: a former member keeps the history and loses the state: with
    membership ["leave"] the message history and the event context are read
    from the datastore, while the room state and the member list are
    refused. *)
Theorem former_member_reads_history_only (room_id user_id event_id : string)
    (from_token to_token : option string) (direction : string) (limit : Z)
    (w : World) :
  str_truthy user_id = true ->
  (xperform hs (known (get_room_membership user_id room_id)) w).1 = Ret (PStr "leave") ->
  other (store_get_room_messages room_id from_token to_token direction limit)
    ∈ xcalls (xrun hs (get_room_messages room_id user_id from_token to_token
                         direction limit) w) /\
  other (store_get_event_context room_id event_id limit)
    ∈ xcalls (xrun hs (get_event_context room_id event_id user_id limit) w) /\
  xcalls (xrun hs (get_room_state room_id (Some user_id)) w)
    = [known (get_room_membership user_id room_id)] /\
  xcalls (xrun hs (get_room_members room_id (Some user_id)) w)
    = [known (get_room_membership user_id room_id)].
Proof.
  intros Huser Hm.
  unfold get_room_state, get_room_members, get_room_messages, get_event_context.
  simpl. rewrite Huser. simpl.
  destruct (xperform hs (known (get_room_membership user_id room_id)) w) as [x w1].
  simpl in Hm. subst x. simpl.
  split_and!; [| |done|done].
  - destruct (xperform hs (other (store_get_room_messages _ _ _ _ _)) w1). simpl.
    set_solver.
  - destruct (xperform hs (other (store_get_event_context _ _ _)) w1). simpl.
    set_solver.
Qed.

End RoomDirectoryProperties.

(** ** Properties of the query endpoints *)

Lemma str_app_cons (c : ascii) (a b : string) :
  String c a +:+ b = String c (a +:+ b).
Proof. reflexivity. Qed.

Lemma str_app_nil (b : string) : "" +:+ b = b.
Proof. reflexivity. Qed.

Lemma str_length_app (a b : string) :
  String.length (a +:+ b) = (String.length a + String.length b)%nat.
Proof.
  induction a as [|c a IH]; [done|].
  rewrite str_app_cons. simpl. by rewrite IH.
Qed.

Lemma str_app_assoc (a b c : string) : (a +:+ b) +:+ c = a +:+ (b +:+ c).
Proof.
  induction a as [|x a IH]; [done|].
  rewrite !str_app_cons. by rewrite IH.
Qed.

Lemma substring_all (b : string) : String.substring 0 (String.length b) b = b.
Proof. induction b as [|c b IH]; simpl; [done|by rewrite IH]. Qed.

Lemma substring_app_r (a b : string) :
  String.substring (String.length a) (String.length b) (a +:+ b) = b.
Proof.
  induction a as [|c a IH]; [rewrite str_app_nil; apply substring_all|].
  rewrite str_app_cons. simpl. apply IH.
Qed.

Lemma str_endswith_app (a b : string) : str_endswith (a +:+ b) b = true.
Proof.
  unfold str_endswith. rewrite str_length_app.
  replace (String.length a + String.length b - String.length b)%nat
    with (String.length a) by lia.
  rewrite substring_app_r, String.eqb_refl, andb_true_r.
  apply Nat.leb_le. lia.
Qed.

(** The piece in front of the first separator. *)
Lemma split_on_head (sep : ascii) (a b : string) :
  has_char sep a = false ->
  head (split_on sep (a +:+ String sep b)) = Some a.
Proof.
  induction a as [|c a IH].
  - intros _. rewrite str_app_nil. simpl. by rewrite Ascii.eqb_refl.
  - intros H. simpl in H. apply orb_false_iff in H as [Hc Ha].
    rewrite str_app_cons. simpl. rewrite Hc. specialize (IH Ha).
    destruct (split_on sep (a +:+ String sep b)) as [|piece pieces]; [done|].
    simpl in IH. by injection IH as ->.
Qed.

Section FederationQueriesProperties.
Context {World : Type} (hs : homeserver World).
Import FederationQueries.

(** X17: the profile of a local user shows the local part of the user id
    as display name: for [@<local>:<server_name>], whatever colons the server
    name itself has, the endpoint answers 200 with display name [<local>] and
    no avatar, and with the display name alone when that field is asked
    for. *)
Theorem profile_displayname_is_localpart (server_name origin localpart : string) :
  str_truthy origin = true ->
  has_char ":" localpart = false ->
  handle_query_profile server_name origin
    ("@" +:+ localpart +:+ ":" +:+ server_name) None =
    (PDict [(PStr "displayname", PStr localpart); (PStr "avatar_url", PNone)], 200) /\
  handle_query_profile server_name origin
    ("@" +:+ localpart +:+ ":" +:+ server_name) (Some "displayname") =
    (PDict [(PStr "displayname", PStr localpart)], 200).
Proof.
  intros Horigin Hlocal. unfold handle_query_profile, profile_of.
  rewrite Horigin. cbn [negb].
  change ("@" +:+ localpart +:+ ":" +:+ server_name)
    with (String "@" localpart +:+ String ":" server_name).
  change (":" +:+ server_name) with (String ":" server_name).
  rewrite str_endswith_app. cbn [negb].
  rewrite split_on_head by (simpl; by rewrite Hlocal).
  done.
Qed.

(** X18: the join and leave templates are never handed out.  Both
    endpoints await nothing and answer 403 or 500 whatever they are asked; a
    user id that does not end in [:<origin>] gets the 403 that says so. *)
Theorem make_join_never_succeeds (origin room_id user_id : string) (w : World) :
  let never_ok (o : outcome (pyval * Z) World) :=
    exists body status, result o = Ret (body, status) /\
      (status = 403 \/ status = 500) /\ calls o = [] in
  never_ok (run hs (handle_make_join origin room_id user_id) w) /\
  never_ok (run hs (handle_make_leave origin room_id user_id) w) /\
  (str_truthy origin = true -> str_endswith user_id (":" +:+ origin) = false ->
   result (run hs (handle_make_join origin room_id user_id) w) =
     Ret (forbidden "User does not belong to origin server") /\
   result (run hs (handle_make_leave origin room_id user_id) w) =
     Ret (forbidden "User does not belong to origin server")).
Proof.
  unfold handle_make_join, handle_make_leave.
  destruct (str_truthy origin); simpl.
  - destruct (str_endswith user_id (":" +:+ origin)); simpl.
    + split_and!; [do 2 eexists; split_and!; [reflexivity|by right|done]..|done].
    + split_and!; [do 2 eexists; split_and!; [reflexivity|by left|done]..|done].
  - split_and!; [do 2 eexists; split_and!; [reflexivity|by left|done]..|done].
Qed.

(** X20: the event, state and backfill endpoints of the federation API
    never serve anything.  Each of them answers 403 for an empty origin and
    the 500 [M_UNKNOWN] body for every other request, whatever is asked for,
    and reaches no collaborator on the way. *)
Theorem federation_reads_unserved (origin room_id event_id : string)
    (at_event : option string) (v : list string) (limit : Z) (w : World) :
  let unserved (p : prog (pyval * Z)) :=
    run hs p w =
    Outcome (Ret (if str_truthy origin then unknown_error
                  else forbidden "Missing origin server")) w [] in
  unserved (handle_get_event origin event_id) /\
  unserved (handle_get_state origin room_id at_event) /\
  unserved (handle_get_state_ids origin room_id at_event) /\
  unserved (handle_backfill origin room_id v limit).
Proof.
  unfold handle_get_event, handle_get_state, handle_get_state_ids, handle_backfill.
  destruct (str_truthy origin); cbn [negb]; split_and!; reflexivity.
Qed.

(** X21: the endpoints that take an event or a request body from another
    server (send_join, send_leave, invite, get_missing_events) accept nothing:
    whatever the body is, a dict or not, with or without a usable limit, each
    answers 403 for an empty origin and the 500 [M_UNKNOWN] body otherwise,
    and reaches no collaborator on the way. *)
Theorem federation_writes_unserved (server_name origin room_id event_id : string)
    (request_data : pyval) (w : World) :
  let unserved (p : prog (pyval * Z)) :=
    run hs p w =
    Outcome (Ret (if str_truthy origin then unknown_error
                  else forbidden "Missing origin server")) w [] in
  unserved (handle_send_join server_name origin room_id event_id request_data) /\
  unserved (handle_send_leave origin room_id event_id request_data) /\
  unserved (handle_invite origin room_id event_id request_data) /\
  unserved (handle_get_missing_events origin room_id request_data).
Proof.
  unfold handle_send_join, handle_send_leave, handle_invite, handle_get_missing_events.
  destruct (str_truthy origin); cbn [negb]; split_and!; try reflexivity.
  destruct request_data; try reflexivity.
  cbn -[py_min].
  match goal with
  | |- context [py_min ?a ?b] => destruct (py_min a b) as [?|?]; reflexivity
  end.
Qed.

End FederationQueriesProperties.

(** ** The further handlers at work on the in-memory homeserver *)

Section MoreExamples.
Import InMemory InMemoryX Sample.

(** X1, witness: a text message whose content says [m.notice], sent by
    bob under a transaction id. *)
Lemma send_message_msgtype_witness :
  let content := [(PStr "body", PStr "hi"); (PStr "msgtype", PStr "m.notice")] in
  let o := run (mem_hs allow_all)
             (MessageHandler.send_message "example.org" "!room:remote.org"
                "@bob:remote.org" "m.text" content (Some "txn7"))
             db_with_message in
  let m := perform (mem_hs allow_all)
             (get_room_membership "@bob:remote.org" "!room:remote.org")
             db_with_message in
  (forall kwargs, kwargs ∈ created (calls o) ->
     kwarg "txn_id" kwargs = Some (opt_str_val (Some "txn7")) /\
     exists body,
       kwarg "content" kwargs = Some (PDict body) /\
       dict_lookup (PStr "msgtype") body =
         Some (default (PStr "m.text") (dict_lookup (PStr "msgtype") content)) /\
       forall k, key_eqb (PStr "msgtype") k = false ->
         dict_lookup k body = dict_lookup k content) /\
  (m.1 = Ret (PStr "join") ->
   txn_is_new (mem_hs allow_all) m.2 "@bob:remote.org" "!room:remote.org" (Some "txn7") ->
   length (created (calls o)) = 1%nat).
Proof.
  apply (send_message_msgtype (mem_hs allow_all) "example.org" "!room:remote.org"
           "@bob:remote.org" "m.text"
           [(PStr "body", PStr "hi"); (PStr "msgtype", PStr "m.notice")]
           (Some "txn7") db_with_message).
  reflexivity.
Defined.

(** The event that is built there. *)
Lemma message_with_txn_created :
  created (calls (run (mem_hs allow_all)
                    (MessageHandler.send_message "example.org" "!room:remote.org"
                       "@bob:remote.org" "m.text"
                       [(PStr "body", PStr "hi"); (PStr "msgtype", PStr "m.notice")]
                       (Some "txn7"))
                    db_with_message)) =
  [[("event_type", PStr "m.room.message");
    ("room_id", PStr "!room:remote.org");
    ("sender", PStr "@bob:remote.org");
    ("content", PDict [(PStr "msgtype", PStr "m.notice"); (PStr "body", PStr "hi")]);
    ("event_id", PStr "$tokenA:example.org");
    ("txn_id", PStr "txn7")]].
Proof. reflexivity. Qed.

(** X2, witness: carol goes after bob's message. *)
Lemma edit_message_refused_witness :
  run (mem_hs allow_all)
      (MessageSending.edit_message "example.org" "!room:remote.org"
         "@carol:remote.org" "$e1:remote.org" [(PStr "body", PStr "edited")] None)
      db_with_message =
  Outcome (Raise (Exn ValueError "Cannot edit message from another user"))
          db_with_message [get_event_by_id (PStr "$e1:remote.org")].
Proof.
  apply (edit_message_refused (mem_hs allow_all) "example.org" "!room:remote.org"
           "@carol:remote.org" "$e1:remote.org" [(PStr "body", PStr "edited")] None
           message_event (PStr "@bob:remote.org") db_with_message); reflexivity.
Defined.

(** X3, witness: bob edits his own message under a transaction id. *)
Lemma edit_message_content_witness :
  let new_content := [(PStr "body", PStr "edited")] in
  let o := run (mem_hs allow_all)
             (MessageSending.edit_message "example.org" "!room:remote.org"
                "@bob:remote.org" "$e1:remote.org" new_content (Some "txn8"))
             db_with_message in
  let g := perform (mem_hs allow_all) (get_event_by_id (PStr "$e1:remote.org"))
             db_with_message in
  let m := perform (mem_hs allow_all)
             (get_room_membership "@bob:remote.org" "!room:remote.org") g.2 in
  (forall kwargs, kwargs ∈ created (calls o) ->
     kwarg "txn_id" kwargs = Some (opt_str_val (Some "txn8")) /\
     exists body,
       kwarg "content" kwargs = Some (PDict body) /\
       (forall k v, dict_lookup k new_content = Some v -> dict_lookup k body = Some v) /\
       (dict_lookup (PStr "m.relates_to") new_content = None ->
        dict_lookup (PStr "m.relates_to") body =
          Some (PDict [(PStr "rel_type", PStr "m.replace");
                       (PStr "event_id", PStr "$e1:remote.org")])) /\
       (dict_lookup (PStr "m.new_content") new_content = None ->
        dict_lookup (PStr "m.new_content") body = Some (PDict new_content))) /\
  (forall original, g.1 = Ret original -> py_truthy original = true ->
     py_getitem original "sender" = Ret (PStr "@bob:remote.org") ->
     m.1 = Ret (PStr "join") ->
     txn_is_new (mem_hs allow_all) m.2 "@bob:remote.org" "!room:remote.org" (Some "txn8") ->
     length (created (calls o)) = 1%nat).
Proof.
  apply (edit_message_content (mem_hs allow_all) "example.org" "!room:remote.org"
           "@bob:remote.org" "$e1:remote.org" [(PStr "body", PStr "edited")]
           (Some "txn8") db_with_message).
  reflexivity.
Defined.

(** The one event that is built there, and the transaction it is recorded
    under. *)
Lemma edit_with_txn_created :
  let o := run (mem_hs allow_all)
             (MessageSending.edit_message "example.org" "!room:remote.org"
                "@bob:remote.org" "$e1:remote.org" [(PStr "body", PStr "edited")]
                (Some "txn8"))
             db_with_message in
  (kwarg "txn_id" <$> created (calls o)) = [Some (PStr "txn8")] /\
  last (calls o) =
    Some (store_txn_id_mapping "@bob:remote.org" "!room:remote.org" "txn8"
            "$tokenA:example.org").
Proof. split; reflexivity. Qed.

(** An edit that names its own relation gets it. *)
Lemma edit_relation_overwritten :
  dict_lookup (PStr "m.relates_to")
    (MessageSending.edit_content "$e1:remote.org"
       [(PStr "body", PStr "edited"); (PStr "m.relates_to", PNone)]) = Some PNone.
Proof. reflexivity. Qed.

(** X13, witness: bob invites a user of another server, which accepts. *)
Lemma remote_invite_stored_on_acceptance_witness :
  let p := default (xraise (Exn ValueError ""))
             (FederationClient.invite_user_to_room "example.org" "key1"
                "!room:remote.org" "@bob:remote.org" "@zoe:far.org") in
  (forall r, xresult (xrun (xmem_hs allow_all friendly) p db_with_message) = Ret r ->
     exists token event,
       r = PDict [(PStr "event_id", PStr ("$" +:+ token +:+ ":" +:+ "example.org"))] /\
       xstored (xcalls (xrun (xmem_hs allow_all friendly) p db_with_message)) = [event] /\
       py_getitem event "event_id" =
         Ret (PStr ("$" +:+ token +:+ ":" +:+ "example.org")) /\
       py_getitem event "state_key" = Ret (PStr "@zoe:far.org") /\
       py_getitem event "sender" = Ret (PStr "@bob:remote.org") /\
       py_getitem event "content" = Ret (PDict [(PStr "membership", PStr "invite")])) /\
  ((forall server event w',
      accepted (xperform (xmem_hs allow_all friendly)
                  (other (client_send_invite server "!room:remote.org" event)) w').1
      = false) ->
   (exists e, xresult (xrun (xmem_hs allow_all friendly) p db_with_message) = Raise e) /\
   xstored (xcalls (xrun (xmem_hs allow_all friendly) p db_with_message)) = []).
Proof.
  apply (remote_invite_stored_on_acceptance (xmem_hs allow_all friendly)
           "example.org" "key1" "!room:remote.org" "@bob:remote.org" "@zoe:far.org").
  reflexivity.
Defined.

(** The invitation that was accepted, and the one nobody was there for. *)
Lemma remote_invite_examples :
  let invite hs :=
    xrun hs
      (default (xraise (Exn ValueError ""))
         (FederationClient.invite_user_to_room "example.org" "key1"
            "!room:remote.org" "@bob:remote.org" "@zoe:far.org"))
      db_with_message in
  xresult (invite (xmem_hs allow_all friendly)) =
    Ret (PDict [(PStr "event_id", PStr "$tokenA:example.org")]) /\
  length (xstored (xcalls (invite (xmem_hs allow_all friendly)))) = 1%nat /\
  xresult (invite (xmem_hs allow_all unreachable)) =
    Raise (Exn RuntimeError "connection refused") /\
  xstored (xcalls (invite (xmem_hs allow_all unreachable))) = [] /\
  FederationClient.invite_user_to_room "example.org" "key1"
    "!room:remote.org" "@bob:remote.org" "zoe" = None.
Proof. vm_compute. split_and!; reflexivity. Qed.

(** X15, witness: eve was never in the room. *)
Lemma outsider_sees_nothing_witness :
  let refused {A} (o : xoutcome A db) :=
    (exists msg, xresult o = Raise (Exn ValueError msg)) /\
    xcalls o = [known (get_room_membership "@eve:remote.org" "!room:remote.org")] in
  refused (xrun (xmem_hs allow_all friendly)
             (RoomDirectory.get_room_state "!room:remote.org" (Some "@eve:remote.org"))
             db_with_message) /\
  refused (xrun (xmem_hs allow_all friendly)
             (RoomDirectory.get_room_members "!room:remote.org" (Some "@eve:remote.org"))
             db_with_message) /\
  refused (xrun (xmem_hs allow_all friendly)
             (MessageHistory.get_room_messages "!room:remote.org" "@eve:remote.org"
                None None "b" 10)
             db_with_message) /\
  refused (xrun (xmem_hs allow_all friendly)
             (MessageHistory.get_event_context "!room:remote.org" "$e1:remote.org"
                "@eve:remote.org" 10)
             db_with_message).
Proof.
  apply (outsider_sees_nothing (xmem_hs allow_all friendly) "!room:remote.org"
           "@eve:remote.org" "$e1:remote.org" None None "b" 10 PNone db_with_message);
    reflexivity.
Defined.

(** X16, witness: bob has left the room. *)
Lemma former_member_reads_history_only_witness :
  other (store_get_room_messages "!room:remote.org" None None "b" 10)
    ∈ xcalls (xrun (xmem_hs allow_all friendly)
                (MessageHistory.get_room_messages "!room:remote.org" "@bob:remote.org"
                   None None "b" 10)
                db_after_leave) /\
  other (store_get_event_context "!room:remote.org" "$e1:remote.org" 10)
    ∈ xcalls (xrun (xmem_hs allow_all friendly)
                (MessageHistory.get_event_context "!room:remote.org" "$e1:remote.org"
                   "@bob:remote.org" 10)
                db_after_leave) /\
  xcalls (xrun (xmem_hs allow_all friendly)
            (RoomDirectory.get_room_state "!room:remote.org" (Some "@bob:remote.org"))
            db_after_leave)
    = [known (get_room_membership "@bob:remote.org" "!room:remote.org")] /\
  xcalls (xrun (xmem_hs allow_all friendly)
            (RoomDirectory.get_room_members "!room:remote.org" (Some "@bob:remote.org"))
            db_after_leave)
    = [known (get_room_membership "@bob:remote.org" "!room:remote.org")].
Proof.
  apply (former_member_reads_history_only (xmem_hs allow_all friendly)
           "!room:remote.org" "@bob:remote.org" "$e1:remote.org" None None "b" 10
           db_after_leave); reflexivity.
Defined.

(** X17, witness: a server name with a port. *)
Lemma profile_displayname_is_localpart_witness :
  FederationQueries.handle_query_profile "example.org:8448" "remote.org"
    "@alice:example.org:8448" None =
    (PDict [(PStr "displayname", PStr "alice"); (PStr "avatar_url", PNone)], 200) /\
  FederationQueries.handle_query_profile "example.org:8448" "remote.org"
    "@alice:example.org:8448" (Some "displayname") =
    (PDict [(PStr "displayname", PStr "alice")], 200).
Proof.
  apply (profile_displayname_is_localpart "example.org:8448" "remote.org" "alice");
    reflexivity.
Defined.

(** The profile endpoint on the other paths. *)
Lemma profile_other_answers :
  FederationQueries.handle_query_profile "example.org" "" "@alice:example.org" None =
    FederationQueries.forbidden "Missing origin server" /\
  FederationQueries.handle_query_profile "example.org" "remote.org" "@bob:remote.org" None =
    FederationQueries.not_found "User not found on this server" /\
  FederationQueries.handle_query_profile "example.org" "remote.org" "@alice:example.org"
    (Some "avatar_url") = (PDict [(PStr "avatar_url", PNone)], 200) /\
  FederationQueries.handle_query_profile "example.org" "remote.org" "@alice:example.org"
    (Some "email") = FederationQueries.not_found "Field email not found".
Proof. split_and!; reflexivity. Qed.

(** The auth engine admits the first state event and turns the second one
    down: only the first is stored, right after its check. *)
Lemma state_store_example :
  let second := PDict (dict_set (PStr "event_id") (PStr "$e2:remote.org") message_fields) in
  let only_first event :=
    Ret (PBool (py_eq event message_event)) in
  calls (run (mem_hs only_first)
           (FederationState._store_room_state "!room:remote.org" [message_event; second])
           empty_db) =
  [check_auth_rules_for_event message_event; store_event message_event;
   check_auth_rules_for_event second].
Proof. reflexivity. Qed.

(** A fetched event while the task is cancelled: at the remote call, or at
    the auth check that follows it.  With an auth engine that answers, the
    event comes back; with one that raises, [None] does. *)
Lemma cancelled_fetch_examples :
  let fetch auth others :=
    crun (cmem_hs auth others)
      (FederationClient.get_event_from_server "remote.org" "$e1:remote.org") empty_db in
  let allowing event := Some (allow_all event) in
  let broken (event : pyval) := Some (Raise (Exn RuntimeError "auth engine down")) in
  cresult (fetch allowing cancelled) = None /\
  ccalls (fetch allowing cancelled) =
    [other (client_get_event "remote.org" "$e1:remote.org")] /\
  cresult (fetch cancelled (sends message_event)) = None /\
  ccalls (fetch cancelled (sends message_event)) =
    [other (client_get_event "remote.org" "$e1:remote.org");
     known (check_auth_rules_for_event message_event)] /\
  cresult (fetch allowing (sends message_event)) = Some (Ret message_event) /\
  cresult (fetch broken (sends message_event)) = Some (Ret PNone).
Proof. split_and!; reflexivity. Qed.

(** A backfill and a transaction that are cancelled at the auth check: no
    list and no response come back, and nothing was stored. *)
Lemma cancelled_write_examples :
  let backfill :=
    crun (cmem_hs cancelled (sends message_event))
      (FederationClient.backfill_events "remote.org" "!room:remote.org" 10) empty_db in
  let transaction :=
    crun (cmem_hs cancelled (sends message_event))
      (widen (FederationAPI.handle_send_transaction "remote.org" "txn45"
                (PDict [(PStr "pdus", PList [message_event])])))
      empty_db in
  cresult backfill = None /\ xstored (ccalls backfill) = [] /\
  cresult transaction = None /\ xstored (ccalls transaction) = [].
Proof. split_and!; reflexivity. Qed.

End MoreExamples.

(** ** Properties of room creation *)

Section RoomCreationProperties.
Context {World : Type} (hs : xhomeserver World).
Import RoomCreation.

(** X19: [create_room] builds before it writes.  The calls of every
    execution split in two: a first part that writes nothing, and, if anything
    comes after it, that first part has built an [m.room.create], an
    [m.room.member] and an [m.room.power_levels] event, in this order, and
    what comes after begins with the room record handed to
    [store.create_room].  A [power_level_content_override] that
    [dict.update] cannot take stops the creation before anything is written; a
    dict or a sequence of key/value pairs is merged into the default power
    levels.  A call that returns has built, after those three events, an
    [m.room.name] event if the configuration has a truthy name and an
    [m.room.topic] event if it has a truthy topic, and has stored as many
    events as it built; the room id it returns is [!<token>:<hostname>], and
    the creation event carries the creator and the room version and never a
    predecessor. *)
Theorem create_room_events (hostname creator_user_id : string)
    (config : option (list (pyval * pyval))) (w : World) :
  let o := xrun hs (create_room hostname creator_user_id config) w in
  let name := default PNone (dict_lookup (PStr "name") (default [] config)) in
  let topic := default PNone (dict_lookup (PStr "topic") (default [] config)) in
  let override :=
    update_arg (default PNone
                  (dict_lookup (PStr "power_level_content_override")
                     (default [] config))) in
  (exists before after,
     xcalls o = (before ++ after)%list /\
     xstored before = [] /\ registered_rooms before = [] /\
     (after = [] \/
      created_types before =
        [PStr "m.room.create"; PStr "m.room.member"; PStr "m.room.power_levels"] /\
      exists room_config rest, after = other (store_create_room room_config) :: rest)) /\
  (forall e, override = Raise e ->
     (exists e', xresult o = Raise e') /\
     xstored (xcalls o) = [] /\ registered_rooms (xcalls o) = []) /\
  (forall r, xresult o = Ret r ->
     (exists override_content,
        override = Ret override_content /\
        created_contents (xcalls o) !! 2%nat =
          Some (PDict (RoomHandler.power_levels_content creator_user_id
                         override_content))) /\
     created_types (xcalls o) =
       ([PStr "m.room.create"; PStr "m.room.member"; PStr "m.room.power_levels"] ++
        (if py_truthy name then [PStr "m.room.name"] else []) ++
        (if py_truthy topic then [PStr "m.room.topic"] else []))%list /\
     length (xstored (xcalls o)) = length (created_types (xcalls o)) /\
     (exists token,
        py_getitem r "room_id" = Ret (PStr ("!" +:+ token +:+ ":" +:+ hostname))) /\
     head (created_contents (xcalls o)) =
       Some (PDict [(PStr "creator", PStr creator_user_id);
                    (PStr "room_version",
                      default (PStr "9")
                        (dict_lookup (PStr "room_version") (default [] config)))])).
Proof.
  unfold create_room, RoomMembership._generate_room_id,
    RoomMembership._create_room_creation_event, RoomMembership._create_member_event,
    RoomHandler._create_power_levels_event, RoomMembership._create_name_event,
    RoomMembership._create_topic_event.
  split_and!.
  - repeat (xrun_step ||
            match goal with
            | |- context [update_arg ?v] => destruct (update_arg v) as [?|?]
            end).
    all: match goal with
         | |- exists before after, ?cs = _ /\ _ => exists (take 4 cs), (drop 4 cs)
         end.
    all: split_and!; [reflexivity..|].
    all: first [by left | right; split; [reflexivity|by do 2 eexists]].
  - repeat (xrun_step ||
            match goal with
            | |- context [update_arg ?v] => destruct (update_arg v) as [?|?]
            end); try done.
    all: intros ? _; split_and!; [by eexists|reflexivity..].
  - repeat (xrun_step ||
            match goal with
            | |- context [update_arg ?v] => destruct (update_arg v) as [?|?]
            end); try done.
    all: intros r [= <-]; split_and!; try reflexivity; try (by eexists).
    all: eexists; split; reflexivity.
Qed.

End RoomCreationProperties.

Section RoomCreationExamples.
Import InMemory InMemoryX Sample.

(** A named room without a topic: four events built and stored.  An
    override given as a list of pairs is merged into the power levels; one that
    is a number stops the creation before anything is written. *)
Lemma create_room_examples :
  let create config :=
    xrun (xmem_hs allow_all friendly)
      (RoomCreation.create_room "example.org" "@alice:example.org" (Some config))
      empty_db in
  let lounge := create [(PStr "name", PStr "Lounge"); (PStr "topic", PStr "")] in
  let pairs := create [(PStr "power_level_content_override",
                         PList [PList [PStr "invite"; PInt 0]])] in
  let broken := create [(PStr "power_level_content_override", PInt 3)] in
  xresult lounge =
    Ret (PDict [(PStr "room_id", PStr "!token:example.org");
                (PStr "room_alias", PNone);
                (PStr "preset", PStr "private_chat")]) /\
  created_types (xcalls lounge) =
    [PStr "m.room.create"; PStr "m.room.member"; PStr "m.room.power_levels";
     PStr "m.room.name"] /\
  length (xstored (xcalls lounge)) = 4%nat /\
  accepted (xresult pairs) = true /\
  (fun content => py_getitem content "invite") <$> created_contents (xcalls pairs) !! 2%nat
    = Some (Ret (PInt 0)) /\
  length (xstored (xcalls pairs)) = 3%nat /\
  xresult broken = Raise (Exn TypeError "'int' object is not iterable") /\
  created_types (xcalls broken) = [PStr "m.room.create"; PStr "m.room.member"] /\
  registered_rooms (xcalls broken) = [] /\
  xstored (xcalls broken) = [].
Proof. vm_compute. split_and!; reflexivity. Qed.

End RoomCreationExamples.
